(** * Session management of the admin dashboard

    A shallow embedding of the client-side authentication code:

    - [lib/auth.ts]  (class [AuthService]: the Session Manager and the
      Token Store on top of js-cookie),
    - [lib/api.ts]   (the axios instance with its two interceptors),
    - [contexts/AuthContext.tsx] (the [AuthProvider]: bootstrap, login,
      register, logout, updateProfile).

    together with the guard that the pages put on the context value.

    JavaScript strings are sequences of UTF-16 code units.  The cookie jar
    is a finite map from cookie names to values, which is the contract of
    js-cookie's [get], [set] and [remove]; [set] passes the value through
    [encodeURIComponent], which throws a [URIError] on a string that is not
    well-formed UTF-16, and writes nothing then.  What the browser itself
    may refuse to keep (a cookie over its size limit, say) is outside of
    the model.  [JSON.stringify] and [JSON.parse] follow ECMA-262.  Every
    answer of the backend is an explicit argument of the operation that
    awaits it, and a successful answer carries a body of the type the
    source declares for it.  Operations run one at a time.  A click on a
    page is its handler followed by the effects that React runs on the
    render that follows. *)

From Stdlib Require Import NArith ZArith Lia List String Ascii Bool DecimalString.
From stdpp Require Import base option list gmap strings.
Import ListNotations.

Set Warnings "-register-all".

(** ** JavaScript strings *)

(** A string value: its UTF-16 code units. *)
Abbreviation jstr := (list N) (only parsing).

(** The code units of an ASCII literal of the source. *)
Definition js (s : string) : jstr :=
  map N_of_ascii (list_ascii_of_string s).

(** Every element is a 16-bit code unit. *)
Definition wf_str (s : jstr) : Prop := Forall (fun c => (c < 65536)%N) s.

Module Json.

Local Open Scope N_scope.

(** ** JSON values

    What [JSON.parse] can return.  A number keeps the text of its literal:
    the conversion to an IEEE double is not reproduced, only what the code
    observes of a parsed number (whether it is zero).  An object is the list
    of its own properties in creation order; JavaScript enumerates names
    that are array indices before the others, and no name in the source is
    one. *)
Inductive json : Type :=
  | JNull
  | JBool (b : bool)
  | JNum (literal : jstr)
  | JStr (s : jstr)
  | JArr (items : list json)
  | JObj (props : list (jstr * json)).

(** [o[k]] for an own property. *)
Fixpoint obj_get (k : jstr) (props : list (jstr * json)) : option json :=
  match props with
  | [] => None
  | (k', v) :: rest => if decide (k = k') then Some v else obj_get k rest
  end.

(** [o[k] = v]: an existing property keeps its place, a new one goes last. *)
Fixpoint obj_set (k : jstr) (v : json) (props : list (jstr * json))
  : list (jstr * json) :=
  match props with
  | [] => [(k, v)]
  | (k', v') :: rest =>
      if decide (k = k') then (k', v) :: rest else (k', v') :: obj_set k v rest
  end.

(** *** Characters *)

Definition is_ws (c : N) : bool :=
  (c =? 9) || (c =? 10) || (c =? 13) || (c =? 32).

Definition is_digit (c : N) : bool := (48 <=? c) && (c <=? 57).

Definition is_high (c : N) : bool := (0xD800 <=? c) && (c <=? 0xDBFF).
Definition is_low (c : N) : bool := (0xDC00 <=? c) && (c <=? 0xDFFF).

(** *** Truthiness *)

Fixpoint span_digits (s : jstr) : jstr * jstr :=
  match s with
  | c :: r =>
      if is_digit c
      then let '(d, r') := span_digits r in (c :: d, r')
      else ([], s)
  | [] => ([], [])
  end.

Definition digits_value (d : jstr) : N :=
  fold_left (fun acc c => 10 * acc + (c - 48)) d 0.

(** Whether the double denoted by a number literal is zero.  The literal
    denotes [m * 10^e]; it rounds to zero when [m] is zero or when the
    decimal is not above half of the least subnormal, [2^-1075]. *)
Definition num_is_zero (lit : jstr) : bool :=
  let s0 := match lit with c :: r => if c =? 45 then r else lit | [] => [] end in
  let '(int, s1) := span_digits s0 in
  let '(frac, s2) :=
    match s1 with
    | c :: r => if c =? 46 then span_digits r else ([], s1)
    | [] => ([], [])
    end in
  let ex : Z :=
    match s2 with
    | _ :: c :: r =>
        if c =? 45 then (- Z.of_N (digits_value r))%Z
        else if c =? 43 then Z.of_N (digits_value r)
        else Z.of_N (digits_value (c :: r))
    | _ => 0%Z
    end in
  let m := digits_value (int ++ frac) in
  let e := (ex - Z.of_nat (length frac))%Z in
  (m =? 0) ||
  ((e <? 0)%Z && (Z.of_N m * 2 ^ 1075 <=? 10 ^ (- e))%Z).

(** [ToBoolean] on a parsed value. *)
Definition truthy (v : json) : bool :=
  match v with
  | JNull => false
  | JBool b => b
  | JNum lit => negb (num_is_zero lit)
  | JStr s => match s with [] => false | _ => true end
  | JArr _ | JObj _ => true
  end.

(** *** JSON.stringify *)

Definition hex_digit (d : N) : N := if d <? 10 then 48 + d else 87 + d.

(** [\uXXXX] with lower-case digits. *)
Definition unicode_escape (c : N) : jstr :=
  [92; 117; hex_digit (c / 4096 mod 16); hex_digit (c / 256 mod 16);
   hex_digit (c / 16 mod 16); hex_digit (c mod 16)].

(** One code point that is a single code unit. *)
Definition quote_unit (c : N) : jstr :=
  if c =? 8 then [92; 98]
  else if c =? 9 then [92; 116]
  else if c =? 10 then [92; 110]
  else if c =? 12 then [92; 102]
  else if c =? 13 then [92; 114]
  else if c =? 34 then [92; 34]
  else if c =? 92 then [92; 92]
  else if (c <? 32) || is_high c || is_low c then unicode_escape c
  else [c].

(** The code points of the string in order: a high surrogate followed by a
    low one is one code point and is copied, every other unit goes through
    [quote_unit]. *)
Fixpoint quote_units (s : jstr) : jstr :=
  match s with
  | [] => []
  | c :: r =>
      match r with
      | d :: r' =>
          if is_high c && is_low d then c :: d :: quote_units r'
          else quote_unit c ++ quote_units r
      | [] => quote_unit c
      end
  end.

(** QuoteJSONString. *)
Definition quote (s : jstr) : jstr := 34 :: quote_units s ++ [34].

(** Texts joined by commas. *)
Fixpoint join_comma (l : list jstr) : jstr :=
  match l with
  | [] => []
  | [x] => x
  | x :: rest => x ++ 44 :: join_comma rest
  end.

(** [JSON.stringify(v)] with neither replacer nor indentation.  A number
    prints as the literal it was read from. *)
Fixpoint stringify (v : json) : jstr :=
  match v with
  | JNull => js "null"
  | JBool true => js "true"
  | JBool false => js "false"
  | JNum lit => lit
  | JStr s => quote s
  | JArr items => 91 :: join_comma (map stringify items) ++ [93]
  | JObj props =>
      123 :: join_comma
               (map (fun kv => quote (fst kv) ++ 58 :: stringify (snd kv)) props)
          ++ [125]
  end.

(** *** JSON.parse *)

Fixpoint skip_ws (s : jstr) : jstr :=
  match s with
  | c :: r => if is_ws c then skip_ws r else s
  | [] => []
  end.

Definition hex_val (c : N) : option N :=
  if (48 <=? c) && (c <=? 57) then Some (c - 48)
  else if (97 <=? c) && (c <=? 102) then Some (c - 87)
  else if (65 <=? c) && (c <=? 70) then Some (c - 55)
  else None.

Definition hex4 (a b c d : N) : option N :=
  match hex_val a, hex_val b, hex_val c, hex_val d with
  | Some x, Some y, Some z, Some w => Some (4096 * x + 256 * y + 16 * z + w)
  | _, _, _, _ => None
  end.

(** The character a single-letter escape stands for. *)
Definition unescape (e : N) : option N :=
  if e =? 34 then Some 34
  else if e =? 92 then Some 92
  else if e =? 47 then Some 47
  else if e =? 98 then Some 8
  else if e =? 102 then Some 12
  else if e =? 110 then Some 10
  else if e =? 114 then Some 13
  else if e =? 116 then Some 9
  else None.

Definition cons_chars (c : N) (r : option (jstr * jstr)) : option (jstr * jstr) :=
  match r with
  | Some (s, rest) => Some (c :: s, rest)
  | None => None
  end.

(** The characters of a string literal after its opening quote, up to and
    including the closing one. *)
Fixpoint parse_chars (s : jstr) : option (jstr * jstr) :=
  match s with
  | [] => None
  | c :: r =>
      if c =? 34 then Some ([], r)
      else if c =? 92 then
        match r with
        | [] => None
        | e :: r1 =>
            if e =? 117 then
              match r1 with
              | h1 :: h2 :: h3 :: h4 :: r2 =>
                  match hex4 h1 h2 h3 h4 with
                  | Some u => cons_chars u (parse_chars r2)
                  | None => None
                  end
              | _ => None
              end
            else
              match unescape e with
              | Some u => cons_chars u (parse_chars r1)
              | None => None
              end
        end
      else if c <? 32 then None
      else cons_chars c (parse_chars r)
  end.

(** [0] or a non-empty run of digits that does not start with [0]. *)
Definition scan_int (s : jstr) : option (jstr * jstr) :=
  match s with
  | c :: r =>
      if c =? 48 then Some ([48], r)
      else if is_digit c then let '(d, r') := span_digits r in Some (c :: d, r')
      else None
  | [] => None
  end.

Definition scan_frac (s : jstr) : option (jstr * jstr) :=
  match s with
  | c :: r =>
      if c =? 46 then
        match span_digits r with
        | ([], _) => None
        | (d, r') => Some (c :: d, r')
        end
      else Some ([], s)
  | [] => Some ([], [])
  end.

Definition scan_exp (s : jstr) : option (jstr * jstr) :=
  match s with
  | c :: r =>
      if (c =? 101) || (c =? 69) then
        let '(sign, r1) :=
          match r with
          | x :: r1 => if (x =? 43) || (x =? 45) then ([x], r1) else ([], r)
          | [] => ([], r)
          end in
        match span_digits r1 with
        | ([], _) => None
        | (d, r') => Some (c :: sign ++ d, r')
        end
      else Some ([], s)
  | [] => Some ([], [])
  end.

(** A number literal and what follows it. *)
Definition scan_number (s : jstr) : option (jstr * jstr) :=
  let '(sign, s1) :=
    match s with
    | c :: r => if c =? 45 then ([45], r) else ([], s)
    | [] => ([], s)
    end in
  match scan_int s1 with
  | None => None
  | Some (i, s2) =>
      match scan_frac s2 with
      | None => None
      | Some (f, s3) =>
          match scan_exp s3 with
          | None => None
          | Some (e, s4) => Some (sign ++ i ++ f ++ e, s4)
          end
      end
  end.

(** What is left of [s] after the literal [lit]. *)
Fixpoint strip_prefix (lit s : jstr) : option jstr :=
  match lit, s with
  | [], _ => Some s
  | a :: lit', b :: s' => if a =? b then strip_prefix lit' s' else None
  | _ :: _, [] => None
  end.

Section Members.

(** The parser of one value, a level further down. *)
Variable pv : jstr -> option (json * jstr).

(** The members of an object after the first key's position is reached,
    up to and including the closing brace.  A repeated key overwrites. *)
Fixpoint parse_members (k : nat) (acc : list (jstr * json)) (s : jstr)
  : option (json * jstr) :=
  match k with
  | O => None
  | S k' =>
      match skip_ws s with
      | q :: r =>
          if q =? 34 then
            match parse_chars r with
            | Some (key, r1) =>
                match skip_ws r1 with
                | col :: r2 =>
                    if col =? 58 then
                      match pv r2 with
                      | Some (v, r3) =>
                          match skip_ws r3 with
                          | d :: r4 =>
                              if d =? 44
                              then parse_members k' (obj_set key v acc) r4
                              else if d =? 125
                              then Some (JObj (obj_set key v acc), r4)
                              else None
                          | [] => None
                          end
                      | None => None
                      end
                    else None
                | [] => None
                end
            | None => None
            end
          else None
      | [] => None
      end
  end.

(** The elements of an array up to and including the closing bracket. *)
Fixpoint parse_elements (k : nat) (acc : list json) (s : jstr)
  : option (json * jstr) :=
  match k with
  | O => None
  | S k' =>
      match pv s with
      | Some (v, r) =>
          match skip_ws r with
          | d :: r' =>
              if d =? 44 then parse_elements k' (acc ++ [v]) r'
              else if d =? 93 then Some (JArr (acc ++ [v]), r')
              else None
          | [] => None
          end
      | None => None
      end
  end.

End Members.

(** One value, with leading white space; [n] bounds the nesting depth. *)
Fixpoint parse_value (n : nat) (s : jstr) : option (json * jstr) :=
  match n with
  | O => None
  | S n' =>
      match skip_ws s with
      | [] => None
      | c :: r =>
          if c =? 123 then
            match skip_ws r with
            | c' :: r' =>
                if c' =? 125 then Some (JObj [], r')
                else parse_members (parse_value n') (length r) [] r
            | [] => None
            end
          else if c =? 91 then
            match skip_ws r with
            | c' :: r' =>
                if c' =? 93 then Some (JArr [], r')
                else parse_elements (parse_value n') (length r) [] r
            | [] => None
            end
          else if c =? 34 then
            match parse_chars r with
            | Some (str, r') => Some (JStr str, r')
            | None => None
            end
          else if c =? 116 then
            match strip_prefix (js "rue") r with
            | Some r' => Some (JBool true, r')
            | None => None
            end
          else if c =? 102 then
            match strip_prefix (js "alse") r with
            | Some r' => Some (JBool false, r')
            | None => None
            end
          else if c =? 110 then
            match strip_prefix (js "ull") r with
            | Some r' => Some (JNull, r')
            | None => None
            end
          else
            match scan_number (c :: r) with
            | Some (lit, r') => Some (JNum lit, r')
            | None => None
            end
      end
  end.

(** [JSON.parse(text)]: one value and nothing but white space after it;
    [None] stands for the SyntaxError.  No text nests deeper than it is
    long. *)
Definition parse (text : jstr) : option json :=
  match parse_value (S (length text)) text with
  | Some (v, rest) => match skip_ws rest with [] => Some v | _ => None end
  | None => None
  end.

End Json.

Import Json.

(** ** Data of [lib/auth.ts] *)

Record Address : Type := {
  street : option jstr;
  city : option jstr;
  state : option jstr;
  country : option jstr;
  zipCode : option jstr;
}.

Record AdminUser : Type := {
  id : jstr;
  email : jstr;
  firstName : jstr;
  lastName : jstr;
  role : jstr;
  isEmailVerified : bool;
  isPhoneVerified : bool;
  isActive : bool;
  phone : option jstr;
  dateOfBirth : option jstr;
  gender : option jstr;
  profilePicture : option jstr;
  address : option Address;
  createdAt : jstr;
  updatedAt : jstr;
  lastLogin : option jstr;
}.

Module LoginRequest.
Record t : Type := { email : jstr; password : jstr }.
End LoginRequest.

Module RegisterRequest.
Record t : Type := {
  email : jstr;
  password : jstr;
  firstName : jstr;
  lastName : jstr;
  phone : option jstr;
}.
End RegisterRequest.

(** The [data] of an [AuthResponse]. *)
Record AuthData : Type := {
  data_user : AdminUser;
  data_token : jstr;
  data_refreshToken : jstr;
}.

Record AuthResponse : Type := {
  success : bool;
  message : jstr;
  data : AuthData;
}.

(** The body of [forgot-password] and [reset-password]. *)
Record Ack : Type := { ack_success : bool; ack_message : jstr }.

(** *** Records as the objects they are at run time

    A property that is absent in the record is absent in the object. *)

Definition prop (k : string) (v : json) : list (jstr * json) := [(js k, v)].

Definition opt_prop (k : string) (v : option json) : list (jstr * json) :=
  match v with
  | Some x => [(js k, x)]
  | None => []
  end.

Definition address_to_json (a : Address) : json :=
  JObj (opt_prop "street" (JStr <$> street a)
        ++ opt_prop "city" (JStr <$> city a)
        ++ opt_prop "state" (JStr <$> state a)
        ++ opt_prop "country" (JStr <$> country a)
        ++ opt_prop "zipCode" (JStr <$> zipCode a)).

Definition user_to_json (u : AdminUser) : json :=
  JObj (prop "id" (JStr (id u))
        ++ prop "email" (JStr (email u))
        ++ prop "firstName" (JStr (firstName u))
        ++ prop "lastName" (JStr (lastName u))
        ++ prop "role" (JStr (role u))
        ++ prop "isEmailVerified" (JBool (isEmailVerified u))
        ++ prop "isPhoneVerified" (JBool (isPhoneVerified u))
        ++ prop "isActive" (JBool (isActive u))
        ++ opt_prop "phone" (JStr <$> phone u)
        ++ opt_prop "dateOfBirth" (JStr <$> dateOfBirth u)
        ++ opt_prop "gender" (JStr <$> gender u)
        ++ opt_prop "profilePicture" (JStr <$> profilePicture u)
        ++ opt_prop "address" (address_to_json <$> address u)
        ++ prop "createdAt" (JStr (createdAt u))
        ++ prop "updatedAt" (JStr (updatedAt u))
        ++ opt_prop "lastLogin" (JStr <$> lastLogin u)).

Definition login_request_to_json (r : LoginRequest.t) : json :=
  JObj (prop "email" (JStr (LoginRequest.email r))
        ++ prop "password" (JStr (LoginRequest.password r))).

Definition register_request_props (r : RegisterRequest.t) : list (jstr * json) :=
  prop "email" (JStr (RegisterRequest.email r))
  ++ prop "password" (JStr (RegisterRequest.password r))
  ++ prop "firstName" (JStr (RegisterRequest.firstName r))
  ++ prop "lastName" (JStr (RegisterRequest.lastName r))
  ++ opt_prop "phone" (JStr <$> RegisterRequest.phone r).

(** Well-formed records: every string is a sequence of 16-bit units. *)
Definition wf_opt (o : option jstr) : Prop :=
  match o with Some s => wf_str s | None => True end.

Definition wf_address (a : Address) : Prop :=
  wf_opt (street a) /\ wf_opt (city a) /\ wf_opt (state a)
  /\ wf_opt (country a) /\ wf_opt (zipCode a).

Definition wf_user (u : AdminUser) : Prop :=
  wf_str (id u) /\ wf_str (email u) /\ wf_str (firstName u)
  /\ wf_str (lastName u) /\ wf_str (role u)
  /\ wf_opt (phone u) /\ wf_opt (dateOfBirth u) /\ wf_opt (gender u)
  /\ wf_opt (profilePicture u)
  /\ match address u with Some a => wf_address a | None => True end
  /\ wf_str (createdAt u) /\ wf_str (updatedAt u) /\ wf_opt (lastLogin u).

(** ** The client and its environment *)

(** What axios sends, after the request interceptor. *)
Record Request : Type := {
  method : string;
  url : string;
  body : option json;
  authorization : option jstr;
}.

(** What comes back for one request.  axios resolves a response whose
    status is in the 2xx range and rejects every other one; [T] is the type
    of the body of a resolved response. *)
Inductive Reply (T : Type) : Type :=
  | Fulfilled (payload : T)
      (** a 2xx response with its body, [response.data] *)
  | Failed (status : N) (err : option jstr)
      (** any other status; [err] is [error.response.data.error] when the
          body has one *)
  | NoResponse (msg : jstr).
      (** network failure or the 10 s timeout: [error.response] is absent *)
Arguments Fulfilled {T} payload.
Arguments Failed {T} status err.
Arguments NoResponse {T} msg.

(** What can be thrown. *)
Inductive Exn : Type :=
  | JsError (msg : jstr)
      (** [new Error(msg)] *)
  | AxiosError (msg : jstr) (response : option (N * option jstr))
      (** the rejection of a request, with status and error field of its
          response when there is one *)
  | URIError (msg : jstr).
      (** what [encodeURIComponent] throws; it has no [response] *)

Definition exn_message (e : Exn) : jstr :=
  match e with
  | JsError m => m
  | AxiosError m _ => m
  | URIError m => m
  end.

(** [error.response?.data?.error]. *)
Definition response_error (e : Exn) : option jstr :=
  match e with
  | AxiosError _ (Some (_, err)) => err
  | _ => None
  end.

(** [error.response?.status]. *)
Definition response_status (e : Exn) : option N :=
  match e with
  | AxiosError _ (Some (st, _)) => Some st
  | _ => None
  end.

(** [x || fallback] on a string that may be absent. *)
Definition or_else (x : option jstr) (fallback : jstr) : jstr :=
  match x with
  | Some (c :: s) => c :: s
  | _ => fallback
  end.

(** The browser tab: cookies, location, what was sent and logged, and the
    state of the [AuthProvider]. *)
Record Client : Type := {
  cookies : gmap string jstr;
  href : option string;     (** the last assignment to window.location.href *)
  sent : list Request;
  console : list jstr;      (** console.error, first argument *)
  routes : list string;     (** router.push *)
  user : json;              (** useState: AdminUser | null *)
  isLoading : bool;
  error : option jstr;
}.

Definition with_cookies (f : gmap string jstr -> gmap string jstr) (c : Client) : Client :=
  {| cookies := f (cookies c); href := href c; sent := sent c;
     console := console c; routes := routes c; user := user c;
     isLoading := isLoading c; error := error c |}.

Definition with_href (h : string) (c : Client) : Client :=
  {| cookies := cookies c; href := Some h; sent := sent c;
     console := console c; routes := routes c; user := user c;
     isLoading := isLoading c; error := error c |}.

Definition with_sent (r : Request) (c : Client) : Client :=
  {| cookies := cookies c; href := href c; sent := sent c ++ [r];
     console := console c; routes := routes c; user := user c;
     isLoading := isLoading c; error := error c |}.

Definition with_console (l : jstr) (c : Client) : Client :=
  {| cookies := cookies c; href := href c; sent := sent c;
     console := console c ++ [l]; routes := routes c; user := user c;
     isLoading := isLoading c; error := error c |}.

Definition with_route (r : string) (c : Client) : Client :=
  {| cookies := cookies c; href := href c; sent := sent c;
     console := console c; routes := routes c ++ [r]; user := user c;
     isLoading := isLoading c; error := error c |}.

Definition with_user (u : json) (c : Client) : Client :=
  {| cookies := cookies c; href := href c; sent := sent c;
     console := console c; routes := routes c; user := u;
     isLoading := isLoading c; error := error c |}.

Definition with_isLoading (b : bool) (c : Client) : Client :=
  {| cookies := cookies c; href := href c; sent := sent c;
     console := console c; routes := routes c; user := user c;
     isLoading := b; error := error c |}.

Definition with_error (e : option jstr) (c : Client) : Client :=
  {| cookies := cookies c; href := href c; sent := sent c;
     console := console c; routes := routes c; user := user c;
     isLoading := isLoading c; error := e |}.

(** *** Computations: state and exceptions *)

Inductive Result (A : Type) : Type :=
  | Return (a : A)
  | Throw (e : Exn).
Arguments Return {A} a.
Arguments Throw {A} e.

Definition Js (A : Type) : Type := Client -> Result A * Client.

Definition ret {A} (a : A) : Js A := fun c => (Return a, c).

Definition throw {A} (e : Exn) : Js A := fun c => (Throw e, c).

Definition bind {A B} (m : Js A) (k : A -> Js B) : Js B :=
  fun c =>
    match m c with
    | (Return a, c') => k a c'
    | (Throw e, c') => (Throw e, c')
    end.

(** [try { m } catch (e) { h e }]. *)
Definition try_catch {A} (m : Js A) (h : Exn -> Js A) : Js A :=
  fun c =>
    match m c with
    | (Return a, c') => (Return a, c')
    | (Throw e, c') => h e c'
    end.

(** [try { m } finally { f }]: [f] runs on both ways out, and the outcome of
    [m] stands unless [f] throws. *)
Definition try_finally {A} (m : Js A) (f : Js unit) : Js A :=
  fun c =>
    match m c with
    | (r, c') =>
        match f c' with
        | (Return _, c'') => (r, c'')
        | (Throw e, c'') => (Throw e, c'')
        end
    end.

Definition gets {A} (f : Client -> A) : Js A := fun c => (Return (f c), c).

Definition modify (f : Client -> Client) : Js unit := fun c => (Return tt, f c).

Declare Scope js_scope.
Delimit Scope js_scope with js.
Notation "x <- m ;; k" := (bind m (fun x => k))
  (at level 100, m at next level, right associativity) : js_scope.
Notation "m ;;; k" := (bind m (fun _ => k))
  (at level 100, right associativity) : js_scope.
Local Open Scope js_scope.

(** ** js-cookie *)

Module Cookies.

(** [String.prototype.isWellFormed]: no lone surrogate.  A high surrogate
    has to be followed by a low one, and a low one has to follow a high
    one. *)
Fixpoint isWellFormed (s : jstr) : bool :=
  match s with
  | [] => true
  | c :: r =>
      if is_high c
      then match r with
           | d :: r' => is_low d && isWellFormed r'
           | [] => false
           end
      else negb (is_low c) && isWellFormed r
  end.

(** The cookie [name] holding [value]. *)
Definition put (name : string) (value : jstr) (c : Client) : Client :=
  with_cookies (insert name value) c.

(** [Cookies.set(name, value, attributes)].  The value is written as
    [encodeURIComponent(value)], which throws a [URIError] exactly when the
    value is not well formed; nothing is written then.  The attributes
    (expiry, secure, sameSite) are not observed by the code.  The message
    is the one of V8; nothing reads it. *)
Definition set (name : string) (value : jstr) : Js unit :=
  fun c =>
    if isWellFormed value then (Return tt, put name value c)
    else (Throw (URIError (js "URI malformed")), c).

End Cookies.

(** ** [lib/api.ts]: the axios instance *)

Module Api.

(** The request interceptor: the bearer header when a token cookie is
    there. *)
Definition on_request (config : Request) : Js Request :=
  token <- gets (fun c => cookies c !! "admin_token");;
  match token with
  | Some (ch :: t) =>
      ret {| method := method config; url := url config;
             body := body config;
             authorization := Some (js "Bearer " ++ ch :: t) |}
  | _ => ret config
  end.

(** The response interceptor, on a rejection. *)
Definition on_rejected {A} (error : Exn) : Js A :=
  (if decide (response_status error = Some 401%N)
   then
     modify (with_cookies (delete "admin_token"));;;
     modify (with_cookies (delete "admin_user"));;;
     modify (with_href "/auth/login")
   else ret tt);;;
  throw error.

(** The message axios gives a rejected status. *)
Definition status_message (status : N) : jstr :=
  js "Request failed with status code "
  ++ js (NilEmpty.string_of_uint (N.to_uint status)).

(** One request through both interceptors. *)
Definition send {T} (m u : string) (b : option json) (reply : Reply T) : Js T :=
  config <- on_request {| method := m; url := u; body := b;
                          authorization := None |};;
  modify (with_sent config);;;
  match reply with
  | Fulfilled payload => ret payload
  | Failed status err =>
      on_rejected (AxiosError (status_message status) (Some (status, err)))
  | NoResponse msg => on_rejected (AxiosError msg None)
  end.

Definition post {T} (u : string) (b : option json) (reply : Reply T) : Js T :=
  send "POST" u b reply.

Definition get {T} (u : string) (reply : Reply T) : Js T :=
  send "GET" u None reply.

Definition put {T} (u : string) (b : json) (reply : Reply T) : Js T :=
  send "PUT" u (Some b) reply.

End Api.

(** ** [lib/auth.ts]: class AuthService *)

Module AuthService.

Definition TOKEN_KEY : string := "admin_token".
Definition USER_KEY : string := "admin_user".
Definition REFRESH_TOKEN_KEY : string := "admin_refresh_token".

(** *** Token management *)

Definition setToken (token : jstr) : Js unit := Cookies.set TOKEN_KEY token.

(** [Cookies.get(KEY) || null] *)
Definition getToken (c : Client) : option jstr :=
  match cookies c !! TOKEN_KEY with
  | Some (ch :: t) => Some (ch :: t)
  | _ => None
  end.

Definition setRefreshToken (refreshToken : jstr) : Js unit :=
  Cookies.set REFRESH_TOKEN_KEY refreshToken.

Definition getRefreshToken (c : Client) : option jstr :=
  match cookies c !! REFRESH_TOKEN_KEY with
  | Some (ch :: t) => Some (ch :: t)
  | _ => None
  end.

(** *** User management *)

(** [JSON.stringify] writes a lone surrogate as an escape, so that its text
    is well formed and [Cookies.set] has nothing to refuse. *)
Definition setUser (u : AdminUser) (c : Client) : Client :=
  with_cookies (insert USER_KEY (stringify (user_to_json u))) c.

(** [JNull] is [null]. *)
Definition getUser (c : Client) : json :=
  match cookies c !! USER_KEY with
  | Some (ch :: t) =>
      match parse (ch :: t) with
      | Some v => v
      | None => JNull
      end
  | _ => JNull
  end.

Definition clearAuth (c : Client) : Client :=
  with_cookies (delete REFRESH_TOKEN_KEY)
    (with_cookies (delete USER_KEY)
       (with_cookies (delete TOKEN_KEY) c)).

(** [!!(token && user)] *)
Definition isAuthenticated (c : Client) : bool :=
  match getToken c with
  | Some _ => truthy (getUser c)
  | None => false
  end.

(** [v?.role === 'admin'] *)
Definition role_is_admin (v : json) : bool :=
  match v with
  | JObj props =>
      match obj_get (js "role") props with
      | Some (JStr r) => bool_decide (r = js "admin")
      | _ => false
      end
  | _ => false
  end.

Definition isAdmin (c : Client) : bool := role_is_admin (getUser c).

(** *** Operations that call the backend *)

Definition login (credentials : LoginRequest.t) (reply : Reply AuthResponse)
  : Js AuthResponse :=
  try_catch
    (response <- Api.post "/auth/login"
                   (Some (login_request_to_json credentials)) reply;;
     setToken (data_token (data response));;;
     setRefreshToken (data_refreshToken (data response));;;
     modify (setUser (data_user (data response)));;;
     ret response)
    (fun error =>
       throw (JsError (or_else (response_error error) (js "Login failed")))).

Definition register (userData : RegisterRequest.t) (reply : Reply AuthResponse)
  : Js AuthResponse :=
  try_catch
    (response <- Api.post "/auth/register"
                   (Some (JObj (obj_set (js "role") (JStr (js "admin"))
                                  (register_request_props userData)))) reply;;
     setToken (data_token (data response));;;
     setRefreshToken (data_refreshToken (data response));;;
     modify (setUser (data_user (data response)));;;
     ret response)
    (fun error =>
       throw (JsError (or_else (response_error error)
                         (js "Registration failed")))).

Definition logout (reply : Reply unit) : Js unit :=
  try_finally
    (try_catch
       (Api.post "/auth/logout" None reply)
       (fun error => modify (with_console (js "Logout API call failed:"))))
    (modify clearAuth).

Definition forgotPassword (mail : jstr) (reply : Reply Ack) : Js Ack :=
  try_catch
    (Api.post "/auth/forgot-password"
       (Some (JObj (prop "email" (JStr mail)))) reply)
    (fun error =>
       throw (JsError (or_else (response_error error)
                         (js "Failed to send reset email")))).

Definition resetPassword (token password : jstr) (reply : Reply Ack) : Js Ack :=
  try_catch
    (Api.post "/auth/reset-password"
       (Some (JObj (prop "token" (JStr token)
                    ++ prop "password" (JStr password)))) reply)
    (fun error =>
       throw (JsError (or_else (response_error error)
                         (js "Failed to reset password")))).

(** The reply carries [response.data.data.token]. *)
Definition refreshToken (reply : Reply jstr) : Js jstr :=
  try_catch
    (stored <- gets getRefreshToken;;
     match stored with
     | None => throw (JsError (js "No refresh token available"))
     | Some refreshToken =>
         token <- Api.post "/auth/refresh"
                    (Some (JObj (prop "refreshToken" (JStr refreshToken))))
                    reply;;
         setToken token;;;
         ret token
     end)
    (fun error =>
       modify clearAuth;;;
       throw (JsError (js "Token refresh failed"))).

(** The reply carries [response.data.data]. *)
Definition getCurrentUser (reply : Reply AdminUser) : Js AdminUser :=
  try_catch
    (u <- Api.get "/users/profile" reply;;
     modify (setUser u);;;
     ret u)
    (fun error =>
       throw (JsError (or_else (response_error error)
                         (js "Failed to get user profile")))).

Definition updateProfile (userData : json) (reply : Reply AdminUser)
  : Js AdminUser :=
  try_catch
    (u <- Api.put "/users/profile" userData reply;;
     modify (setUser u);;;
     ret u)
    (fun error =>
       throw (JsError (or_else (response_error error)
                         (js "Failed to update profile")))).

End AuthService.

(** ** [contexts/AuthContext.tsx]: the AuthProvider *)

Module AuthContext.

Definition setUser (u : json) : Js unit := modify (with_user u).
Definition setIsLoading (b : bool) : Js unit := modify (with_isLoading b).
Definition setError (e : option jstr) : Js unit := modify (with_error e).
Definition router_push (r : string) : Js unit := modify (with_route r).

(** The effect run once on mount. *)
Definition initAuth (reply : Reply AdminUser) : Js unit :=
  try_finally
    (try_catch
       (setIsLoading true;;;
        authenticated <- gets AuthService.isAuthenticated;;
        if authenticated : bool then
          currentUser <- gets AuthService.getUser;;
          if truthy currentUser then
            setUser currentUser;;;
            try_catch
              (freshUser <- AuthService.getCurrentUser reply;;
               setUser (user_to_json freshUser))
              (fun error =>
                 modify AuthService.clearAuth;;;
                 setUser JNull)
          else ret tt
        else ret tt)
       (fun error =>
          modify (with_console (js "Auth initialization error:"));;;
          modify AuthService.clearAuth;;;
          setUser JNull))
    (setIsLoading false).

Definition login (mail password : jstr)
    (login_reply : Reply AuthResponse) (logout_reply : Reply unit) : Js unit :=
  try_finally
    (try_catch
       (setIsLoading true;;;
        setError None;;;
        response <- AuthService.login
                      {| LoginRequest.email := mail;
                         LoginRequest.password := password |} login_reply;;
        let userData := data_user (data response) in
        (if decide (role userData <> js "admin")
         then
           AuthService.logout logout_reply;;;
           throw (JsError (js "Access denied. Admin privileges required."))
         else ret tt);;;
        setUser (user_to_json userData);;;
        router_push "/dashboard")
       (fun error =>
          setError (Some (exn_message error));;;
          throw error))
    (setIsLoading false).

Definition register (userData : RegisterRequest.t)
    (reply : Reply AuthResponse) : Js unit :=
  try_finally
    (try_catch
       (setIsLoading true;;;
        setError None;;;
        response <- AuthService.register userData reply;;
        setUser (user_to_json (data_user (data response)));;;
        router_push "/dashboard")
       (fun error =>
          setError (Some (exn_message error));;;
          throw error))
    (setIsLoading false).

Definition logout (reply : Reply unit) : Js unit :=
  try_finally
    (try_catch
       (setIsLoading true;;;
        AuthService.logout reply;;;
        setUser JNull;;;
        router_push "/auth/login")
       (fun error => modify (with_console (js "Logout error:"))))
    (setIsLoading false).

Definition updateProfile (userData : json) (reply : Reply AdminUser)
  : Js unit :=
  try_catch
    (setError None;;;
     updatedUser <- AuthService.updateProfile userData reply;;
     setUser (user_to_json updatedUser))
    (fun error =>
       setError (Some (exn_message error));;;
       throw error).

Definition clearError : Js unit := setError None.

(** The flags of the context value. *)
Definition isAuthenticated (c : Client) : bool := truthy (user c).
Definition isAdmin (c : Client) : bool := AuthService.role_is_admin (user c).

End AuthContext.

(** ** The guard of the pages

    The dashboard and the profile page run the same effect on the context
    value and render nothing for whoever is not an authenticated admin. *)

Module Pages.

Definition guard : Js unit :=
  loading <- gets isLoading;;
  authenticated <- gets AuthContext.isAuthenticated;;
  admin <- gets AuthContext.isAdmin;;
  if negb loading && negb authenticated
  then AuthContext.router_push "/auth/login"
  else if negb loading && negb admin
  then AuthContext.router_push "/auth/login"
  else ret tt.

(** [!isAuthenticated || !isAdmin] returns before the page is drawn. *)
Definition renders (c : Client) : bool :=
  AuthContext.isAuthenticated c && AuthContext.isAdmin c.

(** The dependencies of the guard, [isAuthenticated, isAdmin, isLoading]
    (the router does not change). *)
Definition deps (c : Client) : bool * bool * bool :=
  (AuthContext.isAuthenticated c, AuthContext.isAdmin c, isLoading c).

(** The guard on the render that follows the render of [before]: React
    runs the effect again when one of its dependencies has changed. *)
Definition guard_after (before : Client) : Js unit :=
  fun c => if decide (deps c = deps before) then (Return tt, c) else guard c.

End Pages.

(** ** The pages: home and dashboard *)

Module HomePage.

(** The effect of the home page: once the context has settled, an
    authenticated admin goes to the dashboard and anyone else to the login
    page. *)
Definition effect : Js unit :=
  loading <- gets isLoading;;
  authenticated <- gets AuthContext.isAuthenticated;;
  admin <- gets AuthContext.isAdmin;;
  if negb loading
  then
    if authenticated && admin
    then AuthContext.router_push "/dashboard"
    else AuthContext.router_push "/auth/login"
  else ret tt.

End HomePage.

Module DashboardPage.

Definition handleLogout (reply : Reply unit) : Js unit :=
  try_catch
    (AuthContext.logout reply)
    (fun error => modify (with_console (js "Logout error:"))).

(** A click on Logout on the mounted page: the handler, and the guard of
    the page on the render that follows it.  The provider's logout raises
    isLoading before its first await and lowers it in its finally: on the
    render in between the guard finds isLoading true and does nothing, and
    on the render after the handler isLoading has changed again, so that
    the guard runs. *)
Definition logout_click (reply : Reply unit) : Js unit :=
  handleLogout reply;;;
  Pages.guard.

End DashboardPage.

(** ** String methods and regular expressions of the profile page *)

Module JsString.

Local Open Scope N_scope.

(** WhiteSpace and LineTerminator: what [trim] strips and what [\s]
    matches. *)
Definition is_space (c : N) : bool :=
  (c =? 9) || (c =? 10) || (c =? 11) || (c =? 12) || (c =? 13) || (c =? 32)
  || (c =? 0xA0) || (c =? 0x1680) || ((0x2000 <=? c) && (c <=? 0x200A))
  || (c =? 0x2028) || (c =? 0x2029) || (c =? 0x202F) || (c =? 0x205F)
  || (c =? 0x3000) || (c =? 0xFEFF).

Fixpoint trimStart (s : list N) : list N :=
  match s with
  | c :: r => if is_space c then trimStart r else s
  | [] => []
  end.

Definition trimEnd (s : list N) : list N := rev (trimStart (rev s)).

Definition trim (s : list N) : list N := trimEnd (trimStart s).

Fixpoint startsWith (prefix s : list N) : bool :=
  match prefix, s with
  | [], _ => true
  | a :: p, b :: r => (a =? b) && startsWith p r
  | _ :: _, [] => false
  end.

(** [s.split(sep)] for a separator of one character. *)
Fixpoint split (sep : N) (s : list N) : list (list N) :=
  match s with
  | [] => [[]]
  | c :: r =>
      if c =? sep then [] :: split sep r
      else
        match split sep r with
        | h :: t => (c :: h) :: t
        | [] => [[c]]
        end
  end.

End JsString.

Module Regex.

Local Open Scope N_scope.

(** Patterns without groups to remember, look-around or back references:
    for these, [test] says whether some match exists. *)
Inductive re : Type :=
  | Void
  | Eps
  | Cls (p : N -> bool)
  | Cat (r1 r2 : re)
  | Alt (r1 r2 : re)
  | Star (r : re).

(** [r+], [r?], one character, any character. *)
Definition Plus (r : re) : re := Cat r (Star r).
Definition Opt (r : re) : re := Alt r Eps.
Definition Chr (c : N) : re := Cls (N.eqb c).
Definition Any : re := Cls (fun _ => true).

Fixpoint nullable (r : re) : bool :=
  match r with
  | Void => false
  | Eps => true
  | Cls _ => false
  | Cat r1 r2 => nullable r1 && nullable r2
  | Alt r1 r2 => nullable r1 || nullable r2
  | Star _ => true
  end.

(** What is left to match after the character [c]. *)
Fixpoint deriv (c : N) (r : re) : re :=
  match r with
  | Void => Void
  | Eps => Void
  | Cls p => if p c then Eps else Void
  | Cat r1 r2 =>
      if nullable r1
      then Alt (Cat (deriv c r1) r2) (deriv c r2)
      else Cat (deriv c r1) r2
  | Alt r1 r2 => Alt (deriv c r1) (deriv c r2)
  | Star r1 => Cat (deriv c r1) (Star r1)
  end.

(** The whole of [s] matches [r]. *)
Fixpoint matches (r : re) (s : list N) : bool :=
  match s with
  | [] => nullable r
  | c :: s' => matches (deriv c r) s'
  end.

(** [/r/.test(s)]: a match that starts and ends anywhere. *)
Definition test (r : re) (s : list N) : bool :=
  matches (Cat (Star Any) (Cat r (Star Any))) s.

(** [/^r$/.test(s)]. *)
Definition test_whole (r : re) (s : list N) : bool := matches r s.

End Regex.

(** ** [app/profile/page.tsx]: the profile form *)

Module AddressData.
Record t : Type := {
  street : list N;
  city : list N;
  state : list N;
  country : list N;
  zipCode : list N;
}.
End AddressData.

Module FormData.
Record t : Type := {
  firstName : list N;
  lastName : list N;
  email : list N;
  phone : list N;
  dateOfBirth : list N;
  gender : list N;
  address : AddressData.t;
}.
End FormData.

Module ProfilePage.

(** The inputs of the form, which are what change events come from. *)
Inductive Input : Type :=
  | InFirstName | InLastName | InEmail | InPhone | InDateOfBirth | InGender
  | InStreet | InCity | InState | InCountry | InZipCode.

#[global] Instance Input_eq_dec : EqDecision Input.
Proof. solve_decision. Defined.

(** The [name] attribute of an input. *)
Definition name_of (i : Input) : list N :=
  match i with
  | InFirstName => js "firstName"
  | InLastName => js "lastName"
  | InEmail => js "email"
  | InPhone => js "phone"
  | InDateOfBirth => js "dateOfBirth"
  | InGender => js "gender"
  | InStreet => js "address.street"
  | InCity => js "address.city"
  | InState => js "address.state"
  | InCountry => js "address.country"
  | InZipCode => js "address.zipCode"
  end.

(** The state of the component; [errors] is an object of strings. *)
Record State : Type := {
  isEditing : bool;
  formData : FormData.t;
  errors : list (list N * json);
  isSaving : bool;
}.

Definition with_isEditing (b : bool) (p : State) : State :=
  {| isEditing := b; formData := formData p; errors := errors p;
     isSaving := isSaving p |}.

Definition with_formData (f : FormData.t -> FormData.t) (p : State) : State :=
  {| isEditing := isEditing p; formData := f (formData p); errors := errors p;
     isSaving := isSaving p |}.

Definition with_errors (e : list (list N * json)) (p : State) : State :=
  {| isEditing := isEditing p; formData := formData p; errors := e;
     isSaving := isSaving p |}.

Definition with_isSaving (b : bool) (p : State) : State :=
  {| isEditing := isEditing p; formData := formData p; errors := errors p;
     isSaving := b |}.

(** The state of the first render. *)
Definition initial : State :=
  {| isEditing := false;
     formData :=
       {| FormData.firstName := []; FormData.lastName := [];
          FormData.email := []; FormData.phone := [];
          FormData.dateOfBirth := []; FormData.gender := [];
          FormData.address :=
            {| AddressData.street := []; AddressData.city := [];
               AddressData.state := []; AddressData.country := [];
               AddressData.zipCode := [] |} |};
     errors := [];
     isSaving := false |}.

(** [x || ''] on an optional string. *)
Definition or_empty (x : option (list N)) : list N := default [] x.

(** The form filled from the user, as the effect on [user] and
    [handleCancel] build it. *)
Definition form_of_user (u : AdminUser) : FormData.t :=
  {| FormData.firstName := firstName u;
     FormData.lastName := lastName u;
     FormData.email := email u;
     FormData.phone := or_empty (phone u);
     FormData.dateOfBirth := or_empty (dateOfBirth u);
     FormData.gender := or_empty (gender u);
     FormData.address :=
       {| AddressData.street := or_empty (address u ≫= street);
          AddressData.city := or_empty (address u ≫= city);
          AddressData.state := or_empty (address u ≫= state);
          AddressData.country := or_empty (address u ≫= country);
          AddressData.zipCode := or_empty (address u ≫= zipCode) |} |}.

(** The effect that follows the context's user. *)
Definition sync (u : option AdminUser) (p : State) : State :=
  match u with
  | Some u => with_formData (fun _ => form_of_user u) p
  | None => p
  end.

(** The form as the object it is, which is what [updateProfile] gets. *)
Definition form_to_json (f : FormData.t) : json :=
  JObj [ (js "firstName", JStr (FormData.firstName f));
         (js "lastName", JStr (FormData.lastName f));
         (js "email", JStr (FormData.email f));
         (js "phone", JStr (FormData.phone f));
         (js "dateOfBirth", JStr (FormData.dateOfBirth f));
         (js "gender", JStr (FormData.gender f));
         (js "address",
          JObj [ (js "street", JStr (AddressData.street (FormData.address f)));
                 (js "city", JStr (AddressData.city (FormData.address f)));
                 (js "state", JStr (AddressData.state (FormData.address f)));
                 (js "country", JStr (AddressData.country (FormData.address f)));
                 (js "zipCode", JStr (AddressData.zipCode (FormData.address f))) ]) ].

(** The [value] attribute of an input. *)
Definition value_of (i : Input) (f : FormData.t) : list N :=
  match i with
  | InFirstName => FormData.firstName f
  | InLastName => FormData.lastName f
  | InEmail => FormData.email f
  | InPhone => FormData.phone f
  | InDateOfBirth => FormData.dateOfBirth f
  | InGender => FormData.gender f
  | InStreet => AddressData.street (FormData.address f)
  | InCity => AddressData.city (FormData.address f)
  | InState => AddressData.state (FormData.address f)
  | InCountry => AddressData.country (FormData.address f)
  | InZipCode => AddressData.zipCode (FormData.address f)
  end.

(** [/\S+@\S+\.\S+/] *)
Definition EMAIL : Regex.re :=
  let nonspace := Regex.Cls (fun c => negb (JsString.is_space c)) in
  Regex.Cat (Regex.Plus nonspace)
    (Regex.Cat (Regex.Chr 64)
       (Regex.Cat (Regex.Plus nonspace)
          (Regex.Cat (Regex.Chr 46) (Regex.Plus nonspace)))).

(** The class [[\d\s-()]]: a hyphen next to a class escape is a hyphen. *)
Definition phone_char (c : N) : bool :=
  (is_digit c || JsString.is_space c || (c =? 45) || (c =? 40) || (c =? 41))%N.

(** [/^\+?[\d\s-()]+$/] *)
Definition PHONE : Regex.re :=
  Regex.Cat (Regex.Opt (Regex.Chr 43)) (Regex.Plus (Regex.Cls phone_char)).

(** [!s.trim()] *)
Definition blank (s : list N) : bool :=
  match JsString.trim s with [] => true | _ => false end.

(** The object [newErrors] that [validateForm] builds. *)
Definition newErrors (f : FormData.t) : list (list N * json) :=
  let e0 : list (list N * json) := [] in
  let e1 :=
    if blank (FormData.firstName f)
    then obj_set (js "firstName") (JStr (js "First name is required")) e0
    else e0 in
  let e2 :=
    if blank (FormData.lastName f)
    then obj_set (js "lastName") (JStr (js "Last name is required")) e1
    else e1 in
  let e3 :=
    if blank (FormData.email f)
    then obj_set (js "email") (JStr (js "Email is required")) e2
    else if negb (Regex.test EMAIL (FormData.email f))
    then obj_set (js "email") (JStr (js "Email is invalid")) e2
    else e2 in
  if truthy (JStr (FormData.phone f))
     && negb (Regex.test_whole PHONE (FormData.phone f))
  then obj_set (js "phone") (JStr (js "Phone number is invalid")) e3
  else e3.

(** Sets the errors and says whether there is none. *)
Definition validateForm (p : State) : bool * State :=
  let e := newErrors (formData p) in
  (Nat.eqb (length e) 0, with_errors e p).

(** [{...prev, [name]: value}] on the form; no input has a name outside of
    the six. *)
Definition set_field (name value : list N) (f : FormData.t) : FormData.t :=
  if decide (name = js "firstName") then
    {| FormData.firstName := value; FormData.lastName := FormData.lastName f;
       FormData.email := FormData.email f; FormData.phone := FormData.phone f;
       FormData.dateOfBirth := FormData.dateOfBirth f;
       FormData.gender := FormData.gender f;
       FormData.address := FormData.address f |}
  else if decide (name = js "lastName") then
    {| FormData.firstName := FormData.firstName f; FormData.lastName := value;
       FormData.email := FormData.email f; FormData.phone := FormData.phone f;
       FormData.dateOfBirth := FormData.dateOfBirth f;
       FormData.gender := FormData.gender f;
       FormData.address := FormData.address f |}
  else if decide (name = js "email") then
    {| FormData.firstName := FormData.firstName f;
       FormData.lastName := FormData.lastName f;
       FormData.email := value; FormData.phone := FormData.phone f;
       FormData.dateOfBirth := FormData.dateOfBirth f;
       FormData.gender := FormData.gender f;
       FormData.address := FormData.address f |}
  else if decide (name = js "phone") then
    {| FormData.firstName := FormData.firstName f;
       FormData.lastName := FormData.lastName f;
       FormData.email := FormData.email f; FormData.phone := value;
       FormData.dateOfBirth := FormData.dateOfBirth f;
       FormData.gender := FormData.gender f;
       FormData.address := FormData.address f |}
  else if decide (name = js "dateOfBirth") then
    {| FormData.firstName := FormData.firstName f;
       FormData.lastName := FormData.lastName f;
       FormData.email := FormData.email f; FormData.phone := FormData.phone f;
       FormData.dateOfBirth := value;
       FormData.gender := FormData.gender f;
       FormData.address := FormData.address f |}
  else if decide (name = js "gender") then
    {| FormData.firstName := FormData.firstName f;
       FormData.lastName := FormData.lastName f;
       FormData.email := FormData.email f; FormData.phone := FormData.phone f;
       FormData.dateOfBirth := FormData.dateOfBirth f;
       FormData.gender := value;
       FormData.address := FormData.address f |}
  else f.

(** [{...prev.address, [addressField]: value}]; no input has a name outside
    of the five. *)
Definition set_address_field (name value : list N) (a : AddressData.t)
  : AddressData.t :=
  if decide (name = js "street") then
    {| AddressData.street := value; AddressData.city := AddressData.city a;
       AddressData.state := AddressData.state a;
       AddressData.country := AddressData.country a;
       AddressData.zipCode := AddressData.zipCode a |}
  else if decide (name = js "city") then
    {| AddressData.street := AddressData.street a; AddressData.city := value;
       AddressData.state := AddressData.state a;
       AddressData.country := AddressData.country a;
       AddressData.zipCode := AddressData.zipCode a |}
  else if decide (name = js "state") then
    {| AddressData.street := AddressData.street a;
       AddressData.city := AddressData.city a;
       AddressData.state := value;
       AddressData.country := AddressData.country a;
       AddressData.zipCode := AddressData.zipCode a |}
  else if decide (name = js "country") then
    {| AddressData.street := AddressData.street a;
       AddressData.city := AddressData.city a;
       AddressData.state := AddressData.state a;
       AddressData.country := value;
       AddressData.zipCode := AddressData.zipCode a |}
  else if decide (name = js "zipCode") then
    {| AddressData.street := AddressData.street a;
       AddressData.city := AddressData.city a;
       AddressData.state := AddressData.state a;
       AddressData.country := AddressData.country a;
       AddressData.zipCode := value |}
  else a.

Definition set_address (g : AddressData.t -> AddressData.t) (f : FormData.t)
  : FormData.t :=
  {| FormData.firstName := FormData.firstName f;
     FormData.lastName := FormData.lastName f;
     FormData.email := FormData.email f; FormData.phone := FormData.phone f;
     FormData.dateOfBirth := FormData.dateOfBirth f;
     FormData.gender := FormData.gender f;
     FormData.address := g (FormData.address f) |}.

(** A change event of the input [i] with the value [value]. *)
Definition handleInputChange (i : Input) (value : list N) (p : State) : State :=
  let name := name_of i in
  let p1 :=
    if JsString.startsWith (js "address.") name
    then
      let addressField :=
        default (js "undefined") (JsString.split 46 name !! 1%nat) in
      with_formData (set_address (set_address_field addressField value)) p
    else with_formData (set_field name value) p in
  if truthy (default JNull (obj_get name (errors p)))
  then with_errors (obj_set name (JStr []) (errors p1)) p1
  else p1.

(** The click on Save; [reply] is what the backend answers if it is asked. *)
Definition handleSave (reply : Reply AdminUser) (p : State) (c : Client)
  : State * Client :=
  let '(valid, p1) := validateForm p in
  if negb valid then (p1, c)
  else
    let p2 := with_isSaving true p1 in
    match AuthContext.updateProfile (form_to_json (formData p2)) reply c with
    | (Return _, c') => (with_isSaving false (with_isEditing false p2), c')
    | (Throw _, c') =>
        (with_isSaving false p2,
         with_console (js "Profile update error:") c')
    end.

(** The click on Cancel. *)
Definition handleCancel (u : option AdminUser) (p : State) : State :=
  with_errors [] (with_isEditing false (sync u p)).

(** A click on Save on the mounted page: the handler, and the effects of
    the page on the render that follows it.  The provider replaces its user
    when its updateProfile has returned, and then only: the effect of lines
    38-56, which depends on [user], refills the form from the new user.
    The guard depends on the flags of the context, of which isLoading is
    not touched by updateProfile. *)
Definition save_click (reply : Reply AdminUser) (p : State) (c : Client)
  : State * Client :=
  let '(valid, _) := validateForm p in
  let '(p1, c1) := handleSave reply p c in
  let p2 := match reply with
            | Fulfilled u => if valid then sync (Some u) p1 else p1
            | _ => p1
            end in
  (p2, snd (Pages.guard_after c c1)).

End ProfilePage.

(** * Notions used in the statements *)

(** ** Values and texts *)

Section JsonNotions.

Local Open Scope N_scope.

(** Induction on values that reaches the elements of arrays and the values
    of properties. *)
Section JsonInd.
Variable P : json -> Prop.
Hypothesis HNull : P JNull.
Hypothesis HBool : forall b, P (JBool b).
Hypothesis HNum : forall lit, P (JNum lit).
Hypothesis HStr : forall s, P (JStr s).
Hypothesis HArr : forall items, Forall P items -> P (JArr items).
Hypothesis HObj :
  forall props, Forall (fun kv => P (snd kv)) props -> P (JObj props).

Fixpoint json_nested_ind (v : json) : P v :=
  match v with
  | JNull => HNull
  | JBool b => HBool b
  | JNum lit => HNum lit
  | JStr s => HStr s
  | JArr items =>
      HArr items
        ((fix go (l : list json) : Forall P l :=
            match l with
            | [] => @List.Forall_nil _ P
            | x :: r => @List.Forall_cons _ P x r (json_nested_ind x) (go r)
            end) items)
  | JObj props =>
      HObj props
        ((fix go (l : list (jstr * json)) : Forall (fun kv => P (snd kv)) l :=
            match l with
            | [] => @List.Forall_nil _ _
            | kv :: r =>
                @List.Forall_cons _ (fun kv => P (snd kv)) kv r
                  (json_nested_ind (snd kv)) (go r)
            end) props)
  end.
End JsonInd.

(** Values that [JSON.stringify] gives back unchanged through [JSON.parse]:
    strings of 16-bit units, no number, no property twice. *)
Fixpoint plain (v : json) : Prop :=
  match v with
  | JNull | JBool _ => True
  | JNum _ => False
  | JStr s => wf_str s
  | JArr items => fold_right (fun x acc => plain x /\ acc) True items
  | JObj props =>
      NoDup (map fst props)
      /\ fold_right (fun kv acc => (wf_str (fst kv) /\ plain (snd kv)) /\ acc)
           True props
  end.

(** How deep arrays and objects nest. *)
Fixpoint depth (v : json) : nat :=
  match v with
  | JArr items => S (fold_right (fun x acc => Nat.max (depth x) acc) O items)
  | JObj props =>
      S (fold_right (fun kv acc => Nat.max (depth (snd kv)) acc) O props)
  | _ => O
  end.

(** The first character of a text decides how [parse_value] goes on: it is
    no white space and closes neither an array nor an object. *)
Definition head_ok (s : jstr) : Prop :=
  match s with
  | c :: _ => is_ws c = false /\ (c =? 93) = false /\ (c =? 125) = false
  | [] => False
  end.

(** [pv] reads the text of [v] back, whatever follows. *)
Definition reads (pv : jstr -> option (json * jstr)) (v : json) : Prop :=
  forall rest, pv (stringify v ++ rest) = Some (v, rest).

(** The text of one property. *)
Definition member (kv : jstr * json) : jstr :=
  quote (fst kv) ++ 58 :: stringify (snd kv).

(** [pv] leaves less than it was given. *)
Definition consumes (pv : list N -> option (json * list N)) : Prop :=
  forall s v r, pv s = Some (v, r) -> (length r < length s)%nat.

End JsonNotions.

(** The properties a record contributes: names among [names], in that
    order, each at most once. *)
Definition fields_ok (names : list string) (props : list (jstr * json)) : Prop :=
  map fst props `sublist_of` map js names
  /\ Forall (fun kv => wf_str (fst kv) /\ plain (snd kv)) props.

(** The text is read by JSON.parse as some user record. *)
Definition serialized_user (text : list N) : Prop :=
  exists u, parse text = Some (user_to_json u).

(** ** Replies and what they leave *)

(** The reply is not a success. *)
Definition rejected {T} (reply : Reply T) : bool :=
  match reply with
  | Fulfilled _ => false
  | _ => true
  end.

(** What the response interceptor does to the client on a 401. *)
Definition purge (c : Client) : Client :=
  with_href "/auth/login"
    (with_cookies (delete "admin_user")
       (with_cookies (delete "admin_token") c)).

(** The client after the response interceptor saw the reply. *)
Definition settle {T} (reply : Reply T) (c : Client) : Client :=
  match reply with
  | Failed status _ => if decide (status = 401%N) then purge c else c
  | _ => c
  end.

(** What the caller of [api] gets. *)
Definition outcome {T} (reply : Reply T) : Result T :=
  match reply with
  | Fulfilled payload => Return payload
  | Failed status err =>
      Throw (AxiosError (Api.status_message status) (Some (status, err)))
  | NoResponse msg => Throw (AxiosError msg None)
  end.

(** The message an operation of [AuthService] throws for a rejected reply. *)
Definition surfaced {T} (reply : Reply T) (fallback : jstr) : jstr :=
  match reply with
  | Failed _ err => or_else err fallback
  | _ => fallback
  end.

(** The cookies after a call that stores the user it fetched. *)
Definition cookies_after_profile (reply : Reply AdminUser)
    (m : gmap string (list N)) : gmap string (list N) :=
  match reply with
  | Fulfilled u => <[AuthService.USER_KEY := stringify (user_to_json u)]> m
  | Failed status _ =>
      if decide (status = 401%N)
      then delete "admin_user" (delete "admin_token" m)
      else m
  | NoResponse _ => m
  end.

(** The computation ends in an exception. *)
Definition throws {A} (r : Result A * Client) : Prop :=
  exists e, fst r = Throw e.

(** The message of the error that login throws for a non-admin. *)
Definition ACCESS_DENIED : jstr := js "Access denied. Admin privileges required.".

(** ** Sample data *)

Definition sample_user (r : string) : AdminUser :=
  {| id := js "64f1c0"; email := js "ada@example.com";
     firstName := js "Ada"; lastName := js "Lovelace"; role := js r;
     isEmailVerified := true; isPhoneVerified := false; isActive := true;
     phone := Some (js "+1-555-0000"); dateOfBirth := None; gender := None;
     profilePicture := None;
     address := Some {| street := None; city := Some (js "London");
                        state := None; country := Some (js "UK");
                        zipCode := None |};
     createdAt := js "2024-01-01T00:00:00Z";
     updatedAt := js "2024-01-02T00:00:00Z"; lastLogin := None |}.

Definition sample_response (r : string) : AuthResponse :=
  {| success := true; message := js "ok";
     data := {| data_user := sample_user r; data_token := js "tok";
                data_refreshToken := js "ref" |} |}.

(** The tab when the provider mounts, without any cookie. *)
Definition fresh_client : Client :=
  {| cookies := ∅; href := None; sent := []; console := []; routes := [];
     user := JNull; isLoading := true; error := None |}.

(** An answer to a login or a registration whose token is a lone high
    surrogate, the text that [JSON.parse] reads from the six characters of
    its escape. *)
Definition unstorable_response (r : string) : AuthResponse :=
  {| success := true; message := js "ok";
     data := {| data_user := sample_user r; data_token := [0xD800%N];
                data_refreshToken := js "ref" |} |}.

(** A tab that holds the session of [u]. *)
Definition session_of (u : AdminUser) : Client :=
  AuthService.setUser u
    (Cookies.put AuthService.REFRESH_TOKEN_KEY (js "ref")
       (Cookies.put AuthService.TOKEN_KEY (js "tok") fresh_client)).

(** ** Storing a session *)

(** js-cookie takes both tokens of [d]. *)
Definition storable (d : AuthData) : bool :=
  Cookies.isWellFormed (data_token d)
  && Cookies.isWellFormed (data_refreshToken d).

(** What the writes of a login or a registration leave when js-cookie
    refuses one of the tokens: the token, when it is the refresh token that
    is refused, and nothing otherwise. *)
Definition refused (d : AuthData) (c : Client) : Client :=
  if Cookies.isWellFormed (data_token d)
  then Cookies.put AuthService.TOKEN_KEY (data_token d) c
  else c.

(** ** The stored session *)

(** The three getters read back the parts of [d], and the two queries
    answer accordingly. *)
Definition holds_session (d : AuthData) (c : Client) : Prop :=
  AuthService.getToken c = Some (data_token d)
  /\ AuthService.getRefreshToken c = Some (data_refreshToken d)
  /\ AuthService.getUser c = user_to_json (data_user d)
  /\ AuthService.isAuthenticated c = true
  /\ AuthService.isAdmin c = bool_decide (role (data_user d) = js "admin").

(** ** Patterns and the texts they accept *)

(** The texts of a pattern. *)
Inductive lang : Regex.re -> list N -> Prop :=
  | lang_eps : lang Regex.Eps []
  | lang_cls p c : p c = true -> lang (Regex.Cls p) [c]
  | lang_cat r1 r2 s1 s2 :
      lang r1 s1 -> lang r2 s2 -> lang (Regex.Cat r1 r2) (s1 ++ s2)
  | lang_alt_l r1 r2 s : lang r1 s -> lang (Regex.Alt r1 r2) s
  | lang_alt_r r1 r2 s : lang r2 s -> lang (Regex.Alt r1 r2) s
  | lang_star_nil r : lang (Regex.Star r) []
  | lang_star_app r s1 s2 :
      lang r s1 -> lang (Regex.Star r) s2 -> lang (Regex.Star r) (s1 ++ s2).

(** Only white space, which is what [trim] leaves nothing of. *)
Definition all_space (s : list N) : Prop :=
  Forall (fun c => JsString.is_space c = true) s.

(** No white space and at least one character. *)
Definition word (s : list N) : Prop :=
  s <> [] /\ Forall (fun c => JsString.is_space c = false) s.

(** Somewhere in the text: a word, an at sign, a word, a dot, a word. *)
Definition email_shaped (s : list N) : Prop :=
  exists before a b c after,
    s = before ++ a ++ 64%N :: b ++ 46%N :: c ++ after
    /\ word a /\ word b /\ word c.

(** An optional plus sign, then one or more digits, spaces, hyphens and
    parentheses, and nothing else. *)
Definition phone_shaped (s : list N) : Prop :=
  exists t, (s = t \/ s = 43%N :: t) /\ t <> []
            /\ Forall (fun c => ProfilePage.phone_char c = true) t.

(** ** The profile form and the cookies of others *)

(** The page after a series of change events. *)
Definition typed (edits : list (ProfilePage.Input * list N))
    (p : ProfilePage.State) : ProfilePage.State :=
  fold_left (fun q e => ProfilePage.handleInputChange (fst e) (snd e) q) edits p.

(** A cookie that is none of the three of the session. *)
Definition foreign (k : string) : Prop :=
  k <> AuthService.TOKEN_KEY /\ k <> AuthService.USER_KEY
  /\ k <> AuthService.REFRESH_TOKEN_KEY.

(** * Properties *)

(** ** Serialisation *)

Section JsonFacts.

Local Open Scope N_scope.

(** *** Hexadecimal digits *)

Lemma hex_val_digit d : d < 16 -> hex_val (hex_digit d) = Some d.
Proof.
  intros Hd. unfold hex_val, hex_digit.
  destruct (N.ltb_spec d 10) as [Hlt | Hge].
  - replace (48 <=? 48 + d) with true by (symmetry; apply N.leb_le; lia).
    replace (48 + d <=? 57) with true by (symmetry; apply N.leb_le; lia).
    simpl. f_equal. lia.
  - replace (48 <=? 87 + d) with true by (symmetry; apply N.leb_le; lia).
    replace (87 + d <=? 57) with false by (symmetry; apply N.leb_gt; lia).
    replace (97 <=? 87 + d) with true by (symmetry; apply N.leb_le; lia).
    replace (87 + d <=? 102) with true by (symmetry; apply N.leb_le; lia).
    simpl. f_equal. lia.
Qed.

Lemma hex4_escape c :
  c < 65536 ->
  hex4 (hex_digit (c / 4096 mod 16)) (hex_digit (c / 256 mod 16))
       (hex_digit (c / 16 mod 16)) (hex_digit (c mod 16)) = Some c.
Proof.
  intros Hc. unfold hex4.
  rewrite !hex_val_digit by (apply N.mod_lt; lia).
  f_equal.
  pose proof (N.div_mod c 16 ltac:(lia)) as H0.
  pose proof (N.div_mod (c / 16) 16 ltac:(lia)) as H1.
  pose proof (N.div_mod (c / 256) 16 ltac:(lia)) as H2.
  replace (c / 16 / 16) with (c / 256) in H1
    by (rewrite N.Div0.div_div; reflexivity).
  replace (c / 256 / 16) with (c / 4096) in H2
    by (rewrite N.Div0.div_div; reflexivity).
  assert (c / 4096 < 16) as H3
    by (apply N.Div0.div_lt_upper_bound; lia).
  rewrite (N.mod_small (c / 4096) 16) by lia.
  lia.
Qed.

(** *** String literals *)

Lemma parse_chars_plain c t :
  c <> 34 -> c <> 92 -> 32 <= c ->
  parse_chars (c :: t) = cons_chars c (parse_chars t).
Proof.
  intros H1 H2 H3. simpl.
  destruct (N.eqb_spec c 34); [done|].
  destruct (N.eqb_spec c 92); [done|].
  destruct (N.ltb_spec c 32); [lia|done].
Qed.

Lemma parse_chars_quote_unit c t :
  c < 65536 ->
  parse_chars (quote_unit c ++ t) = cons_chars c (parse_chars t).
Proof.
  intros Hc. unfold quote_unit.
  repeat (match goal with
          | |- context [ if ?x =? ?k then _ else _ ] =>
              destruct (N.eqb_spec x k) as [-> | ?]; [reflexivity|]
          end).
  destruct ((c <? 32) || is_high c || is_low c) eqn:E.
  - unfold unicode_escape. cbn [app parse_chars].
    change (92 =? 34) with false. change (92 =? 92) with true.
    change (117 =? 117) with true. cbv iota.
    by rewrite hex4_escape.
  - apply orb_false_elim in E as [E _]. apply orb_false_elim in E as [E _].
    apply N.ltb_ge in E. by apply parse_chars_plain.
Qed.

Lemma parse_chars_quote_units s rest :
  wf_str s -> parse_chars (quote_units s ++ 34 :: rest) = Some (s, rest).
Proof.
  remember (length s) as n eqn:Hn. revert s Hn rest.
  induction n as [n IH] using lt_wf_ind. intros s Hn rest Hwf.
  destruct s as [|c r]; [reflexivity|].
  apply Forall_cons in Hwf as [Hc Hr].
  assert (Hone : parse_chars (quote_unit c ++ quote_units r ++ 34 :: rest)
                 = Some (c :: r, rest)).
  { rewrite parse_chars_quote_unit by done.
    rewrite (IH (length r)); [done| |done..]. simpl in Hn. lia. }
  destruct r as [|d r'].
  - exact Hone.
  - cbn [quote_units]. destruct (is_high c && is_low d) eqn:E.
    + apply andb_prop in E as [Eh El].
      unfold is_high in Eh. unfold is_low in El.
      apply andb_prop in Eh as [Eh1 Eh2]. apply andb_prop in El as [El1 El2].
      apply N.leb_le in Eh1, Eh2, El1, El2.
      apply Forall_cons in Hr as [Hd Hr'].
      cbn [app]. rewrite parse_chars_plain by lia.
      rewrite parse_chars_plain by lia.
      rewrite (IH (length r')); [done| |done..]. simpl in Hn. lia.
    + by rewrite <- app_assoc.
Qed.

(** *** Values *)

Lemma skip_ws_head c r : is_ws c = false -> skip_ws (c :: r) = c :: r.
Proof. intros H. simpl. by rewrite H. Qed.

Lemma quote_app s t : quote s ++ t = 34 :: quote_units s ++ 34 :: t.
Proof. unfold quote. simpl. by rewrite <- app_assoc. Qed.

Lemma head_ok_app s t : head_ok s -> head_ok (s ++ t).
Proof. by destruct s. Qed.

Lemma stringify_head_ok v : plain v -> head_ok (stringify v).
Proof. destruct v as [|[]| | | |]; simpl; try done. Qed.

Lemma head_ok_length s : head_ok s -> (0 < length s)%nat.
Proof. destruct s; simpl; [done|lia]. Qed.

Lemma join_comma_cons x l :
  l <> [] -> join_comma (x :: l) = x ++ 44 :: join_comma l.
Proof. by destruct l. Qed.

Lemma join_comma_head_ok l :
  l <> [] -> Forall head_ok l -> head_ok (join_comma l).
Proof.
  destruct l as [|x [|y l]]; [done| |]; intros _ H;
    apply Forall_cons in H as [Hx _]; [done|].
  by apply head_ok_app.
Qed.

Lemma join_comma_length l :
  Forall head_ok l -> (length l <= length (join_comma l))%nat.
Proof.
  induction l as [|x l IH]; [done|]. intros H.
  apply Forall_cons in H as [Hx Hl]. apply head_ok_length in Hx.
  destruct l as [|y l]; [simpl; lia|].
  rewrite join_comma_cons by done. rewrite length_app. simpl in *.
  specialize (IH Hl). lia.
Qed.

Lemma parse_value_array n r :
  head_ok r ->
  parse_value (S n) (91 :: r) = parse_elements (parse_value n) (length r) [] r.
Proof.
  destruct r as [|c r]; [done|]. intros (Hws & H93 & _).
  cbn [parse_value skip_ws]. change (is_ws 91) with false. cbv iota.
  change (91 =? 123) with false. change (91 =? 91) with true. cbv iota.
  rewrite skip_ws_head by done. by rewrite H93.
Qed.

Lemma parse_value_object n r :
  head_ok r ->
  parse_value (S n) (123 :: r) = parse_members (parse_value n) (length r) [] r.
Proof.
  destruct r as [|c r]; [done|]. intros (Hws & _ & H125).
  cbn [parse_value skip_ws]. change (is_ws 123) with false. cbv iota.
  change (123 =? 123) with true. cbv iota.
  rewrite skip_ws_head by done. by rewrite H125.
Qed.

Section Lists.

Variable pv : jstr -> option (json * jstr).

Lemma parse_elements_join l : forall acc k rest,
  l <> [] -> (length l <= k)%nat -> Forall (reads pv) l ->
  parse_elements pv k acc (join_comma (map stringify l) ++ 93 :: rest)
  = Some (JArr (acc ++ l), rest).
Proof.
  induction l as [|x l IH]; [done|]. intros acc k rest _ Hk H.
  apply Forall_cons in H as [Hx Hl].
  destruct k as [|k]; [simpl in Hk; lia|].
  destruct l as [|y l].
  - cbn [map join_comma parse_elements]. rewrite Hx. reflexivity.
  - cbn [map]. rewrite join_comma_cons by done.
    rewrite <- app_assoc. cbn [app parse_elements]. rewrite Hx.
    cbn [skip_ws]. change (is_ws 44) with false. cbv iota.
    change (44 =? 44) with true. cbv iota.
    change (stringify y :: map stringify l) with (map stringify (y :: l)).
    rewrite IH; [|done|simpl in *; lia|done].
    by rewrite <- app_assoc.
Qed.

Lemma obj_set_fresh k v acc :
  k ∉ map fst acc -> obj_set k v acc = acc ++ [(k, v)].
Proof.
  induction acc as [|[k' v'] acc IH]; [done|]. intros Hk.
  apply not_elem_of_cons in Hk as [Hne Hk]. simpl.
  destruct (decide (k = k')); [done|]. by rewrite IH.
Qed.

Lemma parse_members_head key v tail :
  wf_str key -> reads pv v ->
  forall k acc,
    parse_members pv (S k) acc (member (key, v) ++ tail)
    = match skip_ws tail with
      | d :: r4 =>
          if d =? 44 then parse_members pv k (obj_set key v acc) r4
          else if d =? 125 then Some (JObj (obj_set key v acc), r4)
          else None
      | [] => None
      end.
Proof.
  intros Hkey Hv k acc. unfold member. cbn [fst snd].
  rewrite <- app_assoc, quote_app. cbn [app parse_members skip_ws].
  change (is_ws 34) with false. cbv iota.
  change (34 =? 34) with true. cbv iota.
  rewrite parse_chars_quote_units by done.
  cbn [skip_ws]. change (is_ws 58) with false. cbv iota.
  change (58 =? 58) with true. cbv iota.
  by rewrite Hv.
Qed.

Lemma parse_members_join props : forall acc k rest,
  props <> [] -> (length props <= k)%nat ->
  Forall (fun kv => wf_str (fst kv) /\ reads pv (snd kv)) props ->
  NoDup (map fst (acc ++ props)) ->
  parse_members pv k acc (join_comma (map member props) ++ 125 :: rest)
  = Some (JObj (acc ++ props), rest).
Proof.
  induction props as [|[key v] props IH]; [done|].
  intros acc k rest _ Hk H Hnd.
  apply Forall_cons in H as [[Hkey Hv] Hl]. cbn [fst snd] in *.
  destruct k as [|k]; [simpl in Hk; lia|].
  assert (Hfresh : key ∉ map fst acc).
  { rewrite map_app in Hnd. apply NoDup_app in Hnd as (_ & Hd & _).
    intros Hin. apply (Hd key Hin). simpl. apply elem_of_cons. by left. }
  destruct props as [|kv props].
  - cbn [map join_comma]. rewrite parse_members_head by done.
    cbn [skip_ws]. change (is_ws 125) with false. cbv iota.
    change (125 =? 44) with false. change (125 =? 125) with true. cbv iota.
    by rewrite obj_set_fresh.
  - cbn [map]. rewrite join_comma_cons by done.
    rewrite <- app_assoc. rewrite parse_members_head by done.
    cbn [app skip_ws]. change (is_ws 44) with false. cbv iota.
    change (44 =? 44) with true. cbv iota.
    change (member kv :: map member props) with (map member (kv :: props)).
    rewrite obj_set_fresh by done.
    rewrite IH; [|done|simpl in *; lia|done|].
    + by rewrite <- app_assoc.
    + by rewrite <- app_assoc.
Qed.

End Lists.

Lemma plain_items items :
  plain (JArr items) <-> Forall plain items.
Proof.
  simpl. induction items as [|x l IH]; simpl.
  - by rewrite Forall_nil.
  - by rewrite Forall_cons, IH.
Qed.

Lemma plain_props props :
  plain (JObj props)
  <-> NoDup (map fst props)
      /\ Forall (fun kv => wf_str (fst kv) /\ plain (snd kv)) props.
Proof.
  simpl. apply and_iff_compat_l.
  induction props as [|x l IH]; simpl.
  - by rewrite Forall_nil.
  - by rewrite Forall_cons, IH.
Qed.

Lemma depth_items x items :
  x ∈ items -> (depth x < depth (JArr items))%nat.
Proof.
  simpl. induction items as [|y l IH]; intros Hin.
  - by apply elem_of_nil in Hin.
  - apply elem_of_cons in Hin as [-> | Hin]; simpl; [lia|].
    specialize (IH Hin). lia.
Qed.

Lemma depth_props kv props :
  kv ∈ props -> (depth (snd kv) < depth (JObj props))%nat.
Proof.
  simpl. induction props as [|y l IH]; intros Hin.
  - by apply elem_of_nil in Hin.
  - apply elem_of_cons in Hin as [-> | Hin]; simpl; [lia|].
    specialize (IH Hin). lia.
Qed.

(** [parse_value] reads back what [stringify] wrote, given fuel for the
    nesting. *)
Lemma parse_value_stringify v :
  plain v -> forall n rest,
  (depth v <= n)%nat ->
  parse_value (S n) (stringify v ++ rest) = Some (v, rest).
Proof.
  induction v as [|b|lit|s|items IH|props IH] using json_nested_ind;
    intros Hp n rest Hd.
  - reflexivity.
  - by destruct b.
  - done.
  - simpl in Hp. change (stringify (JStr s)) with (quote s).
    rewrite (quote_app s rest).
    cbn [parse_value skip_ws]. change (is_ws 34) with false. cbv iota.
    change (34 =? 123) with false. change (34 =? 91) with false.
    change (34 =? 34) with true. cbv iota.
    by rewrite parse_chars_quote_units.
  - apply plain_items in Hp.
    destruct (decide (items = [])) as [-> | Hne]; [reflexivity|].
    destruct n as [|n]; [simpl in Hd; lia|].
    assert (Hheads : Forall head_ok (map stringify items)).
    { apply Forall_fmap. eapply Forall_impl; [exact Hp|].
      intros x Hx. by apply stringify_head_ok. }
    cbn [stringify app]. rewrite <- app_assoc. cbn [app].
    rewrite parse_value_array.
    2:{ apply head_ok_app, join_comma_head_ok; [|done]. by destruct items. }
    apply parse_elements_join; [done| |].
    + rewrite length_app. apply join_comma_length in Hheads.
      rewrite length_map in Hheads. lia.
    + apply Forall_forall. intros x Hin rest'.
      rewrite Forall_forall in IH. apply IH; [done| |].
      * rewrite Forall_forall in Hp. by apply Hp.
      * apply depth_items in Hin. lia.
  - apply plain_props in Hp as [Hnd Hp].
    destruct (decide (props = [])) as [-> | Hne]; [reflexivity|].
    destruct n as [|n]; [simpl in Hd; lia|].
    assert (Hheads : Forall head_ok (map member props)).
    { apply Forall_fmap, Forall_forall. intros kv _. done. }
    cbn [stringify app]. rewrite <- app_assoc. cbn [app].
    change (map _ props) with (map member props).
    rewrite parse_value_object.
    2:{ apply head_ok_app, join_comma_head_ok; [|done]. by destruct props. }
    apply (parse_members_join _ props []); [done| | |done].
    + rewrite length_app. apply join_comma_length in Hheads.
      rewrite length_map in Hheads. lia.
    + apply Forall_forall. intros kv Hin.
      rewrite Forall_forall in Hp. destruct (Hp kv Hin) as [Hk Hv].
      split; [done|]. intros rest'.
      rewrite Forall_forall in IH. apply IH; [done..|].
      apply depth_props in Hin. lia.
Qed.

Lemma join_comma_elem_length x l :
  x ∈ l -> (length x <= length (join_comma l))%nat.
Proof.
  induction l as [|y l IH]; intros Hin.
  - by apply elem_of_nil in Hin.
  - destruct l as [|z l].
    + apply list_elem_of_singleton in Hin as ->. done.
    + rewrite join_comma_cons by done. rewrite length_app. cbn [length].
      apply elem_of_cons in Hin as [-> | Hin]; [lia|].
      specialize (IH Hin). lia.
Qed.

(** A text is at least as long as its value is deep. *)
Lemma depth_le_length v : (depth v <= length (stringify v))%nat.
Proof.
  induction v as [|b|lit|s|items IH|props IH] using json_nested_ind;
    try (simpl; lia).
  - cbn [stringify depth length]. rewrite length_app. cbn [length].
    assert (fold_right (fun x acc => Nat.max (depth x) acc) O items
            <= length (join_comma (map stringify items)))%nat; [|lia].
    assert (Hall : forall x, x ∈ items ->
              (depth x <= length (join_comma (map stringify items)))%nat).
    { intros x Hin. rewrite Forall_forall in IH.
      etransitivity; [by apply IH|].
      apply join_comma_elem_length. by apply list_elem_of_fmap_2. }
    revert Hall. generalize (length (join_comma (map stringify items))).
    clear IH. induction items as [|y l IHl]; intros m Hall; simpl; [lia|].
    apply Nat.max_lub.
    + apply Hall. by left.
    + apply IHl. intros x Hx. apply Hall. by right.
  - cbn [stringify depth length]. rewrite length_app. cbn [length].
    change (map _ props) with (map member props).
    assert (fold_right (fun kv acc => Nat.max (depth (snd kv)) acc) O props
            <= length (join_comma (map member props)))%nat; [|lia].
    assert (Hall : forall kv, kv ∈ props ->
              (depth (snd kv) <= length (join_comma (map member props)))%nat).
    { intros kv Hin. rewrite Forall_forall in IH.
      etransitivity; [by apply IH|].
      etransitivity; [|apply join_comma_elem_length;
                        by apply (list_elem_of_fmap_2 member)].
      unfold member. rewrite length_app. simpl. lia. }
    revert Hall. generalize (length (join_comma (map member props))).
    clear IH. induction props as [|y l IHl]; intros m Hall; simpl; [lia|].
    apply Nat.max_lub.
    + apply Hall. by left.
    + apply IHl. intros x Hx. apply Hall. by right.
Qed.

(** [JSON.parse(JSON.stringify(v))] is [v] again. *)
Lemma parse_stringify v : plain v -> parse (stringify v) = Some v.
Proof.
  intros Hp. unfold parse.
  rewrite <- (app_nil_r (stringify v)) at 2.
  rewrite parse_value_stringify; [done..|]. apply depth_le_length.
Qed.

(** *** Fuel

    Every step of the parser consumes input, so fuel beyond the length of
    the text changes nothing: [None] is a syntax error, never a lack of
    fuel. *)

Lemma skip_ws_length s : (length (skip_ws s) <= length s)%nat.
Proof.
  induction s as [|c s IH]; simpl; [lia|].
  destruct (is_ws c); simpl; lia.
Qed.

Lemma skip_ws_cons_length s c r :
  skip_ws s = c :: r -> (length r < length s)%nat.
Proof.
  intros H. pose proof (skip_ws_length s) as Hl. rewrite H in Hl.
  simpl in Hl. lia.
Qed.

Lemma cons_chars_Some c o x r :
  cons_chars c o = Some (x, r) -> exists x', o = Some (x', r).
Proof. destruct o as [[x' r']|]; simpl; [|done]. intros [= <- <-]. eauto. Qed.

Lemma parse_chars_length s x r :
  parse_chars s = Some (x, r) -> (length r < length s)%nat.
Proof.
  remember (length s) as n eqn:Hn. revert s Hn x r.
  induction n as [n IH] using lt_wf_ind. intros s Hn x r.
  destruct s as [|c s]; [done|]. cbn [parse_chars].
  destruct (c =? 34).
  { intros [= <- <-]. simpl in Hn. lia. }
  destruct (c =? 92).
  - destruct s as [|e s1]; [done|].
    destruct (e =? 117).
    + destruct s1 as [|h1 [|h2 [|h3 [|h4 s2]]]]; try done.
      destruct (hex4 h1 h2 h3 h4); [|done].
      intros H. apply cons_chars_Some in H as [x' H].
      apply (IH (length s2)) in H; simpl in *; lia.
    + destruct (unescape e); [|done].
      intros H. apply cons_chars_Some in H as [x' H].
      apply (IH (length s1)) in H; simpl in *; lia.
  - destruct (c <? 32); [done|].
    intros H. apply cons_chars_Some in H as [x' H].
    apply (IH (length s)) in H; simpl in *; lia.
Qed.

Lemma strip_prefix_length lit s r :
  strip_prefix lit s = Some r -> (length r <= length s)%nat.
Proof.
  revert s. induction lit as [|a lit IH]; intros s; simpl.
  - by intros [= ->].
  - destruct s as [|b s]; [done|]. destruct (a =? b); [|done].
    intros H. apply IH in H. simpl. lia.
Qed.

Lemma span_digits_length s :
  (length (snd (span_digits s)) <= length s)%nat.
Proof.
  induction s as [|c s IH]; simpl; [lia|].
  destruct (is_digit c); [|simpl; lia].
  destruct (span_digits s) as [d r']. simpl in *. lia.
Qed.

Lemma scan_int_length s i r :
  scan_int s = Some (i, r) -> (length r < length s)%nat.
Proof.
  destruct s as [|c s]; [done|]. simpl.
  destruct (c =? 48); [intros [= <- <-]; lia|].
  destruct (is_digit c); [|done].
  pose proof (span_digits_length s) as Hl.
  destruct (span_digits s) as [d r']. intros [= <- <-]. simpl in Hl. lia.
Qed.

Lemma scan_frac_length s f r :
  scan_frac s = Some (f, r) -> (length r <= length s)%nat.
Proof.
  destruct s as [|c s]; simpl; [by intros [= <- <-]|].
  destruct (c =? 46); [|by intros [= <- <-]].
  pose proof (span_digits_length s) as Hl.
  destruct (span_digits s) as [[|d0 d] r']; [done|].
  intros [= <- <-]. simpl in Hl. lia.
Qed.

Lemma scan_exp_length s e r :
  scan_exp s = Some (e, r) -> (length r <= length s)%nat.
Proof.
  destruct s as [|c s]; simpl; [by intros [= <- <-]|].
  destruct ((c =? 101) || (c =? 69)); [|by intros [= <- <-]].
  destruct s as [|x r1]; [done|].
  destruct ((x =? 43) || (x =? 45)).
  - pose proof (span_digits_length r1) as Hl.
    destruct (span_digits r1) as [[|d0 d] r']; [done|].
    intros [= <- <-]. simpl in *. lia.
  - pose proof (span_digits_length (x :: r1)) as Hl.
    destruct (span_digits (x :: r1)) as [[|d0 d] r']; [done|].
    intros [= <- <-]. simpl in *. lia.
Qed.

Lemma scan_number_length s lit r :
  scan_number s = Some (lit, r) -> (length r < length s)%nat.
Proof.
  assert (Hrest : forall sign s1,
    match scan_int s1 with
    | Some (i, s2) =>
        match scan_frac s2 with
        | Some (f, s3) =>
            match scan_exp s3 with
            | Some (e, s4) => Some (sign ++ i ++ f ++ e, s4)
            | None => None
            end
        | None => None
        end
    | None => None
    end = Some (lit, r) -> (length r < length s1)%nat).
  { intros sign s1.
    destruct (scan_int s1) as [[i s2]|] eqn:Ei; [|done].
    destruct (scan_frac s2) as [[f s3]|] eqn:Ef; [|done].
    destruct (scan_exp s3) as [[e s4]|] eqn:Ee; [|done].
    intros [= <- <-].
    apply scan_int_length in Ei. apply scan_frac_length in Ef.
    apply scan_exp_length in Ee. lia. }
  unfold scan_number. destruct s as [|c r0].
  - apply Hrest.
  - destruct (c =? 45).
    + intros H. apply Hrest in H. simpl. lia.
    + apply Hrest.
Qed.

Section Loops.

Variable pv : list N -> option (json * list N).
Hypothesis pv_consumes : consumes pv.

Lemma parse_elements_length k : forall acc s v r,
  parse_elements pv k acc s = Some (v, r) -> (length r < length s)%nat.
Proof.
  induction k as [|k IH]; [done|]. intros acc s v r. cbn [parse_elements].
  destruct (pv s) as [[x r1]|] eqn:E; [|done].
  apply pv_consumes in E.
  destruct (skip_ws r1) as [|d r2] eqn:Ew; [done|].
  apply skip_ws_cons_length in Ew.
  destruct (d =? 44).
  - intros H. apply IH in H. lia.
  - destruct (d =? 93); [|done]. intros [= <- <-]. lia.
Qed.

Lemma parse_members_length k : forall acc s v r,
  parse_members pv k acc s = Some (v, r) -> (length r < length s)%nat.
Proof.
  induction k as [|k IH]; [done|]. intros acc s v r. cbn [parse_members].
  destruct (skip_ws s) as [|q r0] eqn:E0; [done|].
  apply skip_ws_cons_length in E0.
  destruct (q =? 34); [|done].
  destruct (parse_chars r0) as [[key r1]|] eqn:E1; [|done].
  apply parse_chars_length in E1.
  destruct (skip_ws r1) as [|col r2] eqn:E2; [done|].
  apply skip_ws_cons_length in E2.
  destruct (col =? 58); [|done].
  destruct (pv r2) as [[x r3]|] eqn:E3; [|done].
  apply pv_consumes in E3.
  destruct (skip_ws r3) as [|d r4] eqn:E4; [done|].
  apply skip_ws_cons_length in E4.
  destruct (d =? 44).
  - intros H. apply IH in H. lia.
  - destruct (d =? 125); [|done]. intros [= <- <-]. lia.
Qed.

(** More turns than characters are never used. *)
Lemma parse_elements_fuel k : forall k' acc s,
  (length s <= k)%nat -> (length s <= k')%nat ->
  parse_elements pv k acc s = parse_elements pv k' acc s.
Proof.
  induction k as [|k IH]; intros k' acc s Hk Hk'.
  - destruct s; [|simpl in Hk; lia].
    destruct k' as [|k']; [done|]. cbn [parse_elements].
    destruct (pv []) as [[x r1]|] eqn:E; [|done].
    apply pv_consumes in E. simpl in E. lia.
  - destruct k' as [|k'].
    + destruct s; [|simpl in Hk'; lia]. cbn [parse_elements].
      destruct (pv []) as [[x r1]|] eqn:E; [|done].
      apply pv_consumes in E. simpl in E. lia.
    + cbn [parse_elements].
      destruct (pv s) as [[x r1]|] eqn:E; [|done].
      apply pv_consumes in E.
      destruct (skip_ws r1) as [|d r2] eqn:Ew; [done|].
      apply skip_ws_cons_length in Ew.
      destruct (d =? 44); [|done]. apply IH; lia.
Qed.

Lemma parse_members_fuel k : forall k' acc s,
  (length s <= k)%nat -> (length s <= k')%nat ->
  parse_members pv k acc s = parse_members pv k' acc s.
Proof.
  induction k as [|k IH]; intros k' acc s Hk Hk'.
  - destruct s; [|simpl in Hk; lia]. by destruct k'.
  - destruct k' as [|k'].
    + destruct s; [|simpl in Hk'; lia]. done.
    + cbn [parse_members].
      destruct (skip_ws s) as [|q r0] eqn:E0; [done|].
      apply skip_ws_cons_length in E0.
      destruct (q =? 34); [|done].
      destruct (parse_chars r0) as [[key r1]|] eqn:E1; [|done].
      apply parse_chars_length in E1.
      destruct (skip_ws r1) as [|col r2] eqn:E2; [done|].
      apply skip_ws_cons_length in E2.
      destruct (col =? 58); [|done].
      destruct (pv r2) as [[x r3]|] eqn:E3; [|done].
      apply pv_consumes in E3.
      destruct (skip_ws r3) as [|d r4] eqn:E4; [done|].
      apply skip_ws_cons_length in E4.
      destruct (d =? 44); [|done]. apply IH; lia.
Qed.

(** Only what [pv] does on shorter texts matters. *)
Variable pv' : list N -> option (json * list N).

Lemma parse_elements_ext k : forall acc s,
  (forall t, (length t <= length s)%nat -> pv t = pv' t) ->
  parse_elements pv k acc s = parse_elements pv' k acc s.
Proof.
  induction k as [|k IH]; [done|]. intros acc s Hext. cbn [parse_elements].
  rewrite <- (Hext s) by lia.
  destruct (pv s) as [[x r1]|] eqn:E; [|done].
  apply pv_consumes in E.
  destruct (skip_ws r1) as [|d r2] eqn:Ew; [done|].
  apply skip_ws_cons_length in Ew.
  destruct (d =? 44); [|done]. apply IH. intros t Ht. apply Hext. lia.
Qed.

Lemma parse_members_ext k : forall acc s,
  (forall t, (length t <= length s)%nat -> pv t = pv' t) ->
  parse_members pv k acc s = parse_members pv' k acc s.
Proof.
  induction k as [|k IH]; [done|]. intros acc s Hext. cbn [parse_members].
  destruct (skip_ws s) as [|q r0] eqn:E0; [done|].
  apply skip_ws_cons_length in E0.
  destruct (q =? 34); [|done].
  destruct (parse_chars r0) as [[key r1]|] eqn:E1; [|done].
  apply parse_chars_length in E1.
  destruct (skip_ws r1) as [|col r2] eqn:E2; [done|].
  apply skip_ws_cons_length in E2.
  destruct (col =? 58); [|done].
  rewrite <- (Hext r2) by lia.
  destruct (pv r2) as [[x r3]|] eqn:E3; [|done].
  apply pv_consumes in E3.
  destruct (skip_ws r3) as [|d r4] eqn:E4; [done|].
  apply skip_ws_cons_length in E4.
  destruct (d =? 44); [|done]. apply IH. intros t Ht. apply Hext. lia.
Qed.

End Loops.

Lemma parse_value_consumes n : consumes (parse_value n).
Proof.
  induction n as [|n IH]; [done|]. intros s v r. cbn [parse_value].
  destruct (skip_ws s) as [|c r0] eqn:E0; [done|].
  apply skip_ws_cons_length in E0.
  destruct (c =? 123).
  { destruct (skip_ws r0) as [|c' r'] eqn:E1; [done|].
    apply skip_ws_cons_length in E1.
    destruct (c' =? 125); [intros [= <- <-]; lia|].
    intros H. apply (parse_members_length _ IH) in H. lia. }
  destruct (c =? 91).
  { destruct (skip_ws r0) as [|c' r'] eqn:E1; [done|].
    apply skip_ws_cons_length in E1.
    destruct (c' =? 93); [intros [= <- <-]; lia|].
    intros H. apply (parse_elements_length _ IH) in H. lia. }
  destruct (c =? 34).
  { destruct (parse_chars r0) as [[str r']|] eqn:E1; [|done].
    apply parse_chars_length in E1. intros [= <- <-]. lia. }
  destruct (c =? 116).
  { destruct (strip_prefix (js "rue") r0) as [r'|] eqn:E1; [|done].
    apply strip_prefix_length in E1. intros [= <- <-]. lia. }
  destruct (c =? 102).
  { destruct (strip_prefix (js "alse") r0) as [r'|] eqn:E1; [|done].
    apply strip_prefix_length in E1. intros [= <- <-]. lia. }
  destruct (c =? 110).
  { destruct (strip_prefix (js "ull") r0) as [r'|] eqn:E1; [|done].
    apply strip_prefix_length in E1. intros [= <- <-]. lia. }
  destruct (scan_number (c :: r0)) as [[lit r']|] eqn:E1; [|done].
  apply scan_number_length in E1. intros [= <- <-]. simpl in E1. lia.
Qed.

(** Fuel above the length of the text is never used. *)
Lemma parse_value_fuel n : forall m s,
  (length s < n)%nat -> (length s < m)%nat ->
  parse_value n s = parse_value m s.
Proof.
  induction n as [|n IH]; intros m s Hn Hm; [lia|].
  destruct m as [|m]; [lia|]. cbn [parse_value].
  destruct (skip_ws s) as [|c r0] eqn:E0; [done|].
  apply skip_ws_cons_length in E0.
  destruct (c =? 123).
  { destruct (skip_ws r0) as [|c' r']; [done|].
    destruct (c' =? 125); [done|].
    apply parse_members_ext; [apply parse_value_consumes|].
    intros t Ht. apply IH; lia. }
  destruct (c =? 91); [|done].
  destruct (skip_ws r0) as [|c' r']; [done|].
  destruct (c' =? 93); [done|].
  apply parse_elements_ext; [apply parse_value_consumes|].
  intros t Ht. apply IH; lia.
Qed.

Lemma parse_fuel n text :
  (length text < n)%nat ->
  parse text
  = match parse_value n text with
    | Some (v, rest) => match skip_ws rest with [] => Some v | _ => None end
    | None => None
    end.
Proof.
  intros Hn. unfold parse. by rewrite (parse_value_fuel n (S (length text))) by lia.
Qed.

End JsonFacts.

(** *** Records *)

Lemma wf_js s : wf_str (js s).
Proof.
  unfold wf_str, js. apply Forall_fmap, Forall_forall. intros a _. simpl.
  pose proof (N_ascii_bounded a). lia.
Qed.

Lemma fields_ok_prop k v : plain v -> fields_ok [k] (prop k v).
Proof.
  intros Hv. split; [done|]. apply Forall_singleton. split; [apply wf_js|done].
Qed.

Lemma fields_ok_opt_prop k v :
  match v with Some x => plain x | None => True end ->
  fields_ok [k] (opt_prop k v).
Proof.
  destruct v as [x|]; intros Hv.
  - by apply fields_ok_prop.
  - split; [apply sublist_nil_l|done].
Qed.

Lemma fields_ok_app n1 n2 p1 p2 :
  fields_ok n1 p1 -> fields_ok n2 p2 -> fields_ok (n1 ++ n2) (p1 ++ p2).
Proof.
  intros [S1 F1] [S2 F2]. split.
  - rewrite !map_app. by apply sublist_app.
  - by apply Forall_app.
Qed.

Lemma fields_ok_plain names props :
  NoDup (map js names) -> fields_ok names props -> plain (JObj props).
Proof.
  intros Hnd [Hs Hf]. apply plain_props. split; [|done].
  by eapply sublist_NoDup.
Qed.

Lemma wf_opt_plain (o : option jstr) :
  wf_opt o -> match JStr <$> o with Some x => plain x | None => True end.
Proof. by destruct o. Qed.

Lemma plain_address a : wf_address a -> plain (address_to_json a).
Proof.
  intros (H1 & H2 & H3 & H4 & H5).
  apply (fields_ok_plain ["street"; "city"; "state"; "country"; "zipCode"]).
  { apply (bool_decide_unpack _). by vm_compute. }
  repeat (apply (fields_ok_app [_]);
          [apply fields_ok_opt_prop; by apply wf_opt_plain|]).
  apply fields_ok_opt_prop; by apply wf_opt_plain.
Qed.

Lemma plain_user u : wf_user u -> plain (user_to_json u).
Proof.
  intros (H1 & H2 & H3 & H4 & H5 & H6 & H7 & H8 & H9 & H10 & H11 & H12 & H13).
  apply (fields_ok_plain
           ["id"; "email"; "firstName"; "lastName"; "role";
            "isEmailVerified"; "isPhoneVerified"; "isActive";
            "phone"; "dateOfBirth"; "gender"; "profilePicture"; "address";
            "createdAt"; "updatedAt"; "lastLogin"]).
  { apply (bool_decide_unpack _). by vm_compute. }
  unfold user_to_json.
  repeat (apply (fields_ok_app [_]);
          [first [ by apply fields_ok_prop
                 | apply fields_ok_opt_prop; by apply wf_opt_plain
                 | apply fields_ok_opt_prop; destruct (address u); simpl;
                   [by apply plain_address|done] ]|]).
  apply fields_ok_opt_prop; by apply wf_opt_plain.
Qed.

Lemma stringify_user_parses u :
  wf_user u -> parse (stringify (user_to_json u)) = Some (user_to_json u).
Proof. intros Hu. by apply parse_stringify, plain_user. Qed.

(** ** Texts that js-cookie takes *)

Section WellFormed.

Local Open Scope N_scope.

Lemma isWellFormed_app a b :
  Cookies.isWellFormed a = true -> Cookies.isWellFormed b = true ->
  Cookies.isWellFormed (a ++ b) = true.
Proof.
  intros Ha Hb. remember (length a) as n eqn:Hn. revert a Ha Hn.
  induction n as [n IH] using lt_wf_ind. intros a Ha Hn.
  destruct a as [|c r]; [done|].
  cbn [app Cookies.isWellFormed] in *.
  destruct (is_high c).
  - destruct r as [|d r']; [done|].
    apply andb_true_iff in Ha as [Hd Hr].
    cbn [app]. rewrite Hd. cbn [andb].
    apply (IH (length r')); [cbn [length] in Hn; lia|done|done].
  - apply andb_true_iff in Ha as [Hc Hr]. rewrite Hc. cbn [andb].
    apply (IH (length r)); [cbn [length] in Hn; lia|done|done].
Qed.

(** A text without any surrogate. *)
Lemma isWellFormed_below s :
  Forall (fun c => c < 0xD800) s -> Cookies.isWellFormed s = true.
Proof.
  induction 1 as [|c s Hc _ IH]; [done|].
  cbn [Cookies.isWellFormed].
  assert (is_high c = false) as ->.
  { unfold is_high. apply andb_false_iff. left. apply N.leb_gt. exact Hc. }
  assert (is_low c = false) as ->.
  { unfold is_low. apply andb_false_iff. left. apply N.leb_gt. lia. }
  exact IH.
Qed.

Lemma hex_digit_below d : d < 16 -> hex_digit d < 0xD800.
Proof. intros H. unfold hex_digit. destruct (d <? 10); lia. Qed.

Lemma unicode_escape_wf c : Cookies.isWellFormed (unicode_escape c) = true.
Proof.
  apply isWellFormed_below. unfold unicode_escape.
  repeat (apply List.Forall_cons;
          [first [lia | apply hex_digit_below, N.mod_lt; lia]|]).
  apply List.Forall_nil.
Qed.

Lemma quote_unit_wf c : Cookies.isWellFormed (quote_unit c) = true.
Proof.
  unfold quote_unit.
  repeat (match goal with |- context [if ?b then _ else _] =>
            destruct b eqn:?; [first [reflexivity | apply unicode_escape_wf]|]
          end).
  cbn [Cookies.isWellFormed].
  match goal with H : _ || _ || _ = false |- _ =>
    apply orb_false_iff in H as [H1 ->]; apply orb_false_iff in H1 as [_ ->]
  end.
  reflexivity.
Qed.

Lemma quote_units_wf s : Cookies.isWellFormed (quote_units s) = true.
Proof.
  remember (length s) as n eqn:Hn. revert s Hn.
  induction n as [n IH] using lt_wf_ind. intros s Hn.
  destruct s as [|c r]; [done|].
  cbn [quote_units]. destruct r as [|d r'].
  - apply quote_unit_wf.
  - destruct (is_high c && is_low d) eqn:E.
    + apply andb_true_iff in E as [Eh El].
      cbn [Cookies.isWellFormed]. rewrite Eh, El. cbn [andb].
      apply (IH (length r')); [cbn [length] in Hn; lia|done].
    + apply isWellFormed_app; [apply quote_unit_wf|].
      apply (IH (length (d :: r'))); [cbn [length] in *; lia|done].
Qed.

Lemma isWellFormed_cons c s :
  c < 0xD800 -> Cookies.isWellFormed s = true ->
  Cookies.isWellFormed (c :: s) = true.
Proof.
  intros Hc Hs.
  apply (isWellFormed_app [c] s); [|done].
  apply isWellFormed_below. by repeat constructor.
Qed.

Lemma quote_wf s : Cookies.isWellFormed (quote s) = true.
Proof.
  unfold quote. apply isWellFormed_cons; [lia|].
  apply isWellFormed_app; [apply quote_units_wf|done].
Qed.

Lemma join_comma_wf l :
  Forall (fun t => Cookies.isWellFormed t = true) l ->
  Cookies.isWellFormed (join_comma l) = true.
Proof.
  induction 1 as [|t l Ht Hl IH]; [done|].
  cbn [join_comma]. destruct l as [|t' l']; [done|].
  apply isWellFormed_app; [done|]. apply isWellFormed_cons; [lia|done].
Qed.

(** [JSON.stringify] writes a lone surrogate as an escape: the text of a
    value without numbers is well formed, whatever its strings hold. *)
Lemma stringify_wf v : plain v -> Cookies.isWellFormed (stringify v) = true.
Proof.
  induction v as [|b|lit|s|items IH|props IH] using json_nested_ind;
    intros Hp.
  - reflexivity.
  - by destruct b.
  - destruct Hp.
  - apply quote_wf.
  - cbn [stringify]. apply isWellFormed_cons; [lia|].
    apply isWellFormed_app; [|done].
    apply join_comma_wf. cbn [plain] in Hp.
    induction IH as [|x r Hx _ IHr]; [constructor|].
    cbn [fold_right] in Hp. destruct Hp as [Hpx Hpr].
    cbn [map]. apply List.Forall_cons; [by apply Hx|by apply IHr].
  - cbn [stringify]. apply isWellFormed_cons; [lia|].
    apply isWellFormed_app; [|done].
    apply join_comma_wf. cbn [plain] in Hp. destruct Hp as [_ Hp].
    induction IH as [|kv r Hkv _ IHr]; [constructor|].
    cbn [fold_right] in Hp. destruct Hp as [[_ Hpv] Hpr].
    cbn [map]. apply List.Forall_cons; [|by apply IHr].
    apply isWellFormed_app; [apply quote_wf|].
    apply isWellFormed_cons; [lia|by apply Hkv].
Qed.

End WellFormed.

Lemma stringify_user_wf u :
  wf_user u -> Cookies.isWellFormed (stringify (user_to_json u)) = true.
Proof. intros Hu. apply stringify_wf. by apply plain_user. Qed.

(** ** The operations, one by one *)

Local Arguments stringify : simpl never.
Local Arguments parse : simpl never.
Local Arguments user_to_json : simpl never.
Local Arguments js : simpl never.

Ltac run := unfold try_finally, try_catch, bind, modify, gets, ret, throw.

Lemma on_request_spec config c :
  exists r, Api.on_request config c = (Return r, c).
Proof.
  unfold Api.on_request. run.
  destruct (cookies c !! "admin_token") as [[|ch t]|]; eauto.
Qed.

Lemma send_spec {T} m u b (reply : Reply T) c :
  exists r, Api.send m u b reply c = (outcome reply, settle reply (with_sent r c)).
Proof.
  unfold Api.send.
  destruct (on_request_spec
              {| method := m; url := u; body := b; authorization := None |} c)
    as [r Hr].
  exists r. unfold bind at 1. rewrite Hr. run.
  destruct reply as [p|status err|msg]; simpl; [done| |done].
  unfold Api.on_rejected. run. simpl.
  destruct (decide (status = 401%N)) as [->|Hne].
  - rewrite decide_True by done. done.
  - rewrite decide_False by congruence. done.
Qed.

Lemma settle_cookies_refresh {T} (reply : Reply T) c :
  cookies (settle reply c) !! "admin_refresh_token"
  = cookies c !! "admin_refresh_token".
Proof.
  destruct reply as [p|status err|msg]; simpl; try done.
  destruct (decide (status = 401%N)); [|done]. simpl.
  by rewrite !lookup_delete_ne.
Qed.

Lemma clearAuth_token c :
  cookies (AuthService.clearAuth c) !! AuthService.TOKEN_KEY = None.
Proof.
  unfold AuthService.clearAuth. simpl.
  rewrite lookup_delete_ne by done. rewrite lookup_delete_ne by done.
  apply lookup_delete_eq.
Qed.

Lemma clearAuth_user c :
  cookies (AuthService.clearAuth c) !! AuthService.USER_KEY = None.
Proof.
  unfold AuthService.clearAuth. simpl.
  rewrite lookup_delete_ne by done. apply lookup_delete_eq.
Qed.

Lemma clearAuth_refresh c :
  cookies (AuthService.clearAuth c) !! AuthService.REFRESH_TOKEN_KEY = None.
Proof. unfold AuthService.clearAuth. simpl. by rewrite lookup_delete_eq. Qed.

Lemma not_authenticated_without_token c :
  cookies c !! AuthService.TOKEN_KEY = None ->
  AuthService.isAuthenticated c = false.
Proof.
  intros H. unfold AuthService.isAuthenticated, AuthService.getToken.
  by rewrite H.
Qed.

Lemma not_authenticated_after_empty_token c :
  cookies c !! AuthService.TOKEN_KEY = Some [] ->
  AuthService.isAuthenticated c = false.
Proof.
  intros H. unfold AuthService.isAuthenticated, AuthService.getToken.
  by rewrite H.
Qed.

(** *** AuthService *)

Lemma service_login_spec credentials reply c :
  exists r,
    AuthService.login credentials reply c
    = match reply with
      | Fulfilled response =>
          if storable (data response)
          then (Return response,
                AuthService.setUser (data_user (data response))
                  (Cookies.put AuthService.REFRESH_TOKEN_KEY
                     (data_refreshToken (data response))
                     (Cookies.put AuthService.TOKEN_KEY
                        (data_token (data response)) (with_sent r c))))
          else (Throw (JsError (js "Login failed")),
                refused (data response) (with_sent r c))
      | _ => (Throw (JsError (surfaced reply (js "Login failed"))),
              settle reply (with_sent r c))
      end.
Proof.
  unfold AuthService.login, Api.post.
  destruct (send_spec "POST" "/auth/login"
              (Some (login_request_to_json credentials)) reply c) as [r Hr].
  exists r. unfold try_catch, bind at 1. rewrite Hr.
  destruct reply as [response|status err|msg]; [|done|done].
  cbn [outcome settle].
  unfold storable, refused, AuthService.setToken, AuthService.setRefreshToken,
    Cookies.set, bind, modify, ret, throw.
  by destruct (Cookies.isWellFormed (data_token (data response))),
    (Cookies.isWellFormed (data_refreshToken (data response))).
Qed.

Lemma service_register_spec userData reply c :
  exists r,
    AuthService.register userData reply c
    = match reply with
      | Fulfilled response =>
          if storable (data response)
          then (Return response,
                AuthService.setUser (data_user (data response))
                  (Cookies.put AuthService.REFRESH_TOKEN_KEY
                     (data_refreshToken (data response))
                     (Cookies.put AuthService.TOKEN_KEY
                        (data_token (data response)) (with_sent r c))))
          else (Throw (JsError (js "Registration failed")),
                refused (data response) (with_sent r c))
      | _ => (Throw (JsError (surfaced reply (js "Registration failed"))),
              settle reply (with_sent r c))
      end.
Proof.
  unfold AuthService.register, Api.post.
  destruct (send_spec "POST" "/auth/register"
              (Some (JObj (obj_set (js "role") (JStr (js "admin"))
                             (register_request_props userData)))) reply c)
    as [r Hr].
  exists r. unfold try_catch, bind at 1. rewrite Hr.
  destruct reply as [response|status err|msg]; [|done|done].
  cbn [outcome settle].
  unfold storable, refused, AuthService.setToken, AuthService.setRefreshToken,
    Cookies.set, bind, modify, ret, throw.
  by destruct (Cookies.isWellFormed (data_token (data response))),
    (Cookies.isWellFormed (data_refreshToken (data response))).
Qed.

Lemma service_logout_spec reply c :
  exists c1,
    AuthService.logout reply c = (Return tt, AuthService.clearAuth c1)
    /\ href c1 = href (settle reply c)
    /\ routes c1 = routes c /\ user c1 = user c
    /\ isLoading c1 = isLoading c /\ error c1 = error c.
Proof.
  unfold AuthService.logout, Api.post.
  destruct (send_spec "POST" "/auth/logout" None reply c) as [r Hr].
  unfold try_finally, try_catch. rewrite Hr.
  destruct reply as [[]|status err|msg]; simpl.
  - eexists. split; [reflexivity|done].
  - eexists. split; [reflexivity|]. simpl.
    by destruct (decide (status = 401%N)).
  - eexists. split; [reflexivity|done].
Qed.

Lemma service_refreshToken_spec reply c :
  exists r,
    AuthService.refreshToken reply c
    = match AuthService.getRefreshToken c, reply with
      | Some _, Fulfilled token =>
          if Cookies.isWellFormed token
          then (Return token,
                Cookies.put AuthService.TOKEN_KEY token (with_sent r c))
          else (Throw (JsError (js "Token refresh failed")),
                AuthService.clearAuth (with_sent r c))
      | Some _, _ =>
          (Throw (JsError (js "Token refresh failed")),
           AuthService.clearAuth (settle reply (with_sent r c)))
      | None, _ =>
          (Throw (JsError (js "Token refresh failed")),
           AuthService.clearAuth c)
      end.
Proof.
  unfold AuthService.refreshToken, Api.post.
  destruct (AuthService.getRefreshToken c) as [stored|] eqn:E.
  - destruct (send_spec "POST" "/auth/refresh"
                (Some (JObj (prop "refreshToken" (JStr stored)))) reply c)
      as [r Hr].
    exists r. unfold try_catch, bind at 1, gets. rewrite E.
    unfold bind at 1. rewrite Hr.
    destruct reply as [token|status err|msg]; [|done|done].
    cbn [outcome settle].
    unfold AuthService.setToken, Cookies.set, bind, modify, ret, throw.
    by destruct (Cookies.isWellFormed token).
  - exists {| method := "POST"; url := "/auth/refresh"; body := None;
              authorization := None |}.
    unfold try_catch, bind at 1, gets. rewrite E. by destruct reply.
Qed.

Lemma service_getCurrentUser_spec reply c :
  exists r,
    AuthService.getCurrentUser reply c
    = match reply with
      | Fulfilled u => (Return u, AuthService.setUser u (with_sent r c))
      | _ => (Throw (JsError (surfaced reply (js "Failed to get user profile"))),
              settle reply (with_sent r c))
      end.
Proof.
  unfold AuthService.getCurrentUser, Api.get.
  destruct (send_spec "GET" "/users/profile" None reply c) as [r Hr].
  exists r. unfold try_catch, bind at 1. rewrite Hr. by destruct reply.
Qed.

Lemma service_updateProfile_spec userData reply c :
  exists r,
    AuthService.updateProfile userData reply c
    = match reply with
      | Fulfilled u => (Return u, AuthService.setUser u (with_sent r c))
      | _ => (Throw (JsError (surfaced reply (js "Failed to update profile"))),
              settle reply (with_sent r c))
      end.
Proof.
  unfold AuthService.updateProfile, Api.put.
  destruct (send_spec "PUT" "/users/profile" (Some userData) reply c) as [r Hr].
  exists r. unfold try_catch, bind at 1. rewrite Hr. by destruct reply.
Qed.

Lemma service_forgotPassword_spec mail reply c :
  exists r,
    AuthService.forgotPassword mail reply c
    = match reply with
      | Fulfilled ack => (Return ack, with_sent r c)
      | _ => (Throw (JsError (surfaced reply (js "Failed to send reset email"))),
              settle reply (with_sent r c))
      end.
Proof.
  unfold AuthService.forgotPassword, Api.post.
  destruct (send_spec "POST" "/auth/forgot-password"
              (Some (JObj (prop "email" (JStr mail)))) reply c) as [r Hr].
  exists r. unfold try_catch. rewrite Hr. by destruct reply.
Qed.

Lemma service_resetPassword_spec token password reply c :
  exists r,
    AuthService.resetPassword token password reply c
    = match reply with
      | Fulfilled ack => (Return ack, with_sent r c)
      | _ => (Throw (JsError (surfaced reply (js "Failed to reset password"))),
              settle reply (with_sent r c))
      end.
Proof.
  unfold AuthService.resetPassword, Api.post.
  destruct (send_spec "POST" "/auth/reset-password"
              (Some (JObj (prop "token" (JStr token)
                           ++ prop "password" (JStr password)))) reply c)
    as [r Hr].
  exists r. unfold try_catch. rewrite Hr. by destruct reply.
Qed.

(** *** AuthProvider *)

(** Login when the backend accepted the credentials. *)
Lemma context_login_fulfilled mail password response logout_reply c :
  storable (data response) = true ->
  exists c1,
    AuthContext.login mail password (Fulfilled response) logout_reply c
    = (if decide (role (data_user (data response)) <> js "admin")
       then (Throw (JsError ACCESS_DENIED),
             with_isLoading false
               (with_error (Some ACCESS_DENIED) (AuthService.clearAuth c1)))
       else (Return tt,
             with_isLoading false
               (with_route "/dashboard"
                  (with_user (user_to_json (data_user (data response)))
                     (AuthService.setUser (data_user (data response))
                        (Cookies.put AuthService.REFRESH_TOKEN_KEY
                           (data_refreshToken (data response))
                           (Cookies.put AuthService.TOKEN_KEY
                              (data_token (data response)) c1)))))))
    /\ routes c1 = routes c /\ user c1 = user c.
Proof.
  intros Hst. unfold AuthContext.login.
  destruct (service_login_spec
              {| LoginRequest.email := mail; LoginRequest.password := password |}
              (Fulfilled response)
              (with_error None (with_isLoading true c))) as [r Hr].
  rewrite Hst in Hr.
  unfold try_finally, try_catch.
  unfold AuthContext.setIsLoading at 1, AuthContext.setError at 1.
  unfold bind at 1, modify at 1. unfold bind at 1, modify at 1.
  unfold bind at 1. rewrite Hr.
  destruct (decide (role (data_user (data response)) <> js "admin")) as [Hne|He].
  - destruct (service_logout_spec logout_reply
                (AuthService.setUser (data_user (data response))
                   (Cookies.put AuthService.REFRESH_TOKEN_KEY
                      (data_refreshToken (data response))
                      (Cookies.put AuthService.TOKEN_KEY
                         (data_token (data response))
                         (with_sent r
                            (with_error None (with_isLoading true c)))))))
      as (c1 & Hc1 & _ & Hroutes & Huser & _).
    exists c1. split; [|done].
    unfold bind at 1. unfold bind at 1. rewrite Hc1. reflexivity.
  - eexists. split; [reflexivity|done].
Qed.

(** Login when js-cookie refuses a token of the response. *)
Lemma context_login_refused mail password response logout_reply c :
  storable (data response) = false ->
  exists r,
    AuthContext.login mail password (Fulfilled response) logout_reply c
    = (Throw (JsError (js "Login failed")),
       with_isLoading false
         (with_error (Some (js "Login failed"))
            (refused (data response)
               (with_sent r (with_error None (with_isLoading true c)))))).
Proof.
  intros Hst.
  destruct (service_login_spec
              {| LoginRequest.email := mail; LoginRequest.password := password |}
              (Fulfilled response)
              (with_error None (with_isLoading true c))) as [r Hr].
  rewrite Hst in Hr.
  exists r. unfold AuthContext.login, try_finally, try_catch.
  unfold AuthContext.setIsLoading at 1, AuthContext.setError at 1.
  unfold bind at 1, modify at 1. unfold bind at 1, modify at 1.
  unfold bind at 1. rewrite Hr. reflexivity.
Qed.

Lemma setUser_getUser u c :
  wf_user u -> AuthService.getUser (AuthService.setUser u c) = user_to_json u.
Proof.
  intros Hu. unfold AuthService.getUser, AuthService.setUser. simpl.
  rewrite lookup_insert_eq.
  pose proof (stringify_user_parses u Hu) as Hp.
  destruct (stringify (user_to_json u)) as [|ch t] eqn:E.
  - by vm_compute in Hp.
  - by rewrite Hp.
Qed.

Lemma role_is_admin_user u :
  AuthService.role_is_admin (user_to_json u) = bool_decide (role u = js "admin").
Proof. reflexivity. Qed.

Lemma truthy_user u : truthy (user_to_json u) = true.
Proof. reflexivity. Qed.

(** C1, as stated, fails: when the token of the response is a lone
    surrogate, js-cookie refuses it, the session manager's login ends in its
    catch, and the context's login throws Login failed without logging out;
    the session that was in the cookies is still there. *)
Lemma login_unstorable_counterexample :
  ~ (forall mail password response logout_reply c,
       role (data_user (data response)) <> js "admin" ->
       let result :=
         AuthContext.login mail password (Fulfilled response) logout_reply c in
       fst result
       = Throw (JsError (js "Access denied. Admin privileges required."))
       /\ cookies (snd result) !! AuthService.TOKEN_KEY = None
       /\ AuthService.isAuthenticated (snd result) = false).
Proof.
  intros H.
  specialize (H (js "eve@example.com") (js "pw")
                (unstorable_response "customer") (Fulfilled tt)
                (session_of (sample_user "admin"))).
  destruct H as (H & _); [vm_compute; discriminate|].
  vm_compute in H. discriminate.
Qed.

(** C1, amended. When the backend accepts the credentials with two tokens
    that js-cookie can store (neither holds a lone surrogate) and the returned
    user's role is not admin, the context's login throws the access-denied
    error, records it, and leaves none of the three cookies, so that
    isAuthenticated() is false. *)
Theorem login_non_admin_denied mail password response logout_reply c :
  storable (data response) = true ->
  role (data_user (data response)) <> js "admin" ->
  let result :=
    AuthContext.login mail password (Fulfilled response) logout_reply c in
  fst result = Throw (JsError (js "Access denied. Admin privileges required."))
  /\ cookies (snd result) !! AuthService.TOKEN_KEY = None
  /\ cookies (snd result) !! AuthService.REFRESH_TOKEN_KEY = None
  /\ cookies (snd result) !! AuthService.USER_KEY = None
  /\ AuthService.isAuthenticated (snd result) = false
  /\ error (snd result) = Some (js "Access denied. Admin privileges required.").
Proof.
  intros Hst Hrole result. subst result.
  destruct (context_login_fulfilled mail password response logout_reply c Hst)
    as (c1 & -> & _).
  rewrite decide_True by done. cbn [fst snd].
  repeat split.
  - apply clearAuth_token.
  - apply clearAuth_refresh.
  - apply clearAuth_user.
  - apply not_authenticated_without_token, clearAuth_token.
Qed.

Lemma login_non_admin_denied_witness :
  let result :=
    AuthContext.login (js "ada@example.com") (js "pw")
      (Fulfilled (sample_response "customer")) (NoResponse (js "Network Error"))
      fresh_client in
  fst result = Throw (JsError (js "Access denied. Admin privileges required."))
  /\ cookies (snd result) !! AuthService.TOKEN_KEY = None
  /\ cookies (snd result) !! AuthService.REFRESH_TOKEN_KEY = None
  /\ cookies (snd result) !! AuthService.USER_KEY = None
  /\ AuthService.isAuthenticated (snd result) = false
  /\ error (snd result) = Some (js "Access denied. Admin privileges required.").
Proof.
  apply (login_non_admin_denied (js "ada@example.com") (js "pw")
           (sample_response "customer") (NoResponse (js "Network Error"))
           fresh_client).
  - reflexivity.
  - vm_compute. discriminate.
Defined.

(** C2. Startup on the stored session of a customer that the backend
    confirms: the session is authenticated and not an admin's, and initAuth
    neither clears it nor refuses the user.  The context adopts the
    customer, the three cookies stay, and isAuthenticated() is still true;
    the role is looked at by login alone. *)
Theorem initAuth_keeps_non_admin :
  let c := session_of (sample_user "customer") in
  let result := AuthContext.initAuth (Fulfilled (sample_user "customer")) c in
  AuthService.isAuthenticated c = true
  /\ AuthService.isAdmin c = false
  /\ fst result = Return tt
  /\ user (snd result) = user_to_json (sample_user "customer")
  /\ AuthService.getToken (snd result) = Some (js "tok")
  /\ AuthService.getRefreshToken (snd result) = Some (js "ref")
  /\ AuthService.getUser (snd result) = user_to_json (sample_user "customer")
  /\ AuthService.isAuthenticated (snd result) = true
  /\ AuthService.isAdmin (snd result) = false.
Proof. vm_compute. repeat split. Qed.

Lemma context_initAuth_authenticated reply c :
  AuthService.isAuthenticated c = true ->
  exists r,
    let c0 := with_sent r (with_user (AuthService.getUser c)
                             (with_isLoading true c)) in
    AuthContext.initAuth reply c
    = (Return tt,
       with_isLoading false
         match reply with
         | Fulfilled fresh =>
             with_user (user_to_json fresh) (AuthService.setUser fresh c0)
         | _ => with_user JNull (AuthService.clearAuth (settle reply c0))
         end).
Proof.
  intros Hauth.
  assert (Htruthy : truthy (AuthService.getUser c) = true).
  { unfold AuthService.isAuthenticated in Hauth.
    by destruct (AuthService.getToken c). }
  destruct (service_getCurrentUser_spec reply
              (with_user (AuthService.getUser c) (with_isLoading true c)))
    as [r Hr].
  exists r. cbv zeta.
  unfold AuthContext.initAuth, try_finally.
  unfold try_catch at 1, AuthContext.setIsLoading at 1.
  unfold bind at 1, modify at 1. unfold bind at 1, gets at 1.
  change (AuthService.isAuthenticated (with_isLoading true c))
    with (AuthService.isAuthenticated c).
  rewrite Hauth. unfold bind at 1, gets at 1.
  change (AuthService.getUser (with_isLoading true c))
    with (AuthService.getUser c).
  rewrite Htruthy. unfold AuthContext.setUser at 1.
  unfold bind at 1, modify at 1. unfold try_catch at 1, bind at 1.
  rewrite Hr. by destruct reply.
Qed.

(** At startup an authenticated stored session is revalidated
    without any check of the role: when the backend answers, the context
    adopts the fresh user whatever the role, the cookies keep both tokens
    and get the fresh user, and only the context's isAdmin flag tells a
    non-admin apart: the pages render for an admin alone and their guard
    sends anyone else to the login page.  When the backend does not answer
    with success, the three cookies are removed and the context holds no
    user. *)
Theorem initAuth_authenticated reply c :
  AuthService.isAuthenticated c = true ->
  let result := AuthContext.initAuth reply c in
  fst result = Return tt
  /\ isLoading (snd result) = false
  /\ match reply with
     | Fulfilled fresh =>
         user (snd result) = user_to_json fresh
         /\ AuthContext.isAuthenticated (snd result) = true
         /\ AuthContext.isAdmin (snd result)
            = bool_decide (role fresh = js "admin")
         /\ cookies (snd result)
            = <[AuthService.USER_KEY := stringify (user_to_json fresh)]>
                (cookies c)
         /\ Pages.renders (snd result)
            = bool_decide (role fresh = js "admin")
         /\ routes (snd (Pages.guard (snd result)))
            = routes c ++ (if bool_decide (role fresh = js "admin")
                           then [] else ["/auth/login"])
     | _ =>
         user (snd result) = JNull
         /\ cookies (snd result) !! AuthService.TOKEN_KEY = None
         /\ cookies (snd result) !! AuthService.REFRESH_TOKEN_KEY = None
         /\ cookies (snd result) !! AuthService.USER_KEY = None
     end.
Proof.
  intros Hauth result. subst result.
  destruct (context_initAuth_authenticated reply c Hauth) as [r ->].
  destruct reply as [fresh|status err|msg]; cbn [fst snd].
  - split; [done|]. split; [done|]. split; [done|]. split; [done|].
    split; [done|]. split; [done|]. split; [done|].
    unfold Pages.guard, bind, gets, AuthContext.router_push, modify, ret.
    cbn [isLoading with_isLoading negb andb].
    change (AuthContext.isAuthenticated _) with true.
    change (AuthContext.isAdmin _)
      with (bool_decide (role fresh = js "admin")).
    cbn [negb andb].
    destruct (bool_decide (role fresh = js "admin")); simpl.
    + by rewrite app_nil_r.
    + done.
  - split; [done|]. split; [done|]. split; [done|].
    split; [apply clearAuth_token|].
    split; [apply clearAuth_refresh|apply clearAuth_user].
  - split; [done|]. split; [done|]. split; [done|].
    split; [apply clearAuth_token|].
    split; [apply clearAuth_refresh|apply clearAuth_user].
Qed.

Lemma initAuth_authenticated_witness :
  let result :=
    AuthContext.initAuth (Fulfilled (sample_user "customer"))
      (session_of (sample_user "customer")) in
  fst result = Return tt
  /\ isLoading (snd result) = false
  /\ user (snd result) = user_to_json (sample_user "customer")
  /\ AuthContext.isAuthenticated (snd result) = true
  /\ AuthContext.isAdmin (snd result)
     = bool_decide (role (sample_user "customer") = js "admin")
  /\ cookies (snd result)
     = <[AuthService.USER_KEY :=
           stringify (user_to_json (sample_user "customer"))]>
         (cookies (session_of (sample_user "customer")))
  /\ Pages.renders (snd result)
     = bool_decide (role (sample_user "customer") = js "admin")
  /\ routes (snd (Pages.guard (snd result)))
     = routes (session_of (sample_user "customer"))
       ++ (if bool_decide (role (sample_user "customer") = js "admin")
           then [] else ["/auth/login"]).
Proof.
  apply (initAuth_authenticated (Fulfilled (sample_user "customer"))
           (session_of (sample_user "customer"))).
  vm_compute. reflexivity.
Defined.

(** C3. A response with status 401 makes the response interceptor remove
    the token cookie and the user cookie, keep the refresh-token cookie and
    point the location to the login page, and then reject: the caller gets
    the error with the client already in that state, where
    isAuthenticated() is false. *)
Theorem response_401_purges {T : Type} m u b err c :
  let result := Api.send (T:=T) m u b (Failed 401 err) c in
  fst result = Throw (AxiosError (Api.status_message 401) (Some (401%N, err)))
  /\ cookies (snd result) !! "admin_token" = None
  /\ cookies (snd result) !! "admin_user" = None
  /\ cookies (snd result) !! "admin_refresh_token"
     = cookies c !! "admin_refresh_token"
  /\ href (snd result) = Some "/auth/login"
  /\ AuthService.isAuthenticated (snd result) = false.
Proof.
  intros result. subst result.
  destruct (send_spec (T:=T) m u b (Failed 401 err) c) as [r ->].
  cbn [fst snd outcome settle]. rewrite decide_True by done.
  assert (Htok : cookies (purge (with_sent r c)) !! "admin_token" = None).
  { simpl. rewrite lookup_delete_ne by done. apply lookup_delete_eq. }
  repeat split.
  - exact Htok.
  - simpl. apply lookup_delete_eq.
  - simpl. by rewrite !lookup_delete_ne.
  - by apply not_authenticated_without_token.
Qed.

(** C4. refreshToken() with no refresh token stored, or with a backend that
    rejects the request, removes the three cookies and throws the generic
    failure. *)
Theorem refreshToken_failure_purges reply c :
  AuthService.getRefreshToken c = None \/ rejected reply = true ->
  let result := AuthService.refreshToken reply c in
  fst result = Throw (JsError (js "Token refresh failed"))
  /\ cookies (snd result) !! AuthService.TOKEN_KEY = None
  /\ cookies (snd result) !! AuthService.REFRESH_TOKEN_KEY = None
  /\ cookies (snd result) !! AuthService.USER_KEY = None.
Proof.
  intros H result. subst result.
  destruct (service_refreshToken_spec reply c) as [r ->].
  assert (Hclear : forall c1 : Client,
    let result := (Throw (A:=list N) (JsError (js "Token refresh failed")),
                   AuthService.clearAuth c1) in
    fst result = Throw (JsError (js "Token refresh failed"))
    /\ cookies (snd result) !! AuthService.TOKEN_KEY = None
    /\ cookies (snd result) !! AuthService.REFRESH_TOKEN_KEY = None
    /\ cookies (snd result) !! AuthService.USER_KEY = None).
  { intros c1. cbn [fst snd]. split; [done|].
    split; [apply clearAuth_token|].
    split; [apply clearAuth_refresh|apply clearAuth_user]. }
  destruct (AuthService.getRefreshToken c) as [stored|].
  - destruct H as [H|H]; [done|].
    destruct reply as [token|status err|msg]; [done|apply Hclear..].
  - apply Hclear.
Qed.

Lemma refreshToken_failure_purges_witness :
  let result :=
    AuthService.refreshToken (Failed 403 (Some (js "Invalid refresh token")))
      (session_of (sample_user "admin")) in
  fst result = Throw (JsError (js "Token refresh failed"))
  /\ cookies (snd result) !! AuthService.TOKEN_KEY = None
  /\ cookies (snd result) !! AuthService.REFRESH_TOKEN_KEY = None
  /\ cookies (snd result) !! AuthService.USER_KEY = None.
Proof.
  apply (refreshToken_failure_purges
           (Failed 403 (Some (js "Invalid refresh token")))
           (session_of (sample_user "admin"))).
  right. reflexivity.
Defined.

(** C5, as stated, fails: getCurrentUser() that meets a 401 leaves the
    caller without the token cookie it had. *)
Lemma getCurrentUser_401_counterexample :
  ~ (forall (reply : Reply AdminUser) (c : Client),
       rejected reply = true ->
       cookies (snd (AuthService.getCurrentUser reply c))
         !! AuthService.TOKEN_KEY
       = cookies c !! AuthService.TOKEN_KEY).
Proof.
  intros H.
  specialize (H (Failed 401 None) (session_of (sample_user "admin")) eq_refl).
  vm_compute in H. discriminate.
Qed.

Lemma cookies_after_profile_refresh reply m :
  cookies_after_profile reply m !! AuthService.REFRESH_TOKEN_KEY
  = m !! AuthService.REFRESH_TOKEN_KEY.
Proof.
  destruct reply as [u|status err|msg]; simpl.
  - by rewrite lookup_insert_ne.
  - case_decide; [|done]. by rewrite !lookup_delete_ne.
  - done.
Qed.

(** C5, amended. getCurrentUser() and updateProfile() never change the
    refresh-token cookie and never write the token cookie.  On success they
    overwrite the user cookie and nothing else.  On a failure other than a
    401 no cookie changes.  On a 401 the response interceptor removes the
    token cookie and the user cookie. *)
Theorem profile_calls_cookies userData reply c :
  cookies (snd (AuthService.getCurrentUser reply c))
  = cookies_after_profile reply (cookies c)
  /\ cookies (snd (AuthService.updateProfile userData reply c))
     = cookies_after_profile reply (cookies c)
  /\ cookies (snd (AuthService.getCurrentUser reply c))
       !! AuthService.REFRESH_TOKEN_KEY
     = cookies c !! AuthService.REFRESH_TOKEN_KEY
  /\ cookies (snd (AuthService.updateProfile userData reply c))
       !! AuthService.REFRESH_TOKEN_KEY
     = cookies c !! AuthService.REFRESH_TOKEN_KEY.
Proof.
  destruct (service_getCurrentUser_spec reply c) as [r1 H1].
  destruct (service_updateProfile_spec userData reply c) as [r2 H2].
  assert (E1 : cookies (snd (AuthService.getCurrentUser reply c))
               = cookies_after_profile reply (cookies c)).
  { rewrite H1. destruct reply as [u|status err|msg]; simpl; [done| |done].
    by case_decide. }
  assert (E2 : cookies (snd (AuthService.updateProfile userData reply c))
               = cookies_after_profile reply (cookies c)).
  { rewrite H2. destruct reply as [u|status err|msg]; simpl; [done| |done].
    by case_decide. }
  rewrite E1, E2, cookies_after_profile_refresh. done.
Qed.

Lemma context_logout_spec reply c :
  exists c1,
    AuthContext.logout reply c
    = (Return tt,
       with_isLoading false
         (with_route "/auth/login"
            (with_user JNull (AuthService.clearAuth c1))))
    /\ routes c1 = routes c /\ error c1 = error c.
Proof.
  destruct (service_logout_spec reply (with_isLoading true c))
    as (c1 & Hc1 & _ & Hroutes & _ & _ & Herror).
  exists c1. split; [|done].
  unfold AuthContext.logout, try_finally, try_catch.
  unfold AuthContext.setIsLoading at 1. unfold bind at 1, modify at 1.
  unfold bind at 1. rewrite Hc1. reflexivity.
Qed.

(** C6. logout() returns normally whatever the backend answers and leaves
    none of the three cookies, in the service and in the context, where it
    also drops the user and goes to the login page.  Every other operation
    of the service throws when the backend rejects its request. *)
Theorem logout_swallows_failure
    (logout_reply : Reply unit)
    (auth_reply : Reply AuthResponse) (ack_reply : Reply Ack)
    (token_reply : Reply (list N)) (user_reply : Reply AdminUser)
    credentials registration mail token password userData c :
  rejected auth_reply = true -> rejected ack_reply = true ->
  rejected token_reply = true -> rejected user_reply = true ->
  (fst (AuthService.logout logout_reply c) = Return tt
   /\ cookies (snd (AuthService.logout logout_reply c))
        !! AuthService.TOKEN_KEY = None
   /\ cookies (snd (AuthService.logout logout_reply c))
        !! AuthService.REFRESH_TOKEN_KEY = None
   /\ cookies (snd (AuthService.logout logout_reply c))
        !! AuthService.USER_KEY = None)
  /\ (fst (AuthContext.logout logout_reply c) = Return tt
      /\ cookies (snd (AuthContext.logout logout_reply c))
           !! AuthService.TOKEN_KEY = None
      /\ cookies (snd (AuthContext.logout logout_reply c))
           !! AuthService.REFRESH_TOKEN_KEY = None
      /\ cookies (snd (AuthContext.logout logout_reply c))
           !! AuthService.USER_KEY = None
      /\ user (snd (AuthContext.logout logout_reply c)) = JNull
      /\ routes (snd (AuthContext.logout logout_reply c))
         = routes c ++ ["/auth/login"]
      /\ error (snd (AuthContext.logout logout_reply c)) = error c)
  /\ throws (AuthService.login credentials auth_reply c)
  /\ throws (AuthService.register registration auth_reply c)
  /\ throws (AuthService.forgotPassword mail ack_reply c)
  /\ throws (AuthService.resetPassword token password ack_reply c)
  /\ throws (AuthService.refreshToken token_reply c)
  /\ throws (AuthService.getCurrentUser user_reply c)
  /\ throws (AuthService.updateProfile userData user_reply c).
Proof.
  intros Hauth Hack Htoken Huser. split; [|split].
  - destruct (service_logout_spec logout_reply c) as (c1 & -> & _).
    cbn [fst snd]. split; [done|]. split; [apply clearAuth_token|].
    split; [apply clearAuth_refresh|apply clearAuth_user].
  - destruct (context_logout_spec logout_reply c)
      as (c1 & -> & Hroutes & Herror).
    cbn. rewrite Hroutes, Herror. split; [done|].
    split; [apply clearAuth_token|].
    split; [apply clearAuth_refresh|]. split; [apply clearAuth_user|done].
  - repeat split.
    + destruct (service_login_spec credentials auth_reply c) as [r ->].
      destruct auth_reply; [done|eexists; reflexivity..].
    + destruct (service_register_spec registration auth_reply c) as [r ->].
      destruct auth_reply; [done|eexists; reflexivity..].
    + destruct (service_forgotPassword_spec mail ack_reply c) as [r ->].
      destruct ack_reply; [done|eexists; reflexivity..].
    + destruct (service_resetPassword_spec token password ack_reply c)
        as [r ->].
      destruct ack_reply; [done|eexists; reflexivity..].
    + destruct (service_refreshToken_spec token_reply c) as [r ->].
      destruct (AuthService.getRefreshToken c), token_reply;
        first [done|eexists; reflexivity].
    + destruct (service_getCurrentUser_spec user_reply c) as [r ->].
      destruct user_reply; [done|eexists; reflexivity..].
    + destruct (service_updateProfile_spec userData user_reply c) as [r ->].
      destruct user_reply; [done|eexists; reflexivity..].
Qed.

Lemma logout_swallows_failure_witness :
  let c := session_of (sample_user "admin") in
  let down : Reply unit := NoResponse (js "Network Error") in
  (fst (AuthService.logout down c) = Return tt
   /\ cookies (snd (AuthService.logout down c)) !! AuthService.TOKEN_KEY = None
   /\ cookies (snd (AuthService.logout down c))
        !! AuthService.REFRESH_TOKEN_KEY = None
   /\ cookies (snd (AuthService.logout down c)) !! AuthService.USER_KEY = None)
  /\ (fst (AuthContext.logout down c) = Return tt
      /\ cookies (snd (AuthContext.logout down c))
           !! AuthService.TOKEN_KEY = None
      /\ cookies (snd (AuthContext.logout down c))
           !! AuthService.REFRESH_TOKEN_KEY = None
      /\ cookies (snd (AuthContext.logout down c))
           !! AuthService.USER_KEY = None
      /\ user (snd (AuthContext.logout down c)) = JNull
      /\ routes (snd (AuthContext.logout down c))
         = routes c ++ ["/auth/login"]
      /\ error (snd (AuthContext.logout down c)) = error c)
  /\ throws (AuthService.login
               {| LoginRequest.email := js "ada@example.com";
                  LoginRequest.password := js "pw" |}
               (Failed 500 None) c)
  /\ throws (AuthService.register
               {| RegisterRequest.email := js "ada@example.com";
                  RegisterRequest.password := js "pw";
                  RegisterRequest.firstName := js "Ada";
                  RegisterRequest.lastName := js "Lovelace";
                  RegisterRequest.phone := None |}
               (Failed 500 None) c)
  /\ throws (AuthService.forgotPassword (js "ada@example.com")
               (Failed 500 None) c)
  /\ throws (AuthService.resetPassword (js "reset") (js "pw")
               (Failed 500 None) c)
  /\ throws (AuthService.refreshToken (Failed 500 None) c)
  /\ throws (AuthService.getCurrentUser (Failed 500 None) c)
  /\ throws (AuthService.updateProfile (JObj []) (Failed 500 None) c).
Proof.
  apply (logout_swallows_failure (NoResponse (js "Network Error"))
           (Failed 500 None) (Failed 500 None) (Failed 500 None)
           (Failed 500 None)); reflexivity.
Defined.

(** C7, as stated, fails: [42] in the user cookie is not the text of any
    user record, and getUser() returns the number instead of none. *)
Lemma getUser_number_counterexample :
  ~ (forall (c : Client) (text : list N),
       cookies c !! AuthService.USER_KEY = Some text ->
       ~ serialized_user text ->
       AuthService.getUser c = JNull).
Proof.
  intros H.
  specialize (H (with_cookies (insert AuthService.USER_KEY (js "42"))
                   fresh_client) (js "42") eq_refl).
  assert (Hno : ~ serialized_user (js "42")).
  { intros (u & Hu). unfold user_to_json in Hu. discriminate. }
  specialize (H Hno). vm_compute in H. discriminate.
Qed.

(** C7, amended. For every well-formed user record u, setUser(u) followed
    by getUser() returns u.  When the user cookie holds a text that
    JSON.parse rejects, getUser() returns none instead of throwing; a text
    that JSON.parse accepts is returned as parsed, whatever its shape. *)
Theorem setUser_getUser_roundtrip (u : AdminUser) (c : Client)
    (bad good : list N) (v : json) :
  wf_user u ->
  parse bad = None ->
  good <> [] -> parse good = Some v ->
  AuthService.getUser (AuthService.setUser u c) = user_to_json u
  /\ AuthService.getUser (with_cookies (insert AuthService.USER_KEY bad) c)
     = JNull
  /\ AuthService.getUser (with_cookies (insert AuthService.USER_KEY good) c)
     = v.
Proof.
  intros Hu Hbad Hne Hgood. split; [by apply setUser_getUser|].
  unfold AuthService.getUser. simpl. rewrite !lookup_insert_eq.
  split.
  - destruct bad; [done|]. by rewrite Hbad.
  - destruct good; [done|]. by rewrite Hgood.
Qed.

Lemma setUser_getUser_roundtrip_witness :
  AuthService.getUser (AuthService.setUser (sample_user "admin") fresh_client)
  = user_to_json (sample_user "admin")
  /\ AuthService.getUser
       (with_cookies (insert AuthService.USER_KEY (js "{oops")) fresh_client)
     = JNull
  /\ AuthService.getUser
       (with_cookies (insert AuthService.USER_KEY (js "[true]")) fresh_client)
     = JArr [JBool true].
Proof.
  apply (setUser_getUser_roundtrip (sample_user "admin") fresh_client
           (js "{oops") (js "[true]") (JArr [JBool true])).
  - unfold wf_user, wf_address, wf_opt. simpl. repeat split; apply wf_js.
  - reflexivity.
  - discriminate.
  - reflexivity.
Defined.

Lemma clearAuth_idempotent c :
  AuthService.clearAuth (AuthService.clearAuth c) = AuthService.clearAuth c.
Proof.
  unfold AuthService.clearAuth, with_cookies. simpl. f_equal.
  apply map_eq. intros k. rewrite !lookup_delete. by repeat case_decide.
Qed.

Lemma clearAuth_cookies_eq c1 c2 :
  cookies c1 = cookies c2 ->
  cookies (AuthService.clearAuth c1) = cookies (AuthService.clearAuth c2).
Proof. unfold AuthService.clearAuth. simpl. by intros ->. Qed.

Lemma service_logout_cookies reply c :
  fst (AuthService.logout reply c) = Return tt
  /\ cookies (snd (AuthService.logout reply c))
     = cookies (AuthService.clearAuth c).
Proof.
  unfold AuthService.logout, Api.post.
  destruct (send_spec "POST" "/auth/logout" None reply c) as [r Hr].
  unfold try_finally, try_catch. rewrite Hr.
  destruct reply as [[]|status err|msg]; simpl; [done| |done].
  split; [done|]. destruct (decide (status = 401%N)); [|done]. simpl.
  apply map_eq. intros k. rewrite !lookup_delete. by repeat case_decide.
Qed.

(** C8. clearAuth() is a total function of the client; after it none of
    the three cookies is there, whichever were there before (none, as in a
    fresh tab, or all but the token); doing it twice is doing it once; and
    two logouts in a row both return and leave the cookies that one logout
    leaves, namely those of clearAuth(). *)
Theorem clearAuth_idempotent_total c first second :
  (cookies (AuthService.clearAuth c) !! AuthService.TOKEN_KEY = None
   /\ cookies (AuthService.clearAuth c) !! AuthService.REFRESH_TOKEN_KEY = None
   /\ cookies (AuthService.clearAuth c) !! AuthService.USER_KEY = None)
  /\ AuthService.clearAuth (AuthService.clearAuth c) = AuthService.clearAuth c
  /\ AuthService.clearAuth fresh_client = fresh_client
  /\ AuthService.clearAuth (with_cookies (delete AuthService.TOKEN_KEY) c)
     = AuthService.clearAuth c
  /\ fst (AuthService.logout first c) = Return tt
  /\ fst (AuthService.logout second (snd (AuthService.logout first c)))
     = Return tt
  /\ cookies (snd (AuthService.logout first c))
     = cookies (AuthService.clearAuth c)
  /\ cookies (snd (AuthService.logout second
                     (snd (AuthService.logout first c))))
     = cookies (snd (AuthService.logout first c)).
Proof.
  destruct (service_logout_cookies first c) as [R1 C1].
  destruct (service_logout_cookies second (snd (AuthService.logout first c)))
    as [R2 C2].
  split; [|split; [|split; [|split; [|split; [|split; [|split]]]]]]; try done.
  - split; [apply clearAuth_token|].
    split; [apply clearAuth_refresh|apply clearAuth_user].
  - apply clearAuth_idempotent.
  - unfold AuthService.clearAuth, with_cookies. simpl. f_equal.
    by rewrite delete_delete_eq.
  - rewrite C2, C1.
    rewrite (clearAuth_cookies_eq _ (AuthService.clearAuth c)) by done.
    by rewrite clearAuth_idempotent.
Qed.

(** C9. isAdmin() reads the user cookie only: removing the token cookie
    does not change it.  So with a stored user whose role is admin and no
    token cookie, isAdmin() is true while isAuthenticated() is false. *)
Theorem isAdmin_without_token (u : AdminUser) (c : Client) :
  wf_user u -> role u = js "admin" ->
  let c' := with_cookies (delete AuthService.TOKEN_KEY)
              (AuthService.setUser u c) in
  cookies c' !! AuthService.TOKEN_KEY = None
  /\ AuthService.isAdmin c' = true
  /\ AuthService.isAuthenticated c' = false
  /\ AuthService.isAdmin (with_cookies (delete AuthService.TOKEN_KEY) c)
     = AuthService.isAdmin c.
Proof.
  intros Hu Hrole c'.
  assert (Htok : cookies c' !! AuthService.TOKEN_KEY = None)
    by apply lookup_delete_eq.
  assert (Hframe : forall c0,
            AuthService.getUser (with_cookies (delete AuthService.TOKEN_KEY) c0)
            = AuthService.getUser c0).
  { intros c0. unfold AuthService.getUser. simpl.
    by rewrite lookup_delete_ne. }
  split; [done|]. split; [|split].
  - unfold AuthService.isAdmin. subst c'. rewrite Hframe.
    rewrite setUser_getUser by done. rewrite role_is_admin_user.
    by apply bool_decide_eq_true.
  - by apply not_authenticated_without_token.
  - unfold AuthService.isAdmin. by rewrite Hframe.
Qed.

Lemma isAdmin_without_token_witness :
  let c' := with_cookies (delete AuthService.TOKEN_KEY)
              (AuthService.setUser (sample_user "admin") fresh_client) in
  cookies c' !! AuthService.TOKEN_KEY = None
  /\ AuthService.isAdmin c' = true
  /\ AuthService.isAuthenticated c' = false
  /\ AuthService.isAdmin
       (with_cookies (delete AuthService.TOKEN_KEY) fresh_client)
     = AuthService.isAdmin fresh_client.
Proof.
  apply (isAdmin_without_token (sample_user "admin") fresh_client).
  - unfold wf_user, wf_address, wf_opt. simpl. repeat split; apply wf_js.
  - reflexivity.
Defined.

Lemma context_register_fulfilled userData response c :
  storable (data response) = true ->
  exists r,
    AuthContext.register userData (Fulfilled response) c
    = (Return tt,
       with_isLoading false
         (with_route "/dashboard"
            (with_user (user_to_json (data_user (data response)))
               (AuthService.setUser (data_user (data response))
                  (Cookies.put AuthService.REFRESH_TOKEN_KEY
                     (data_refreshToken (data response))
                     (Cookies.put AuthService.TOKEN_KEY
                        (data_token (data response))
                        (with_sent r
                           (with_error None (with_isLoading true c))))))))).
Proof.
  intros Hst.
  destruct (service_register_spec userData (Fulfilled response)
              (with_error None (with_isLoading true c))) as [r Hr].
  rewrite Hst in Hr.
  exists r. unfold AuthContext.register, try_finally, try_catch.
  unfold AuthContext.setIsLoading at 1, AuthContext.setError at 1.
  unfold bind at 1, modify at 1. unfold bind at 1, modify at 1.
  unfold bind at 1. rewrite Hr. reflexivity.
Qed.

(** Registration when js-cookie refuses a token of the response. *)
Lemma context_register_refused userData response c :
  storable (data response) = false ->
  exists r,
    AuthContext.register userData (Fulfilled response) c
    = (Throw (JsError (js "Registration failed")),
       with_isLoading false
         (with_error (Some (js "Registration failed"))
            (refused (data response)
               (with_sent r (with_error None (with_isLoading true c)))))).
Proof.
  intros Hst.
  destruct (service_register_spec userData (Fulfilled response)
              (with_error None (with_isLoading true c))) as [r Hr].
  rewrite Hst in Hr.
  exists r. unfold AuthContext.register, try_finally, try_catch.
  unfold AuthContext.setIsLoading at 1, AuthContext.setError at 1.
  unfold bind at 1, modify at 1. unfold bind at 1, modify at 1.
  unfold bind at 1. rewrite Hr. reflexivity.
Qed.

(** C10, as stated, fails: when the token of the response is a lone
    surrogate, js-cookie refuses it, and register throws Registration
    failed; the context adopts nobody and the router stays where it is. *)
Lemma register_unstorable_counterexample :
  ~ (forall userData response c,
       let result := AuthContext.register userData (Fulfilled response) c in
       fst result = Return tt
       /\ user (snd result) = user_to_json (data_user (data response))
       /\ routes (snd result) = routes c ++ ["/dashboard"]).
Proof.
  intros H.
  specialize (H {| RegisterRequest.email := js "ada@example.com";
                   RegisterRequest.password := js "pw";
                   RegisterRequest.firstName := js "Ada";
                   RegisterRequest.lastName := js "Lovelace";
                   RegisterRequest.phone := None |}
                (unstorable_response "admin") fresh_client).
  destruct H as [H _]. vm_compute in H. discriminate.
Qed.

(** C10, amended. The context's register checks no role.  When js-cookie
    can store the two tokens of the response (neither holds a lone
    surrogate), then whatever role the registered user has, register
    returns normally, the
    context holds that user (its isAuthenticated flag is true), the three
    cookies are written and the router is sent to the dashboard; login with
    the same response throws as soon as the role is not admin. *)
Theorem register_adopts_any_role userData mail password logout_reply response c :
  storable (data response) = true ->
  let result := AuthContext.register userData (Fulfilled response) c in
  fst result = Return tt
  /\ user (snd result) = user_to_json (data_user (data response))
  /\ AuthContext.isAuthenticated (snd result) = true
  /\ AuthContext.isAdmin (snd result)
     = bool_decide (role (data_user (data response)) = js "admin")
  /\ routes (snd result) = routes c ++ ["/dashboard"]
  /\ cookies (snd result) !! AuthService.TOKEN_KEY
     = Some (data_token (data response))
  /\ cookies (snd result) !! AuthService.REFRESH_TOKEN_KEY
     = Some (data_refreshToken (data response))
  /\ cookies (snd result) !! AuthService.USER_KEY
     = Some (stringify (user_to_json (data_user (data response))))
  /\ fst (AuthContext.login mail password (Fulfilled response) logout_reply c)
     = if decide (role (data_user (data response)) <> js "admin")
       then Throw (JsError (js "Access denied. Admin privileges required."))
       else Return tt.
Proof.
  intros Hst result. subst result.
  destruct (context_register_fulfilled userData response c Hst) as [r ->].
  destruct (context_login_fulfilled mail password response logout_reply c Hst)
    as (c1 & -> & _).
  cbn [fst snd]. split; [done|]. split; [done|]. split; [done|].
  split; [done|]. split; [done|].
  split.
  { simpl. rewrite lookup_insert_ne by done. rewrite lookup_insert_ne by done.
    apply lookup_insert_eq. }
  split.
  { simpl. rewrite lookup_insert_ne by done. apply lookup_insert_eq. }
  split.
  { simpl. apply lookup_insert_eq. }
  by case_decide.
Qed.

Lemma register_adopts_any_role_witness :
  let result :=
    AuthContext.register
      {| RegisterRequest.email := js "ada@example.com";
         RegisterRequest.password := js "pw";
         RegisterRequest.firstName := js "Ada";
         RegisterRequest.lastName := js "Lovelace";
         RegisterRequest.phone := None |}
      (Fulfilled (sample_response "customer")) fresh_client in
  fst result = Return tt
  /\ user (snd result) = user_to_json (sample_user "customer")
  /\ AuthContext.isAuthenticated (snd result) = true
  /\ AuthContext.isAdmin (snd result) = false
  /\ routes (snd result) = ["/dashboard"]
  /\ fst (AuthContext.login (js "ada@example.com") (js "pw")
            (Fulfilled (sample_response "customer")) (Fulfilled tt)
            fresh_client)
     = Throw (JsError (js "Access denied. Admin privileges required.")).
Proof.
  destruct (register_adopts_any_role
              {| RegisterRequest.email := js "ada@example.com";
                 RegisterRequest.password := js "pw";
                 RegisterRequest.firstName := js "Ada";
                 RegisterRequest.lastName := js "Lovelace";
                 RegisterRequest.phone := None |}
              (js "ada@example.com") (js "pw") (Fulfilled tt)
              (sample_response "customer") fresh_client eq_refl)
    as (H1 & H2 & H3 & H4 & H5 & _ & _ & _ & H9).
  repeat split; assumption.
Defined.

(** ** The token store *)

(** X1. setToken on a token without a lone surrogate returns, and
    getToken then reads the token back as it was written, or null when it
    is the empty string; on a token with a lone surrogate setToken throws
    the URIError of js-cookie and every cookie is as before.  The same
    holds for setRefreshToken and getRefreshToken.  Either way, writing one
    of the tokens leaves what the getters of the other token and of the
    user return as it was. *)
Theorem token_store_roundtrip (t : list N) (c : Client) :
  let after := snd (AuthService.setToken t c) in
  let after' := snd (AuthService.setRefreshToken t c) in
  (if Cookies.isWellFormed t
   then fst (AuthService.setToken t c) = Return tt
        /\ AuthService.getToken after
           = (match t with [] => None | _ => Some t end)
        /\ fst (AuthService.setRefreshToken t c) = Return tt
        /\ AuthService.getRefreshToken after'
           = (match t with [] => None | _ => Some t end)
   else (exists m, fst (AuthService.setToken t c) = Throw (URIError m))
        /\ after = c
        /\ (exists m,
              fst (AuthService.setRefreshToken t c) = Throw (URIError m))
        /\ after' = c)
  /\ AuthService.getRefreshToken after = AuthService.getRefreshToken c
  /\ AuthService.getUser after = AuthService.getUser c
  /\ AuthService.getToken after' = AuthService.getToken c
  /\ AuthService.getUser after' = AuthService.getUser c.
Proof.
  cbv zeta.
  unfold AuthService.setToken, AuthService.setRefreshToken, Cookies.set.
  destruct (Cookies.isWellFormed t); cbn [fst snd].
  - unfold AuthService.getToken, AuthService.getRefreshToken,
      AuthService.getUser, Cookies.put.
    simpl. rewrite !lookup_insert_eq.
    rewrite !lookup_insert_ne by done. by destruct t.
  - repeat split; eauto.
Qed.

(** X2. isAuthenticated() is true exactly when the token cookie holds a
    non-empty text and the user cookie holds a non-empty text that
    JSON.parse reads as a truthy value. *)
Theorem isAuthenticated_iff (c : Client) :
  AuthService.isAuthenticated c = true
  <-> exists tok text v,
        cookies c !! AuthService.TOKEN_KEY = Some tok /\ tok <> []
        /\ cookies c !! AuthService.USER_KEY = Some text /\ text <> []
        /\ parse text = Some v /\ truthy v = true.
Proof.
  unfold AuthService.isAuthenticated, AuthService.getToken,
    AuthService.getUser.
  split.
  - destruct (cookies c !! AuthService.TOKEN_KEY) as [[|ch t]|] eqn:Et;
      [done| |done].
    destruct (cookies c !! AuthService.USER_KEY) as [[|ch' t']|] eqn:Eu;
      [done| |done].
    destruct (parse (ch' :: t')) as [v|] eqn:Ep; [|done].
    intros Hv. by exists (ch :: t), (ch' :: t'), v.
  - intros (tok & text & v & -> & Htok & -> & Htext & Hp & Hv).
    destruct tok; [done|]. destruct text; [done|]. by rewrite Hp.
Qed.

(** X3. isAdmin() is true exactly when the user cookie holds a non-empty
    text that JSON.parse reads as an object whose own role property is the
    string admin; nothing else of the object is looked at. *)
Theorem isAdmin_iff (c : Client) :
  AuthService.isAdmin c = true
  <-> exists text props,
        cookies c !! AuthService.USER_KEY = Some text /\ text <> []
        /\ parse text = Some (JObj props)
        /\ obj_get (js "role") props = Some (JStr (js "admin")).
Proof.
  unfold AuthService.isAdmin, AuthService.getUser, AuthService.role_is_admin.
  split.
  - destruct (cookies c !! AuthService.USER_KEY) as [[|ch t]|] eqn:Eu;
      [done| |done].
    destruct (parse (ch :: t)) as [[| | | | |props]|] eqn:Ep; try done.
    destruct (obj_get (js "role") props) as [[| | |r| |]|] eqn:Er; try done.
    intros Hr. apply bool_decide_eq_true in Hr as ->.
    by exists (ch :: t), props.
  - intros (text & props & -> & Htext & Hp & Hr).
    destruct text; [done|]. rewrite Hp, Hr. by apply bool_decide_eq_true.
Qed.

(** ** The axios instance *)

Lemma send_sent {T : Type} m u b (reply : Reply T) c :
  sent (snd (Api.send m u b reply c))
  = sent c ++ [ {| method := m; url := u; body := b;
                   authorization :=
                     (fun t => js "Bearer " ++ t) <$> AuthService.getToken c |} ].
Proof.
  unfold Api.send, Api.on_request, AuthService.getToken.
  unfold bind, gets, modify, ret.
  change AuthService.TOKEN_KEY with "admin_token".
  destruct (cookies c !! "admin_token") as [[|ch t]|];
    destruct reply as [p|status err|msg]; try reflexivity;
    unfold Api.on_rejected, bind, modify, throw, ret; simpl;
    by case_decide.
Qed.

(** X4. Every request goes out exactly once, with the method, address and
    body it was given, and with the header Bearer followed by the token
    exactly when getToken() has one; the caller gets the body of a resolved
    response and the axios error of any other. *)
Theorem request_carries_bearer {T : Type} m u b (reply : Reply T) c :
  sent (snd (Api.send m u b reply c))
  = sent c ++ [ {| method := m; url := u; body := b;
                   authorization :=
                     (fun t => js "Bearer " ++ t) <$> AuthService.getToken c |} ]
  /\ fst (Api.send m u b reply c) = outcome reply.
Proof.
  split; [apply send_sent|].
  by destruct (send_spec m u b reply c) as [r ->].
Qed.

(** X5. A rejection whose status is not 401, and a request that got no
    response, go through the response interceptor unchanged: the caller gets
    the axios error, and cookies and location are as before. *)
Theorem rejection_other_than_401 {T : Type} m u b (reply : Reply T) c :
  rejected reply = true ->
  (forall err, reply <> Failed 401 err) ->
  let result := Api.send m u b reply c in
  fst result = outcome reply
  /\ (exists e, outcome reply = Throw e)
  /\ cookies (snd result) = cookies c
  /\ href (snd result) = href c.
Proof.
  intros Hrej Hne result. subst result.
  destruct (send_spec m u b reply c) as [r ->]. cbn [fst snd].
  destruct reply as [p|status err|msg]; [done| |].
  - simpl. destruct (decide (status = 401%N)) as [->|?].
    + by destruct (Hne err).
    + split; [done|]. split; [eauto|done].
  - simpl. split; [done|]. split; [eauto|done].
Qed.

Lemma rejection_other_than_401_witness :
  let reply : Reply unit := Failed 500 (Some (js "boom")) in
  let result :=
    Api.send "POST" "/auth/logout" None reply
      (session_of (sample_user "admin")) in
  fst result = outcome reply
  /\ (exists e, outcome reply = Throw e)
  /\ cookies (snd result) = cookies (session_of (sample_user "admin"))
  /\ href (snd result) = href (session_of (sample_user "admin")).
Proof.
  apply (rejection_other_than_401 "POST" "/auth/logout" None
           (Failed 500 (Some (js "boom")) : Reply unit)
           (session_of (sample_user "admin"))).
  - reflexivity.
  - intros err. discriminate.
Defined.

(** ** The session manager *)

Lemma holds_session_after_store d c :
  wf_user (data_user d) -> data_token d <> [] -> data_refreshToken d <> [] ->
  holds_session d
    (AuthService.setUser (data_user d)
       (Cookies.put AuthService.REFRESH_TOKEN_KEY (data_refreshToken d)
          (Cookies.put AuthService.TOKEN_KEY (data_token d) c))).
Proof.
  intros Hu Htok HRef.
  set (c' := AuthService.setUser _ _).
  assert (Ht : AuthService.getToken c' = Some (data_token d)).
  { unfold AuthService.getToken. subst c'. simpl.
    rewrite lookup_insert_ne by done. rewrite lookup_insert_ne by done.
    rewrite lookup_insert_eq. by destruct (data_token d). }
  assert (Hg : AuthService.getUser c' = user_to_json (data_user d))
    by (by apply setUser_getUser).
  split; [done|]. split.
  { unfold AuthService.getRefreshToken. subst c'. simpl.
    rewrite lookup_insert_ne by done. rewrite lookup_insert_eq.
    by destruct (data_refreshToken d). }
  split; [done|]. split.
  - unfold AuthService.isAuthenticated. by rewrite Ht, Hg.
  - unfold AuthService.isAdmin. by rewrite Hg.
Qed.

(** X6. When the backend accepts a login or a registration with two
    tokens that are not empty and hold no lone surrogate, and with a user
    whose strings are sequences of 16-bit units, the response is returned
    as it came and its three parts are stored: the three getters read them
    back, isAuthenticated() is true and isAdmin() says whether the role is
    admin. *)
Theorem session_stored_on_success credentials userData response c :
  storable (data response) = true ->
  wf_user (data_user (data response)) ->
  data_token (data response) <> [] ->
  data_refreshToken (data response) <> [] ->
  fst (AuthService.login credentials (Fulfilled response) c) = Return response
  /\ holds_session (data response)
       (snd (AuthService.login credentials (Fulfilled response) c))
  /\ fst (AuthService.register userData (Fulfilled response) c)
     = Return response
  /\ holds_session (data response)
       (snd (AuthService.register userData (Fulfilled response) c)).
Proof.
  intros Hst Hu Htok HRef.
  destruct (service_login_spec credentials (Fulfilled response) c) as [r ->].
  destruct (service_register_spec userData (Fulfilled response) c) as [r' ->].
  rewrite Hst. cbn [fst snd].
  split; [done|]. split; [by apply holds_session_after_store|].
  split; [done|]. by apply holds_session_after_store.
Qed.

Lemma session_stored_on_success_witness :
  let credentials := {| LoginRequest.email := js "ada@example.com";
                        LoginRequest.password := js "pw" |} in
  let userData := {| RegisterRequest.email := js "ada@example.com";
                     RegisterRequest.password := js "pw";
                     RegisterRequest.firstName := js "Ada";
                     RegisterRequest.lastName := js "Lovelace";
                     RegisterRequest.phone := None |} in
  let response := sample_response "admin" in
  fst (AuthService.login credentials (Fulfilled response) fresh_client)
  = Return response
  /\ holds_session (data response)
       (snd (AuthService.login credentials (Fulfilled response) fresh_client))
  /\ fst (AuthService.register userData (Fulfilled response) fresh_client)
     = Return response
  /\ holds_session (data response)
       (snd (AuthService.register userData (Fulfilled response) fresh_client)).
Proof.
  apply (session_stored_on_success
           {| LoginRequest.email := js "ada@example.com";
              LoginRequest.password := js "pw" |}
           {| RegisterRequest.email := js "ada@example.com";
              RegisterRequest.password := js "pw";
              RegisterRequest.firstName := js "Ada";
              RegisterRequest.lastName := js "Lovelace";
              RegisterRequest.phone := None |}
           (sample_response "admin") fresh_client).
  - reflexivity.
  - unfold wf_user, wf_address, wf_opt. simpl. repeat split; apply wf_js.
  - discriminate.
  - discriminate.
Defined.

(** X7. What an operation of the session manager throws for a rejected
    request is an Error whose message is the error field of the response
    when the response has a non-empty one, and the fixed message of the
    operation otherwise (no response, no field, empty field); the axios
    error itself never reaches the caller. *)
Theorem failure_message_surfaced
    (auth_reply : Reply AuthResponse) (ack_reply : Reply Ack)
    (user_reply : Reply AdminUser)
    credentials registration mail token password userData c :
  rejected auth_reply = true -> rejected ack_reply = true ->
  rejected user_reply = true ->
  fst (AuthService.login credentials auth_reply c)
  = Throw (JsError (surfaced auth_reply (js "Login failed")))
  /\ fst (AuthService.register registration auth_reply c)
     = Throw (JsError (surfaced auth_reply (js "Registration failed")))
  /\ fst (AuthService.forgotPassword mail ack_reply c)
     = Throw (JsError (surfaced ack_reply (js "Failed to send reset email")))
  /\ fst (AuthService.resetPassword token password ack_reply c)
     = Throw (JsError (surfaced ack_reply (js "Failed to reset password")))
  /\ fst (AuthService.getCurrentUser user_reply c)
     = Throw (JsError (surfaced user_reply (js "Failed to get user profile")))
  /\ fst (AuthService.updateProfile userData user_reply c)
     = Throw (JsError (surfaced user_reply (js "Failed to update profile"))).
Proof.
  intros Hauth Hack Huser.
  destruct (service_login_spec credentials auth_reply c) as [r1 ->].
  destruct (service_register_spec registration auth_reply c) as [r2 ->].
  destruct (service_forgotPassword_spec mail ack_reply c) as [r3 ->].
  destruct (service_resetPassword_spec token password ack_reply c) as [r4 ->].
  destruct (service_getCurrentUser_spec user_reply c) as [r5 ->].
  destruct (service_updateProfile_spec userData user_reply c) as [r6 ->].
  destruct auth_reply; [done|..]; destruct ack_reply; try done;
    destruct user_reply; done.
Qed.

Lemma failure_message_surfaced_witness :
  let c := fresh_client in
  let auth_reply : Reply AuthResponse :=
    Failed 400 (Some (js "Invalid credentials")) in
  let ack_reply : Reply Ack := Failed 500 (Some []) in
  let user_reply : Reply AdminUser := NoResponse (js "Network Error") in
  let credentials := {| LoginRequest.email := js "a@b.com";
                        LoginRequest.password := js "x" |} in
  let registration := {| RegisterRequest.email := js "a@b.com";
                         RegisterRequest.password := js "x";
                         RegisterRequest.firstName := js "A";
                         RegisterRequest.lastName := js "B";
                         RegisterRequest.phone := None |} in
  fst (AuthService.login credentials auth_reply c)
  = Throw (JsError (js "Invalid credentials"))
  /\ fst (AuthService.register registration auth_reply c)
     = Throw (JsError (js "Invalid credentials"))
  /\ fst (AuthService.forgotPassword (js "a@b.com") ack_reply c)
     = Throw (JsError (js "Failed to send reset email"))
  /\ fst (AuthService.resetPassword (js "reset") (js "x") ack_reply c)
     = Throw (JsError (js "Failed to reset password"))
  /\ fst (AuthService.getCurrentUser user_reply c)
     = Throw (JsError (js "Failed to get user profile"))
  /\ fst (AuthService.updateProfile (JObj []) user_reply c)
     = Throw (JsError (js "Failed to update profile")).
Proof.
  apply (failure_message_surfaced
           (Failed 400 (Some (js "Invalid credentials")))
           (Failed 500 (Some [])) (NoResponse (js "Network Error"))
           {| LoginRequest.email := js "a@b.com";
              LoginRequest.password := js "x" |}
           {| RegisterRequest.email := js "a@b.com";
              RegisterRequest.password := js "x";
              RegisterRequest.firstName := js "A";
              RegisterRequest.lastName := js "B";
              RegisterRequest.phone := None |}
           (js "a@b.com") (js "reset") (js "x") (JObj []) fresh_client);
    reflexivity.
Defined.

(** X8. login, register, forgotPassword and resetPassword write no cookie
    unless the backend accepted a login or a registration: after a rejected
    request the cookies are those from before, less the token and the user
    when the status was 401; and the two password operations leave the
    cookies alone on success too, returning the acknowledgment as it came. *)
Theorem no_partial_session
    (auth_reply : Reply AuthResponse) (ack_reply : Reply Ack)
    credentials registration mail token password c :
  rejected auth_reply = true ->
  cookies (snd (AuthService.login credentials auth_reply c))
  = cookies (settle auth_reply c)
  /\ cookies (snd (AuthService.register registration auth_reply c))
     = cookies (settle auth_reply c)
  /\ cookies (snd (AuthService.forgotPassword mail ack_reply c))
     = cookies (settle ack_reply c)
  /\ cookies (snd (AuthService.resetPassword token password ack_reply c))
     = cookies (settle ack_reply c)
  /\ (forall ack, ack_reply = Fulfilled ack ->
        fst (AuthService.forgotPassword mail ack_reply c) = Return ack
        /\ fst (AuthService.resetPassword token password ack_reply c)
           = Return ack).
Proof.
  intros Hauth.
  assert (Hsettle : forall T (reply : Reply T) r,
            cookies (settle reply (with_sent r c)) = cookies (settle reply c)).
  { intros T [p|status err|msg] r; simpl; try done. by case_decide. }
  destruct (service_login_spec credentials auth_reply c) as [r1 ->].
  destruct (service_register_spec registration auth_reply c) as [r2 ->].
  destruct (service_forgotPassword_spec mail ack_reply c) as [r3 ->].
  destruct (service_resetPassword_spec token password ack_reply c) as [r4 ->].
  repeat split.
  - destruct auth_reply; [done|apply Hsettle..].
  - destruct auth_reply; [done|apply Hsettle..].
  - destruct ack_reply; [done|apply Hsettle..].
  - destruct ack_reply; [done|apply Hsettle..].
  - by subst ack_reply.
  - by subst ack_reply.
Qed.

Lemma no_partial_session_witness :
  let c := session_of (sample_user "admin") in
  let auth_reply : Reply AuthResponse := Failed 401 None in
  let ack_reply : Reply Ack :=
    Fulfilled {| ack_success := true; ack_message := js "sent" |} in
  let credentials := {| LoginRequest.email := js "a@b.com";
                        LoginRequest.password := js "x" |} in
  let registration := {| RegisterRequest.email := js "a@b.com";
                         RegisterRequest.password := js "x";
                         RegisterRequest.firstName := js "A";
                         RegisterRequest.lastName := js "B";
                         RegisterRequest.phone := None |} in
  cookies (snd (AuthService.login credentials auth_reply c))
  = cookies (settle auth_reply c)
  /\ cookies (snd (AuthService.register registration auth_reply c))
     = cookies (settle auth_reply c)
  /\ cookies (snd (AuthService.forgotPassword (js "a@b.com") ack_reply c))
     = cookies (settle ack_reply c)
  /\ cookies (snd (AuthService.resetPassword (js "reset") (js "x") ack_reply c))
     = cookies (settle ack_reply c)
  /\ (forall ack, ack_reply = Fulfilled ack ->
        fst (AuthService.forgotPassword (js "a@b.com") ack_reply c)
        = Return ack
        /\ fst (AuthService.resetPassword (js "reset") (js "x") ack_reply c)
           = Return ack).
Proof.
  apply (no_partial_session (Failed 401 None)
           (Fulfilled {| ack_success := true; ack_message := js "sent" |})
           {| LoginRequest.email := js "a@b.com";
              LoginRequest.password := js "x" |}
           {| RegisterRequest.email := js "a@b.com";
              RegisterRequest.password := js "x";
              RegisterRequest.firstName := js "A";
              RegisterRequest.lastName := js "B";
              RegisterRequest.phone := None |}
           (js "a@b.com") (js "reset") (js "x")
           (session_of (sample_user "admin"))).
  reflexivity.
Defined.

(** X9. refreshToken() with a stored refresh token and a backend that
    accepts it sends that refresh token in one request.  When the token
    that comes back holds no lone surrogate it is stored over the old one
    and returned, and the refresh-token cookie and the user cookie stay as
    they were; when it holds one, js-cookie refuses it, the three cookies
    of the session are removed and Token refresh failed is thrown. *)
Theorem refreshToken_accepted stored token c :
  AuthService.getRefreshToken c = Some stored ->
  let result := AuthService.refreshToken (Fulfilled token) c in
  (exists r, sent (snd result) = sent c ++ [r]
     /\ url r = "/auth/refresh"
     /\ body r = Some (JObj [(js "refreshToken", JStr stored)]))
  /\ if Cookies.isWellFormed token
     then fst result = Return token
          /\ cookies (snd result)
             = <[AuthService.TOKEN_KEY := token]> (cookies c)
          /\ AuthService.getRefreshToken (snd result) = Some stored
          /\ AuthService.getUser (snd result) = AuthService.getUser c
     else fst result = Throw (JsError (js "Token refresh failed"))
          /\ cookies (snd result) = cookies (AuthService.clearAuth c).
Proof.
  intros Hstored result. subst result.
  pose proof (send_sent "POST" "/auth/refresh"
                (Some (JObj (prop "refreshToken" (JStr stored))))
                (Fulfilled token) c) as Hsent.
  destruct (send_spec "POST" "/auth/refresh"
              (Some (JObj (prop "refreshToken" (JStr stored))))
              (Fulfilled token) c) as [r Hr].
  rewrite Hr in Hsent. cbn [snd settle] in Hsent.
  assert (Heq : AuthService.refreshToken (Fulfilled token) c
                = if Cookies.isWellFormed token
                  then (Return token,
                        Cookies.put AuthService.TOKEN_KEY token (with_sent r c))
                  else (Throw (JsError (js "Token refresh failed")),
                        AuthService.clearAuth (with_sent r c))).
  { unfold AuthService.refreshToken, Api.post.
    unfold try_catch, bind at 1, gets. rewrite Hstored.
    unfold bind at 1. rewrite Hr. cbn [outcome settle].
    unfold AuthService.setToken, Cookies.set, bind, modify, ret, throw.
    by destruct (Cookies.isWellFormed token). }
  rewrite Heq.
  destruct (Cookies.isWellFormed token); cbn [fst snd].
  - split; [eexists; split; [exact Hsent|done]|].
    split; [done|]. split; [done|]. split.
    { unfold AuthService.getRefreshToken in *. simpl.
      by rewrite lookup_insert_ne. }
    unfold AuthService.getUser. simpl. by rewrite lookup_insert_ne.
  - split; [eexists; split; [exact Hsent|done]|]. done.
Qed.

Lemma refreshToken_accepted_witness :
  let c := session_of (sample_user "admin") in
  let result := AuthService.refreshToken (Fulfilled (js "tok2")) c in
  (exists r, sent (snd result) = sent c ++ [r]
     /\ url r = "/auth/refresh"
     /\ body r = Some (JObj [(js "refreshToken", JStr (js "ref"))]))
  /\ fst result = Return (js "tok2")
  /\ cookies (snd result)
     = <[AuthService.TOKEN_KEY := js "tok2"]> (cookies c)
  /\ AuthService.getRefreshToken (snd result) = Some (js "ref")
  /\ AuthService.getUser (snd result) = AuthService.getUser c.
Proof.
  apply (refreshToken_accepted (js "ref") (js "tok2")
           (session_of (sample_user "admin"))).
  reflexivity.
Defined.

(** ** The provider *)

(** X10. At startup, when isAuthenticated() is false, the provider asks
    the backend nothing and changes nothing but the loading flag: cookies
    that do not make a session (a token without a readable user, say) stay
    where they are. *)
Theorem initAuth_anonymous reply c :
  AuthService.isAuthenticated c = false ->
  AuthContext.initAuth reply c = (Return tt, with_isLoading false c).
Proof.
  intros Hauth. unfold AuthContext.initAuth, try_finally.
  unfold try_catch at 1, AuthContext.setIsLoading at 1.
  unfold bind at 1, modify at 1. unfold bind at 1, gets at 1.
  change (AuthService.isAuthenticated (with_isLoading true c))
    with (AuthService.isAuthenticated c).
  rewrite Hauth. reflexivity.
Qed.

Lemma initAuth_anonymous_witness :
  let c := Cookies.put AuthService.TOKEN_KEY (js "tok") fresh_client in
  AuthContext.initAuth (NoResponse (js "Network Error")) c
  = (Return tt, with_isLoading false c).
Proof.
  apply (initAuth_anonymous (NoResponse (js "Network Error"))
           (Cookies.put AuthService.TOKEN_KEY (js "tok") fresh_client)).
  reflexivity.
Defined.

Lemma context_login_rejected mail password login_reply logout_reply c :
  rejected login_reply = true ->
  exists r,
    AuthContext.login mail password login_reply logout_reply c
    = (Throw (JsError (surfaced login_reply (js "Login failed"))),
       with_isLoading false
         (with_error (Some (surfaced login_reply (js "Login failed")))
            (settle login_reply
               (with_sent r (with_error None (with_isLoading true c)))))).
Proof.
  intros Hrej.
  destruct (service_login_spec
              {| LoginRequest.email := mail; LoginRequest.password := password |}
              login_reply (with_error None (with_isLoading true c))) as [r Hr].
  exists r. unfold AuthContext.login, try_finally, try_catch.
  unfold AuthContext.setIsLoading at 1, AuthContext.setError at 1.
  unfold bind at 1, modify at 1. unfold bind at 1, modify at 1.
  unfold bind at 1. rewrite Hr. by destruct login_reply.
Qed.

Lemma context_register_rejected userData reply c :
  rejected reply = true ->
  exists r,
    AuthContext.register userData reply c
    = (Throw (JsError (surfaced reply (js "Registration failed"))),
       with_isLoading false
         (with_error (Some (surfaced reply (js "Registration failed")))
            (settle reply
               (with_sent r (with_error None (with_isLoading true c)))))).
Proof.
  intros Hrej.
  destruct (service_register_spec userData reply
              (with_error None (with_isLoading true c))) as [r Hr].
  exists r. unfold AuthContext.register, try_finally, try_catch.
  unfold AuthContext.setIsLoading at 1, AuthContext.setError at 1.
  unfold bind at 1, modify at 1. unfold bind at 1, modify at 1.
  unfold bind at 1. rewrite Hr. by destruct reply.
Qed.

Lemma settle_context {T} (reply : Reply T) c :
  user (settle reply c) = user c /\ routes (settle reply c) = routes c
  /\ isLoading (settle reply c) = isLoading c
  /\ error (settle reply c) = error c.
Proof.
  destruct reply as [p|status err|msg]; simpl; try done. by case_decide.
Qed.

Lemma context_login_admin mail password response logout_reply c :
  storable (data response) = true ->
  role (data_user (data response)) = js "admin" ->
  exists r,
    AuthContext.login mail password (Fulfilled response) logout_reply c
    = (Return tt,
       with_isLoading false
         (with_route "/dashboard"
            (with_user (user_to_json (data_user (data response)))
               (AuthService.setUser (data_user (data response))
                  (Cookies.put AuthService.REFRESH_TOKEN_KEY
                     (data_refreshToken (data response))
                     (Cookies.put AuthService.TOKEN_KEY
                        (data_token (data response))
                        (with_sent r
                           (with_error None (with_isLoading true c))))))))).
Proof.
  intros Hst Hrole.
  destruct (service_login_spec
              {| LoginRequest.email := mail; LoginRequest.password := password |}
              (Fulfilled response)
              (with_error None (with_isLoading true c))) as [r Hr].
  rewrite Hst in Hr.
  exists r. unfold AuthContext.login, try_finally, try_catch.
  unfold AuthContext.setIsLoading at 1, AuthContext.setError at 1.
  unfold bind at 1, modify at 1. unfold bind at 1, modify at 1.
  unfold bind at 1. rewrite Hr.
  rewrite decide_False by (by intros H; apply H). reflexivity.
Qed.

(** X11. A login that the backend accepts for an admin, with two tokens
    that js-cookie can store (neither holds a lone surrogate), returns
    normally: the context holds the returned user, both of its flags are
    true, the error slot is empty, loading is over, the router went to the
    dashboard once, and the three cookies hold the token, the refresh token
    and the text of the user.  When moreover neither token is the empty
    string and the strings of the user are sequences of 16-bit units, the
    getters of the session manager read the session back and its
    isAuthenticated() is true; with an empty token it is false. *)
Theorem login_admin_success mail password response logout_reply c :
  role (data_user (data response)) = js "admin" ->
  storable (data response) = true ->
  let result :=
    AuthContext.login mail password (Fulfilled response) logout_reply c in
  fst result = Return tt
  /\ user (snd result) = user_to_json (data_user (data response))
  /\ AuthContext.isAuthenticated (snd result) = true
  /\ AuthContext.isAdmin (snd result) = true
  /\ error (snd result) = None
  /\ isLoading (snd result) = false
  /\ routes (snd result) = routes c ++ ["/dashboard"]
  /\ cookies (snd result)
     = <[AuthService.USER_KEY :=
           stringify (user_to_json (data_user (data response)))]>
         (<[AuthService.REFRESH_TOKEN_KEY := data_refreshToken (data response)]>
            (<[AuthService.TOKEN_KEY := data_token (data response)]>
               (cookies c)))
  /\ (wf_user (data_user (data response)) ->
      data_token (data response) <> [] ->
      data_refreshToken (data response) <> [] ->
      holds_session (data response) (snd result))
  /\ (data_token (data response) = [] ->
      AuthService.isAuthenticated (snd result) = false).
Proof.
  intros Hrole Hst result. subst result.
  destruct (context_login_admin mail password response logout_reply c Hst Hrole)
    as [r ->].
  cbn [fst snd].
  split; [done|]. split; [done|]. split; [done|]. split.
  { unfold AuthContext.isAdmin. cbn [user with_isLoading with_route with_user].
    rewrite role_is_admin_user. by apply bool_decide_eq_true. }
  split; [done|]. split; [done|]. split; [done|]. split; [done|].
  split.
  - intros Hu Htok HRef.
    apply (holds_session_after_store (data response)
             (with_sent r (with_error None (with_isLoading true c)))); done.
  - intros Hempty. apply not_authenticated_after_empty_token.
    simpl. rewrite lookup_insert_ne by done. rewrite lookup_insert_ne by done.
    rewrite lookup_insert_eq. by rewrite Hempty.
Qed.

Lemma login_admin_success_witness :
  let response := sample_response "admin" in
  let result :=
    AuthContext.login (js "ada@example.com") (js "pw") (Fulfilled response)
      (Fulfilled tt) fresh_client in
  fst result = Return tt
  /\ user (snd result) = user_to_json (data_user (data response))
  /\ AuthContext.isAuthenticated (snd result) = true
  /\ AuthContext.isAdmin (snd result) = true
  /\ error (snd result) = None
  /\ isLoading (snd result) = false
  /\ routes (snd result) = ["/dashboard"]
  /\ AuthService.isAuthenticated (snd result) = true.
Proof.
  destruct (login_admin_success (js "ada@example.com") (js "pw")
              (sample_response "admin") (Fulfilled tt) fresh_client
              eq_refl eq_refl)
    as (H1 & H2 & H3 & H4 & H5 & H6 & H7 & _ & H9 & _).
  destruct H9 as (_ & _ & _ & H9 & _).
  - unfold wf_user, wf_address, wf_opt. simpl. repeat split; apply wf_js.
  - discriminate.
  - discriminate.
  - repeat split; assumption.
Defined.

(** X12. A login or a registration that the backend rejects throws the
    surfaced message and records the same message in the error slot; the
    context's user and the router are left alone and loading is over. *)
Theorem context_failure_recorded mail password userData
    (reply : Reply AuthResponse) logout_reply c :
  rejected reply = true ->
  (let result := AuthContext.login mail password reply logout_reply c in
   fst result = Throw (JsError (surfaced reply (js "Login failed")))
   /\ error (snd result) = Some (surfaced reply (js "Login failed"))
   /\ user (snd result) = user c
   /\ routes (snd result) = routes c
   /\ isLoading (snd result) = false)
  /\ (let result := AuthContext.register userData reply c in
      fst result = Throw (JsError (surfaced reply (js "Registration failed")))
      /\ error (snd result) = Some (surfaced reply (js "Registration failed"))
      /\ user (snd result) = user c
      /\ routes (snd result) = routes c
      /\ isLoading (snd result) = false).
Proof.
  intros Hrej. split.
  - destruct (context_login_rejected mail password reply logout_reply c Hrej)
      as [r ->].
    cbn [fst snd with_isLoading with_error user routes isLoading error].
    destruct (settle_context reply
                (with_sent r (with_error None (with_isLoading true c))))
      as (-> & -> & _). done.
  - destruct (context_register_rejected userData reply c Hrej) as [r ->].
    cbn [fst snd with_isLoading with_error user routes isLoading error].
    destruct (settle_context reply
                (with_sent r (with_error None (with_isLoading true c))))
      as (-> & -> & _). done.
Qed.

Lemma context_failure_recorded_witness :
  let reply : Reply AuthResponse :=
    Failed 400 (Some (js "Invalid credentials")) in
  let userData := {| RegisterRequest.email := js "a@b.com";
                     RegisterRequest.password := js "x";
                     RegisterRequest.firstName := js "A";
                     RegisterRequest.lastName := js "B";
                     RegisterRequest.phone := None |} in
  let c := fresh_client in
  (let result :=
     AuthContext.login (js "a@b.com") (js "x") reply (Fulfilled tt) c in
   fst result = Throw (JsError (js "Invalid credentials"))
   /\ error (snd result) = Some (js "Invalid credentials")
   /\ user (snd result) = user c
   /\ routes (snd result) = routes c
   /\ isLoading (snd result) = false)
  /\ (let result := AuthContext.register userData reply c in
      fst result = Throw (JsError (js "Invalid credentials"))
      /\ error (snd result) = Some (js "Invalid credentials")
      /\ user (snd result) = user c
      /\ routes (snd result) = routes c
      /\ isLoading (snd result) = false).
Proof.
  apply (context_failure_recorded (js "a@b.com") (js "x")
           {| RegisterRequest.email := js "a@b.com";
              RegisterRequest.password := js "x";
              RegisterRequest.firstName := js "A";
              RegisterRequest.lastName := js "B";
              RegisterRequest.phone := None |}
           (Failed 400 (Some (js "Invalid credentials"))) (Fulfilled tt)
           fresh_client).
  reflexivity.
Defined.

Lemma context_updateProfile_spec userData reply c :
  exists r,
    AuthContext.updateProfile userData reply c
    = match reply with
      | Fulfilled u =>
          (Return tt,
           with_user (user_to_json u)
             (AuthService.setUser u (with_sent r (with_error None c))))
      | _ =>
          (Throw (JsError (surfaced reply (js "Failed to update profile"))),
           with_error (Some (surfaced reply (js "Failed to update profile")))
             (settle reply (with_sent r (with_error None c))))
      end.
Proof.
  destruct (service_updateProfile_spec userData reply (with_error None c))
    as [r Hr].
  exists r. unfold AuthContext.updateProfile, try_catch.
  unfold AuthContext.setError at 1. unfold bind at 1, modify at 1.
  unfold bind at 1. rewrite Hr. by destruct reply.
Qed.

(** X13. The context's updateProfile: on success the user that the
    backend returned replaces the context's user and the stored user, and
    the error slot is emptied; on failure the surfaced message is thrown
    and recorded, and the context keeps the user it had, also when a 401
    has just removed the session from the cookies.  Neither way touches the
    loading flag or the router. *)
Theorem context_updateProfile_outcome userData reply c :
  let result := AuthContext.updateProfile userData reply c in
  isLoading (snd result) = isLoading c
  /\ routes (snd result) = routes c
  /\ match reply with
     | Fulfilled u =>
         fst result = Return tt
         /\ user (snd result) = user_to_json u
         /\ error (snd result) = None
         /\ cookies (snd result)
            = <[AuthService.USER_KEY := stringify (user_to_json u)]>
                (cookies c)
     | _ =>
         fst result
         = Throw (JsError (surfaced reply (js "Failed to update profile")))
         /\ user (snd result) = user c
         /\ error (snd result)
            = Some (surfaced reply (js "Failed to update profile"))
         /\ cookies (snd result) = cookies (settle reply c)
     end.
Proof.
  intros result. subst result.
  destruct (context_updateProfile_spec userData reply c) as [r ->].
  destruct reply as [u|status err|msg]; cbn [fst snd]; try done.
  simpl. by case_decide.
Qed.

Lemma context_initAuth_total reply c :
  exists c', AuthContext.initAuth reply c = (Return tt, with_isLoading false c').
Proof.
  destruct (AuthService.isAuthenticated c) eqn:Hauth.
  - destruct (context_initAuth_authenticated reply c Hauth) as [r Hr].
    cbv zeta in Hr. rewrite Hr. eauto.
  - exists c. unfold AuthContext.initAuth, try_finally.
    unfold try_catch at 1, AuthContext.setIsLoading at 1.
    unfold bind at 1, modify at 1. unfold bind at 1, gets at 1.
    change (AuthService.isAuthenticated (with_isLoading true c))
      with (AuthService.isAuthenticated c).
    rewrite Hauth. reflexivity.
Qed.

(** X14. The provider never leaves the loading flag up: whatever the
    cookies hold and whatever the backend answers, startup, login,
    registration and logout end with isLoading false; and startup, like
    logout, never throws. *)
Theorem loading_always_ends mail password userData
    (user_reply : Reply AdminUser) (auth_reply : Reply AuthResponse)
    (logout_reply : Reply unit) c :
  fst (AuthContext.initAuth user_reply c) = Return tt
  /\ isLoading (snd (AuthContext.initAuth user_reply c)) = false
  /\ isLoading (snd (AuthContext.login mail password auth_reply
                       logout_reply c)) = false
  /\ isLoading (snd (AuthContext.register userData auth_reply c)) = false
  /\ isLoading (snd (AuthContext.logout logout_reply c)) = false.
Proof.
  destruct (context_initAuth_total user_reply c) as [c0 ->].
  destruct (context_logout_spec logout_reply c) as (c1 & -> & _).
  cbn [fst snd]. split; [done|]. split; [done|]. split; [|split; [|done]].
  - destruct auth_reply as [response|status err|msg].
    + destruct (storable (data response)) eqn:Hst.
      * destruct (context_login_fulfilled mail password response
                    logout_reply c Hst) as (c2 & -> & _).
        by case_decide.
      * by destruct (context_login_refused mail password response
                       logout_reply c Hst) as [r ->].
    + by destruct (context_login_rejected mail password (Failed status err)
                     logout_reply c eq_refl) as [r ->].
    + by destruct (context_login_rejected mail password (NoResponse msg)
                     logout_reply c eq_refl) as [r ->].
  - destruct auth_reply as [response|status err|msg].
    + destruct (storable (data response)) eqn:Hst.
      * by destruct (context_register_fulfilled userData response c Hst)
          as [r ->].
      * by destruct (context_register_refused userData response c Hst)
          as [r ->].
    + by destruct (context_register_rejected userData (Failed status err)
                     c eq_refl) as [r ->].
    + by destruct (context_register_rejected userData (NoResponse msg)
                     c eq_refl) as [r ->].
Qed.

(** X15. A login that the backend accepts with two tokens that js-cookie
    can store (neither holds a lone surrogate) and that is denied for want
    of the admin role clears the cookies but does not touch the context's
    user or the router: a context that held a user before still holds it,
    and its flags still say so, while isAuthenticated() of the session
    manager is false. *)
Theorem denied_login_keeps_context_user mail password response logout_reply c :
  storable (data response) = true ->
  role (data_user (data response)) <> js "admin" ->
  let result :=
    AuthContext.login mail password (Fulfilled response) logout_reply c in
  user (snd result) = user c
  /\ AuthContext.isAuthenticated (snd result) = AuthContext.isAuthenticated c
  /\ AuthContext.isAdmin (snd result) = AuthContext.isAdmin c
  /\ routes (snd result) = routes c
  /\ AuthService.isAuthenticated (snd result) = false.
Proof.
  intros Hst Hrole result. subst result.
  destruct (context_login_fulfilled mail password response logout_reply c Hst)
    as (c1 & -> & Hroutes & Huser).
  rewrite decide_True by done. cbn [snd].
  unfold AuthContext.isAuthenticated, AuthContext.isAdmin.
  cbn [user routes with_isLoading with_error].
  change (user (AuthService.clearAuth c1)) with (user c1).
  change (routes (AuthService.clearAuth c1)) with (routes c1).
  rewrite Huser, Hroutes. repeat split.
  apply not_authenticated_without_token, clearAuth_token.
Qed.

Lemma denied_login_keeps_context_user_witness :
  let c := snd (AuthContext.login (js "ada@example.com") (js "pw")
                  (Fulfilled (sample_response "admin")) (Fulfilled tt)
                  fresh_client) in
  let result :=
    AuthContext.login (js "bob@example.com") (js "pw")
      (Fulfilled (sample_response "customer")) (Fulfilled tt) c in
  user (snd result) = user c
  /\ AuthContext.isAuthenticated (snd result) = AuthContext.isAuthenticated c
  /\ AuthContext.isAdmin (snd result) = AuthContext.isAdmin c
  /\ routes (snd result) = routes c
  /\ AuthService.isAuthenticated (snd result) = false.
Proof.
  apply (denied_login_keeps_context_user (js "bob@example.com") (js "pw")
           (sample_response "customer") (Fulfilled tt)
           (snd (AuthContext.login (js "ada@example.com") (js "pw")
                   (Fulfilled (sample_response "admin")) (Fulfilled tt)
                   fresh_client))).
  - reflexivity.
  - vm_compute. discriminate.
Defined.

(** ** The pages *)

(** X16. Once the context has settled, the guard of the dashboard and of
    the profile page sends to the login page exactly when the page draws
    nothing, and the home page sends to the dashboard exactly when those
    pages draw; while the context is loading neither navigates.  Neither
    touches anything but the router. *)
Theorem guards_agree_with_rendering c :
  snd (Pages.guard c)
  = (if negb (isLoading c) && negb (Pages.renders c)
     then with_route "/auth/login" c else c)
  /\ snd (HomePage.effect c)
     = (if isLoading c then c
        else if Pages.renders c then with_route "/dashboard" c
        else with_route "/auth/login" c)
  /\ fst (Pages.guard c) = Return tt
  /\ fst (HomePage.effect c) = Return tt.
Proof.
  unfold Pages.guard, HomePage.effect, Pages.renders.
  unfold bind, gets, ret, AuthContext.router_push, modify.
  by destruct (isLoading c), (AuthContext.isAuthenticated c),
    (AuthContext.isAdmin c).
Qed.

Lemma guard_spec c :
  Pages.guard c
  = (Return tt,
     if negb (isLoading c) && negb (Pages.renders c)
     then with_route "/auth/login" c else c).
Proof.
  unfold Pages.guard, Pages.renders, bind, gets, ret,
    AuthContext.router_push, modify.
  by destruct (isLoading c), (AuthContext.isAuthenticated c),
    (AuthContext.isAdmin c).
Qed.

(** X17. A click on Logout on the dashboard never throws, whatever the
    backend answers: the cookies are gone, the context holds no user and
    the page draws nothing.  The router is sent to the login page twice,
    once by the provider's logout and once by the guard of the page on the
    render that follows; the home page would send there as well. *)
Theorem dashboard_logout reply c :
  let result := DashboardPage.logout_click reply c in
  fst result = Return tt
  /\ cookies (snd result) !! AuthService.TOKEN_KEY = None
  /\ cookies (snd result) !! AuthService.REFRESH_TOKEN_KEY = None
  /\ cookies (snd result) !! AuthService.USER_KEY = None
  /\ user (snd result) = JNull
  /\ isLoading (snd result) = false
  /\ routes (snd (DashboardPage.handleLogout reply c))
     = routes c ++ ["/auth/login"]
  /\ routes (snd result) = routes c ++ ["/auth/login"; "/auth/login"]
  /\ Pages.renders (snd result) = false
  /\ routes (snd (HomePage.effect (snd result)))
     = routes c ++ ["/auth/login"; "/auth/login"; "/auth/login"].
Proof.
  intros result. subst result.
  destruct (context_logout_spec reply c) as (c1 & Heq & Hroutes & _).
  assert (Hh : DashboardPage.handleLogout reply c
               = (Return tt,
                  with_isLoading false
                    (with_route "/auth/login"
                       (with_user JNull (AuthService.clearAuth c1))))).
  { unfold DashboardPage.handleLogout, try_catch. by rewrite Heq. }
  assert (Hc : DashboardPage.logout_click reply c
               = (Return tt,
                  with_route "/auth/login"
                    (with_isLoading false
                       (with_route "/auth/login"
                          (with_user JNull (AuthService.clearAuth c1)))))).
  { unfold DashboardPage.logout_click. unfold bind at 1. rewrite Hh.
    by rewrite guard_spec. }
  rewrite Hc, Hh. cbn [fst snd].
  split; [done|]. split; [apply clearAuth_token|].
  split; [apply clearAuth_refresh|]. split; [apply clearAuth_user|].
  split; [done|]. split; [done|].
  split; [simpl; by rewrite Hroutes|].
  split; [simpl; rewrite Hroutes; by rewrite <- app_assoc|].
  split; [done|].
  unfold HomePage.effect, bind, gets, ret, AuthContext.router_push, modify.
  simpl. rewrite Hroutes. by rewrite <- !app_assoc.
Qed.

(** ** Patterns *)

Section RegexFacts.

Import Regex.

Lemma lang_void_inv s : lang Void s <-> False.
Proof. split; [inversion 1|done]. Qed.

Lemma lang_eps_inv s : lang Eps s <-> s = [].
Proof. split; [by inversion 1|intros ->; constructor]. Qed.

Lemma lang_cls_inv p s : lang (Cls p) s <-> exists c, s = [c] /\ p c = true.
Proof.
  split; [inversion 1; subst; eauto|]. intros (c & -> & H). by constructor.
Qed.

Lemma lang_cat_inv r1 r2 s :
  lang (Cat r1 r2) s <-> exists s1 s2, s = s1 ++ s2 /\ lang r1 s1 /\ lang r2 s2.
Proof.
  split.
  - inversion 1; subst. eauto.
  - intros (s1 & s2 & -> & H1 & H2). by constructor.
Qed.

Lemma lang_alt_inv r1 r2 s : lang (Alt r1 r2) s <-> lang r1 s \/ lang r2 s.
Proof.
  split; [inversion 1; subst; auto|].
  intros [H|H]; [by apply lang_alt_l|by apply lang_alt_r].
Qed.

Lemma nullable_lang r : nullable r = true <-> lang r [].
Proof.
  induction r as [| |p|r1 IH1 r2 IH2|r1 IH1 r2 IH2|r IH]; simpl.
  - by rewrite lang_void_inv.
  - by rewrite lang_eps_inv.
  - rewrite lang_cls_inv. split; [done|]. by intros (c & ? & _).
  - rewrite andb_true_iff, IH1, IH2, lang_cat_inv. split.
    + intros [H1 H2]. by exists [], [].
    + intros (s1 & s2 & Heq & H1 & H2). symmetry in Heq.
      apply app_eq_nil in Heq as [-> ->]. done.
  - by rewrite orb_true_iff, IH1, IH2, lang_alt_inv.
  - split; [constructor|done].
Qed.

(** A text of [r*] that starts with [c] starts with a text of [r] that
    starts with [c]. *)
Lemma lang_star_cons r c s :
  lang (Star r) (c :: s) ->
  exists s1 s2, s = s1 ++ s2 /\ lang r (c :: s1) /\ lang (Star r) s2.
Proof.
  intros H. remember (Star r) as r' eqn:Hr. remember (c :: s) as t eqn:Ht.
  revert Hr c s Ht.
  induction H as [| | | | | |r0 s1 s2 H1 _ H2 IH2]; intros Hr c' s' Ht;
    try done.
  injection Hr as ->.
  destruct s1 as [|c1 s1].
  - simpl in Ht. by apply IH2.
  - simpl in Ht. injection Ht as -> <-. by exists s1, s2.
Qed.

Lemma lang_cat_cons r1 r2 c s :
  lang (Cat r1 r2) (c :: s)
  <-> (exists s1 s2, s = s1 ++ s2 /\ lang r1 (c :: s1) /\ lang r2 s2)
      \/ (lang r1 [] /\ lang r2 (c :: s)).
Proof.
  rewrite lang_cat_inv. split.
  - intros (s1 & s2 & Heq & H1 & H2).
    destruct s1 as [|c1 s1]; simpl in Heq.
    + right. by subst.
    + injection Heq as -> ->. left. by exists s1, s2.
  - intros [(s1 & s2 & -> & H1 & H2)|[H1 H2]].
    + by exists (c :: s1), s2.
    + by exists [], (c :: s).
Qed.

Lemma deriv_lang c r s : lang (deriv c r) s <-> lang r (c :: s).
Proof.
  revert s. induction r as [| |p|r1 IH1 r2 IH2|r1 IH1 r2 IH2|r IH];
    intros s; simpl.
  - by rewrite !lang_void_inv.
  - rewrite lang_void_inv, lang_eps_inv. done.
  - rewrite lang_cls_inv. destruct (p c) eqn:Hp.
    + rewrite lang_eps_inv. split.
      * intros ->. by exists c.
      * by intros (c' & [= -> ->] & _).
    + rewrite lang_void_inv. split; [done|].
      intros (c' & [= -> ->] & H). congruence.
  - assert (Hleft : lang (Cat (deriv c r1) r2) s
                    <-> exists s1 s2, s = s1 ++ s2 /\ lang r1 (c :: s1)
                                      /\ lang r2 s2).
    { rewrite lang_cat_inv. split.
      - intros (s1 & s2 & -> & H1 & H2). exists s1, s2. by rewrite <- IH1.
      - intros (s1 & s2 & -> & H1 & H2). exists s1, s2. by rewrite IH1. }
    rewrite lang_cat_cons. destruct (nullable r1) eqn:Hn.
    + apply nullable_lang in Hn. rewrite lang_alt_inv, Hleft, IH2. tauto.
    + rewrite Hleft. split; [by left|]. intros [H|[H _]]; [done|].
      apply nullable_lang in H. congruence.
  - by rewrite !lang_alt_inv, IH1, IH2.
  - rewrite lang_cat_inv. split.
    + intros (s1 & s2 & -> & H1 & H2).
      apply (lang_star_app _ (c :: s1) s2); [by apply IH|done].
    + intros H. apply lang_star_cons in H as (s1 & s2 & -> & H1 & H2).
      exists s1, s2. by rewrite IH.
Qed.

(** The matcher decides membership. *)
Lemma matches_lang r s : matches r s = true <-> lang r s.
Proof.
  revert r. induction s as [|c s IH]; intros r; simpl.
  - apply nullable_lang.
  - rewrite IH. apply deriv_lang.
Qed.

Lemma lang_star_cls p s :
  lang (Star (Cls p)) s <-> Forall (fun c => p c = true) s.
Proof.
  split.
  - induction s as [|c s IH]; intros H; [constructor|].
    apply lang_star_cons in H as (s1 & s2 & -> & H1 & H2).
    apply lang_cls_inv in H1 as (c' & [= -> ->] & Hc).
    constructor; [done|]. by apply IH.
  - induction 1 as [|c s Hc _ IH]; [constructor|].
    apply (lang_star_app _ [c] s); [by constructor|done].
Qed.

Lemma lang_plus_cls p s :
  lang (Plus (Cls p)) s <-> s <> [] /\ Forall (fun c => p c = true) s.
Proof.
  unfold Plus. split.
  - intros H. apply lang_cat_inv in H as (s1 & s2 & -> & H1 & H2).
    apply lang_cls_inv in H1 as (c & -> & Hc). split; [done|].
    constructor; [done|]. by apply lang_star_cls.
  - intros [Hne H]. destruct s as [|c s]; [done|].
    apply Forall_cons in H as [Hc H].
    apply (lang_cat _ _ [c] s); [by constructor|by apply lang_star_cls].
Qed.

Lemma lang_chr c s : lang (Chr c) s <-> s = [c].
Proof.
  unfold Chr. rewrite lang_cls_inv. split.
  - intros (c' & -> & Hc). apply N.eqb_eq in Hc. by subst.
  - intros ->. exists c. split; [done|]. apply N.eqb_refl.
Qed.

Lemma lang_star_any s : lang (Star Any) s.
Proof. apply lang_star_cls. by apply Forall_forall. Qed.

(** A match anywhere. *)
Lemma test_lang r s :
  test r s = true <-> exists before m after, s = before ++ m ++ after /\ lang r m.
Proof.
  unfold test. rewrite matches_lang, lang_cat_inv. split.
  - intros (s1 & s2 & -> & _ & H). apply lang_cat_inv in H
      as (m & after & -> & Hm & _). by exists s1, m, after.
  - intros (before & m & after & -> & Hm).
    exists before, (m ++ after). split; [done|].
    split; [apply lang_star_any|]. constructor; [done|apply lang_star_any].
Qed.

End RegexFacts.

Lemma word_iff s :
  lang (Regex.Plus (Regex.Cls (fun c => negb (JsString.is_space c)))) s
  <-> word s.
Proof.
  rewrite lang_plus_cls. unfold word. apply and_iff_compat_l.
  rewrite !Forall_forall.
  split; intros H c Hc; apply negb_true_iff; by apply H.
Qed.

Lemma test_EMAIL s :
  Regex.test ProfilePage.EMAIL s = true <-> email_shaped s.
Proof.
  rewrite test_lang. unfold email_shaped, ProfilePage.EMAIL. split.
  - intros (before & m & after & -> & Hm).
    apply lang_cat_inv in Hm as (a & m1 & -> & Ha & Hm).
    apply lang_cat_inv in Hm as (at_ & m2 & -> & Hat & Hm).
    apply lang_cat_inv in Hm as (b & m3 & -> & Hb & Hm).
    apply lang_cat_inv in Hm as (dot & c & -> & Hdot & Hc).
    apply lang_chr in Hat as ->. apply lang_chr in Hdot as ->.
    apply word_iff in Ha, Hb, Hc.
    exists before, a, b, c, after. split; [|done].
    by rewrite <- !app_assoc.
  - intros (before & a & b & c & after & -> & Ha & Hb & Hc).
    exists before, (a ++ 64%N :: b ++ 46%N :: c), after. split.
    { rewrite <- !app_assoc. simpl. by rewrite <- !app_assoc. }
    apply word_iff in Ha, Hb, Hc.
    constructor; [done|]. apply (lang_cat _ _ [64%N]); [by apply lang_chr|].
    constructor; [done|]. apply (lang_cat _ _ [46%N]); [by apply lang_chr|done].
Qed.

Lemma test_PHONE s :
  Regex.test_whole ProfilePage.PHONE s = true <-> phone_shaped s.
Proof.
  unfold Regex.test_whole, ProfilePage.PHONE, phone_shaped.
  rewrite matches_lang, lang_cat_inv. split.
  - intros (s1 & t & -> & Hopt & Ht). apply lang_plus_cls in Ht as [Hne Ht].
    exists t. split; [|done].
    apply lang_alt_inv in Hopt as [Hplus|Heps].
    + apply lang_chr in Hplus as ->. by right.
    + apply lang_eps_inv in Heps as ->. by left.
  - intros (t & Hs & Hne & Ht).
    destruct Hs as [-> | ->].
    + exists [], t. split; [done|]. split.
      * apply lang_alt_r. constructor.
      * by apply lang_plus_cls.
    + exists [43%N], t. split; [done|]. split.
      * apply lang_alt_l. by apply lang_chr.
      * by apply lang_plus_cls.
Qed.

(** ** White space *)

Lemma trimStart_nil s : JsString.trimStart s = [] <-> all_space s.
Proof.
  unfold all_space. induction s as [|c s IH]; simpl.
  - split; [constructor|done].
  - destruct (JsString.is_space c) eqn:Hc.
    + rewrite IH. split; [by constructor|]. by inversion 1.
    + split; [done|]. inversion 1; congruence.
Qed.

Lemma trimStart_head s c r :
  JsString.trimStart s = c :: r -> JsString.is_space c = false.
Proof.
  induction s as [|c' s IH]; simpl; [done|].
  destruct (JsString.is_space c') eqn:Hc; [done|]. by intros [= <- _].
Qed.

Lemma blank_iff s : ProfilePage.blank s = true <-> all_space s.
Proof.
  unfold ProfilePage.blank, JsString.trim, JsString.trimEnd.
  rewrite <- trimStart_nil.
  destruct (JsString.trimStart s) as [|c r] eqn:E; [done|].
  split; [|done].
  destruct (rev (JsString.trimStart (rev (c :: r)))) as [|x l] eqn:E2; [|done].
  intros _. exfalso.
  assert (E3 : JsString.trimStart (rev (c :: r)) = []).
  { destruct (JsString.trimStart (rev (c :: r))) as [|y l']; [done|].
    apply (f_equal (@length N)) in E2. rewrite length_rev in E2. done. }
  apply trimStart_nil in E3. unfold all_space in E3.
  rewrite Forall_forall in E3.
  assert (Hc : JsString.is_space c = true).
  { apply E3. apply list_elem_of_In, in_rev. rewrite rev_involutive.
    by left. }
  apply trimStart_head in E. congruence.
Qed.

(** ** The profile form *)

Lemma email_shaped_not_blank s : email_shaped s -> ~ all_space s.
Proof.
  intros (before & a & b & c & after & -> & [Hne Ha] & _) Hall.
  destruct a as [|x a]; [done|]. apply Forall_cons in Ha as [Hx _].
  unfold all_space in Hall. rewrite Forall_forall in Hall.
  assert (JsString.is_space x = true); [|congruence].
  apply Hall. apply elem_of_app. right. simpl. by left.
Qed.

Lemma validateForm_bool p :
  let f := ProfilePage.formData p in
  fst (ProfilePage.validateForm p)
  = negb (ProfilePage.blank (FormData.firstName f))
    && negb (ProfilePage.blank (FormData.lastName f))
    && (negb (ProfilePage.blank (FormData.email f))
        && Regex.test ProfilePage.EMAIL (FormData.email f))
    && (negb (truthy (JStr (FormData.phone f)))
        || Regex.test_whole ProfilePage.PHONE (FormData.phone f)).
Proof.
  unfold ProfilePage.validateForm, ProfilePage.newErrors. cbn [fst].
  destruct (ProfilePage.blank (FormData.firstName (ProfilePage.formData p))),
    (ProfilePage.blank (FormData.lastName (ProfilePage.formData p))),
    (ProfilePage.blank (FormData.email (ProfilePage.formData p))),
    (Regex.test ProfilePage.EMAIL (FormData.email (ProfilePage.formData p))),
    (truthy (JStr (FormData.phone (ProfilePage.formData p)))),
    (Regex.test_whole ProfilePage.PHONE
       (FormData.phone (ProfilePage.formData p)));
    reflexivity.
Qed.

Lemma not_blank_iff s : negb (ProfilePage.blank s) = true <-> ~ all_space s.
Proof.
  rewrite negb_true_iff, <- blank_iff.
  destruct (ProfilePage.blank s); naive_solver.
Qed.

(** X18. validateForm accepts the form exactly when the first name and the
    last name are not made of white space only, the email contains, with no
    white space inside, something, an at sign, something, a dot and
    something, and the phone is either empty or made of digits, white
    space, hyphens and parentheses after an optional plus sign. *)
Theorem validateForm_accepts p :
  let f := ProfilePage.formData p in
  fst (ProfilePage.validateForm p) = true
  <-> ~ all_space (FormData.firstName f)
      /\ ~ all_space (FormData.lastName f)
      /\ email_shaped (FormData.email f)
      /\ (FormData.phone f = [] \/ phone_shaped (FormData.phone f)).
Proof.
  intros f. rewrite validateForm_bool.
  rewrite !andb_true_iff, orb_true_iff, !not_blank_iff, test_EMAIL, test_PHONE.
  fold f.
  assert (Hphone : negb (truthy (JStr (FormData.phone f))) = true
                   <-> FormData.phone f = []).
  { simpl. by destruct (FormData.phone f). }
  rewrite Hphone. split.
  - intros [[[H1 H2] [_ H3]] H4]. done.
  - intros (H1 & H2 & H3 & H4). repeat split; try done.
    by apply email_shaped_not_blank.
Qed.

(** X19. validateForm changes nothing but the errors, and the errors it
    sets say, field by field, what is wrong: a name of white space only is
    required; an email of white space only is required, not invalid; any
    other email that has not the shape is invalid; a phone that is not empty
    and has not the shape is invalid; and a field that passes has no
    error. *)
Theorem validateForm_messages p :
  let f := ProfilePage.formData p in
  let p' := snd (ProfilePage.validateForm p) in
  let shown k := obj_get (js k) (ProfilePage.errors p') in
  (ProfilePage.formData p' = f
   /\ ProfilePage.isEditing p' = ProfilePage.isEditing p
   /\ ProfilePage.isSaving p' = ProfilePage.isSaving p)
  /\ (all_space (FormData.firstName f) ->
      shown "firstName" = Some (JStr (js "First name is required")))
  /\ (~ all_space (FormData.firstName f) -> shown "firstName" = None)
  /\ (all_space (FormData.lastName f) ->
      shown "lastName" = Some (JStr (js "Last name is required")))
  /\ (~ all_space (FormData.lastName f) -> shown "lastName" = None)
  /\ (all_space (FormData.email f) ->
      shown "email" = Some (JStr (js "Email is required")))
  /\ (~ all_space (FormData.email f) -> ~ email_shaped (FormData.email f) ->
      shown "email" = Some (JStr (js "Email is invalid")))
  /\ (email_shaped (FormData.email f) -> shown "email" = None)
  /\ (FormData.phone f <> [] -> ~ phone_shaped (FormData.phone f) ->
      shown "phone" = Some (JStr (js "Phone number is invalid")))
  /\ (FormData.phone f = [] \/ phone_shaped (FormData.phone f) ->
      shown "phone" = None).
Proof.
  intros f p' shown. subst p' shown. cbv beta.
  unfold ProfilePage.validateForm, ProfilePage.newErrors.
  cbn [snd ProfilePage.errors ProfilePage.with_errors ProfilePage.formData
       ProfilePage.isEditing ProfilePage.isSaving].
  fold f.
  pose proof (blank_iff (FormData.firstName f)) as B1.
  pose proof (blank_iff (FormData.lastName f)) as B2.
  pose proof (blank_iff (FormData.email f)) as B3.
  pose proof (test_EMAIL (FormData.email f)) as B4.
  pose proof (test_PHONE (FormData.phone f)) as B5.
  pose proof (email_shaped_not_blank (FormData.email f)) as B6.
  assert (B7 : truthy (JStr (FormData.phone f)) = true
               <-> FormData.phone f <> []).
  { simpl. by destruct (FormData.phone f). }
  destruct (ProfilePage.blank (FormData.firstName f)),
    (ProfilePage.blank (FormData.lastName f)),
    (ProfilePage.blank (FormData.email f)),
    (Regex.test ProfilePage.EMAIL (FormData.email f)),
    (truthy (JStr (FormData.phone f))),
    (Regex.test_whole ProfilePage.PHONE (FormData.phone f));
    (split; [done|]);
    repeat match goal with
           | |- _ /\ _ => split
           | |- _ -> _ => intros ?
           end;
    first [ reflexivity | exfalso; intuition discriminate ].
Qed.

Lemma obj_get_set_eq k v l : obj_get k (obj_set k v l) = Some v.
Proof.
  induction l as [|[k' v'] l IH]; simpl.
  - by rewrite decide_True.
  - destruct (decide (k = k')) as [->|Hne]; simpl.
    + by rewrite decide_True.
    + by rewrite decide_False.
Qed.

Lemma obj_get_set_ne k k' v l :
  k <> k' -> obj_get k' (obj_set k v l) = obj_get k' l.
Proof.
  intros Hne. induction l as [|[k0 v0] l IH]; simpl.
  - by rewrite decide_False.
  - destruct (decide (k = k0)) as [->|Hne0]; simpl.
    + by rewrite !decide_False.
    + destruct (decide (k' = k0)); [done|]. exact IH.
Qed.

Lemma name_of_inj i j : ProfilePage.name_of i = ProfilePage.name_of j -> i = j.
Proof. destruct i, j; simpl; intros H; try reflexivity; discriminate H. Qed.

Lemma handleInputChange_form i v p :
  ProfilePage.formData (ProfilePage.handleInputChange i v p)
  = ProfilePage.formData
      (if JsString.startsWith (js "address.") (ProfilePage.name_of i)
       then ProfilePage.with_formData
              (ProfilePage.set_address
                 (ProfilePage.set_address_field
                    (default (js "undefined")
                       (JsString.split 46 (ProfilePage.name_of i) !! 1%nat)) v))
              p
       else ProfilePage.with_formData
              (ProfilePage.set_field (ProfilePage.name_of i) v) p).
Proof.
  unfold ProfilePage.handleInputChange. cbv zeta.
  by destruct (truthy _).
Qed.

Lemma handleInputChange_errors i v p :
  ProfilePage.errors (ProfilePage.handleInputChange i v p)
  = if truthy (default JNull
                 (obj_get (ProfilePage.name_of i) (ProfilePage.errors p)))
    then obj_set (ProfilePage.name_of i) (JStr []) (ProfilePage.errors p)
    else ProfilePage.errors p.
Proof.
  unfold ProfilePage.handleInputChange. cbv zeta.
  by destruct (truthy _), (JsString.startsWith _ _).
Qed.

(** X20. A change event writes its value into the field of its input and
    into no other; it blanks the error shown for that input when there is
    one and leaves the errors of the other inputs alone; and it does not
    touch the editing and saving flags. *)
Theorem handleInputChange_updates i v p :
  let p' := ProfilePage.handleInputChange i v p in
  (forall j,
     ProfilePage.value_of j (ProfilePage.formData p')
     = if decide (j = i) then v
       else ProfilePage.value_of j (ProfilePage.formData p))
  /\ (forall j,
        obj_get (ProfilePage.name_of j) (ProfilePage.errors p')
        = if decide (j = i)
          then match obj_get (ProfilePage.name_of i) (ProfilePage.errors p) with
               | Some e => if truthy e then Some (JStr []) else Some e
               | None => None
               end
          else obj_get (ProfilePage.name_of j) (ProfilePage.errors p))
  /\ ProfilePage.isEditing p' = ProfilePage.isEditing p
  /\ ProfilePage.isSaving p' = ProfilePage.isSaving p.
Proof.
  intros p'. subst p'. split; [|split].
  - intros j. rewrite handleInputChange_form.
    destruct i, j; reflexivity.
  - intros j. rewrite handleInputChange_errors.
    destruct (obj_get (ProfilePage.name_of i) (ProfilePage.errors p))
      as [e|] eqn:Hi; simpl.
    + destruct (truthy e) eqn:He.
      * destruct (decide (j = i)) as [->|Hne].
        -- apply obj_get_set_eq.
        -- apply obj_get_set_ne. intros H. apply name_of_inj in H. done.
      * destruct (decide (j = i)) as [->|Hne]; done.
    + destruct (decide (j = i)) as [->|Hne]; done.
  - unfold ProfilePage.handleInputChange. cbv zeta.
    by destruct (truthy _), (JsString.startsWith _ _).
Qed.

Lemma context_updateProfile_sent userData reply c :
  sent (snd (AuthContext.updateProfile userData reply c))
  = sent c ++ [ {| method := "PUT"; url := "/users/profile";
                   body := Some userData;
                   authorization :=
                     (fun t => js "Bearer " ++ t) <$> AuthService.getToken c |} ].
Proof.
  pose proof (send_sent "PUT" "/users/profile" (Some userData) reply
                (with_error None c)) as Hsent.
  destruct (send_spec "PUT" "/users/profile" (Some userData) reply
              (with_error None c)) as [r Hr].
  rewrite Hr in Hsent. cbn [snd] in Hsent.
  assert (Hsettle : sent (settle reply (with_sent r (with_error None c)))
                    = sent (with_sent r (with_error None c))).
  { destruct reply as [u|status err|msg]; simpl; try done. by case_decide. }
  rewrite Hsettle in Hsent.
  assert (Heq : exists c',
            AuthContext.updateProfile userData reply c = c'
            /\ sent (snd c') = sent (with_sent r (with_error None c))).
  { unfold AuthContext.updateProfile, try_catch.
    unfold AuthContext.setError at 1. unfold bind at 1, modify at 1.
    unfold bind at 1. unfold AuthService.updateProfile, Api.put, try_catch.
    unfold bind at 1. rewrite Hr.
    destruct reply as [u|status err|msg]; eexists; (split; [reflexivity|]);
      simpl; try done; by case_decide. }
  destruct Heq as (c' & -> & ->). exact Hsent.
Qed.

Lemma validateForm_rejects p :
  let f := ProfilePage.formData p in
  all_space (FormData.firstName f) \/ all_space (FormData.lastName f)
  \/ ~ email_shaped (FormData.email f)
  \/ (FormData.phone f <> [] /\ ~ phone_shaped (FormData.phone f)) ->
  fst (ProfilePage.validateForm p) = false.
Proof.
  intros f H. rewrite validateForm_bool. fold f.
  pose proof (blank_iff (FormData.firstName f)) as B1.
  pose proof (blank_iff (FormData.lastName f)) as B2.
  pose proof (test_EMAIL (FormData.email f)) as B4.
  pose proof (test_PHONE (FormData.phone f)) as B5.
  assert (B7 : truthy (JStr (FormData.phone f)) = true
               <-> FormData.phone f <> []).
  { simpl. by destruct (FormData.phone f). }
  destruct (ProfilePage.blank (FormData.firstName f)),
    (ProfilePage.blank (FormData.lastName f)),
    (ProfilePage.blank (FormData.email f)),
    (Regex.test ProfilePage.EMAIL (FormData.email f)),
    (truthy (JStr (FormData.phone f))),
    (Regex.test_whole ProfilePage.PHONE (FormData.phone f));
    first [ reflexivity | exfalso; intuition discriminate ].
Qed.

Lemma validateForm_passes p :
  let f := ProfilePage.formData p in
  ~ all_space (FormData.firstName f) ->
  ~ all_space (FormData.lastName f) ->
  email_shaped (FormData.email f) ->
  FormData.phone f = [] \/ phone_shaped (FormData.phone f) ->
  fst (ProfilePage.validateForm p) = true.
Proof.
  intros f H1 H2 H3 H4. rewrite validateForm_bool. fold f.
  rewrite !andb_true_iff, orb_true_iff, !not_blank_iff, test_EMAIL, test_PHONE.
  repeat split; try done.
  - by apply email_shaped_not_blank.
  - destruct H4 as [H4|H4]; [left|by right].
    rewrite H4. reflexivity.
Qed.

(** X21. Save on a form that validation rejects asks the backend nothing:
    the client (cookies, context, what was sent) is exactly as before, and
    of the page only the errors change, to the ones of validateForm, of
    which there is at least one. *)
Theorem handleSave_rejected_form reply p c :
  let f := ProfilePage.formData p in
  all_space (FormData.firstName f) \/ all_space (FormData.lastName f)
  \/ ~ email_shaped (FormData.email f)
  \/ (FormData.phone f <> [] /\ ~ phone_shaped (FormData.phone f)) ->
  ProfilePage.handleSave reply p c
  = (ProfilePage.with_errors (ProfilePage.newErrors f) p, c)
  /\ ProfilePage.newErrors f <> [].
Proof.
  intros f H. pose proof (validateForm_rejects p H) as Hv.
  unfold ProfilePage.handleSave.
  unfold ProfilePage.validateForm in *. cbn [fst] in Hv. fold f in Hv |- *.
  rewrite Hv. cbn [negb]. split; [done|].
  intros Hnil. rewrite Hnil in Hv. done.
Qed.

Lemma handleSave_rejected_form_witness :
  let p := ProfilePage.with_formData
             (ProfilePage.set_field (js "email") (js "ada@example"))
             (ProfilePage.sync (Some (sample_user "admin"))
                ProfilePage.initial) in
  let c := session_of (sample_user "admin") in
  let f := ProfilePage.formData p in
  ProfilePage.handleSave (NoResponse (js "Network Error")) p c
  = (ProfilePage.with_errors (ProfilePage.newErrors f) p, c)
  /\ ProfilePage.newErrors f <> [].
Proof.
  apply (handleSave_rejected_form (NoResponse (js "Network Error"))
           (ProfilePage.with_formData
              (ProfilePage.set_field (js "email") (js "ada@example"))
              (ProfilePage.sync (Some (sample_user "admin"))
                 ProfilePage.initial))
           (session_of (sample_user "admin"))).
  right. right. left. intros H. apply test_EMAIL in H.
  vm_compute in H. discriminate.
Defined.

Lemma guard_after_frame before c :
  fst (Pages.guard_after before c) = Return tt
  /\ cookies (snd (Pages.guard_after before c)) = cookies c
  /\ sent (snd (Pages.guard_after before c)) = sent c
  /\ console (snd (Pages.guard_after before c)) = console c
  /\ user (snd (Pages.guard_after before c)) = user c
  /\ error (snd (Pages.guard_after before c)) = error c
  /\ isLoading (snd (Pages.guard_after before c)) = isLoading c.
Proof.
  unfold Pages.guard_after. case_decide; [done|].
  rewrite guard_spec. cbn [fst snd].
  by destruct (negb (isLoading c) && negb (Pages.renders c)).
Qed.

Lemma handleSave_valid_form reply p c :
  let f := ProfilePage.formData p in
  ~ all_space (FormData.firstName f) ->
  ~ all_space (FormData.lastName f) ->
  email_shaped (FormData.email f) ->
  FormData.phone f = [] \/ phone_shaped (FormData.phone f) ->
  let p' := fst (ProfilePage.handleSave reply p c) in
  let c' := snd (ProfilePage.handleSave reply p c) in
  ProfilePage.isSaving p' = false
  /\ ProfilePage.formData p' = f
  /\ ProfilePage.errors p' = []
  /\ sent c'
     = sent c ++ [ {| method := "PUT"; url := "/users/profile";
                      body := Some (ProfilePage.form_to_json f);
                      authorization :=
                        (fun t => js "Bearer " ++ t)
                          <$> AuthService.getToken c |} ]
  /\ isLoading c' = isLoading c
  /\ routes c' = routes c
  /\ match reply with
     | Fulfilled u =>
         ProfilePage.isEditing p' = false
         /\ user c' = user_to_json u
         /\ error c' = None
         /\ cookies c'
            = <[AuthService.USER_KEY := stringify (user_to_json u)]> (cookies c)
         /\ console c' = console c
     | _ =>
         ProfilePage.isEditing p' = ProfilePage.isEditing p
         /\ user c' = user c
         /\ error c' = Some (surfaced reply (js "Failed to update profile"))
         /\ cookies c' = cookies (settle reply c)
         /\ console c' = console c ++ [js "Profile update error:"]
     end.
Proof.
  intros f H1 H2 H3 H4 p' c'. subst p' c'.
  assert (Hv : fst (ProfilePage.validateForm p) = true)
    by (by apply validateForm_passes).
  assert (He : ProfilePage.newErrors f = []).
  { unfold ProfilePage.validateForm in Hv. cbn [fst] in Hv. fold f in Hv.
    by destruct (ProfilePage.newErrors f). }
  pose proof (context_updateProfile_sent (ProfilePage.form_to_json f) reply c)
    as Hsent.
  destruct (context_updateProfile_spec (ProfilePage.form_to_json f) reply c)
    as [r Hr].
  unfold ProfilePage.handleSave.
  unfold ProfilePage.validateForm in *. cbn [fst] in Hv. fold f in Hv |- *.
  rewrite Hv. cbn [negb].
  cbn [ProfilePage.formData ProfilePage.with_isSaving ProfilePage.with_errors].
  fold f. rewrite Hr in Hsent |- *. rewrite He.
  destruct reply as [u|status err|msg]; cbn [fst snd] in *.
  - split; [reflexivity|]. split; [reflexivity|]. split; [reflexivity|].
    split; [exact Hsent|]. repeat split.
  - cbn [settle] in *.
    destruct (decide (status = 401%N));
      (split; [reflexivity|]; split; [reflexivity|]; split; [reflexivity|];
       split; [exact Hsent|]; repeat split).
  - split; [reflexivity|]. split; [reflexivity|]. split; [reflexivity|].
    split; [exact Hsent|]. repeat split.
Qed.

(** X22. A click on Save on the profile page as it is drawn (the context
    has settled on an admin), with a form that validation accepts, sends
    the form once, as it is, with PUT to the profile address.  When the
    backend accepts, the context and the user cookie hold the user it
    returned, the page leaves the editing mode, the form is filled again
    from the returned user, and the guard sends to the login page when the
    role of that user is no longer admin.  When it does not, the page stays
    in the editing mode with the form as it was, the context records the
    surfaced message and keeps its user, the failure is logged and the
    router is left alone.  Either way the saving flag is down again and no
    error is shown. *)
Theorem save_accepted_form reply p c :
  let f := ProfilePage.formData p in
  isLoading c = false ->
  Pages.renders c = true ->
  ~ all_space (FormData.firstName f) ->
  ~ all_space (FormData.lastName f) ->
  email_shaped (FormData.email f) ->
  FormData.phone f = [] \/ phone_shaped (FormData.phone f) ->
  let p' := fst (ProfilePage.save_click reply p c) in
  let c' := snd (ProfilePage.save_click reply p c) in
  ProfilePage.isSaving p' = false
  /\ ProfilePage.errors p' = []
  /\ sent c'
     = sent c ++ [ {| method := "PUT"; url := "/users/profile";
                      body := Some (ProfilePage.form_to_json f);
                      authorization :=
                        (fun t => js "Bearer " ++ t)
                          <$> AuthService.getToken c |} ]
  /\ match reply with
     | Fulfilled u =>
         ProfilePage.isEditing p' = false
         /\ ProfilePage.formData p' = ProfilePage.form_of_user u
         /\ user c' = user_to_json u
         /\ error c' = None
         /\ cookies c'
            = <[AuthService.USER_KEY := stringify (user_to_json u)]> (cookies c)
         /\ console c' = console c
         /\ routes c'
            = routes c ++ (if bool_decide (role u = js "admin") then []
                           else ["/auth/login"])
     | _ =>
         ProfilePage.isEditing p' = ProfilePage.isEditing p
         /\ ProfilePage.formData p' = f
         /\ user c' = user c
         /\ error c' = Some (surfaced reply (js "Failed to update profile"))
         /\ cookies c' = cookies (settle reply c)
         /\ console c' = console c ++ [js "Profile update error:"]
         /\ routes c' = routes c
     end.
Proof.
  intros f Hload Hrend H1 H2 H3 H4 p' c'. subst p' c'.
  pose proof (handleSave_valid_form reply p c H1 H2 H3 H4) as Hs.
  cbv zeta in Hs. fold f in Hs.
  assert (Hv : fst (ProfilePage.validateForm p) = true)
    by (by apply validateForm_passes).
  unfold ProfilePage.save_click.
  destruct (ProfilePage.validateForm p) as [valid p0].
  cbn [fst] in Hv. subst valid.
  destruct (ProfilePage.handleSave reply p c) as [p1 c1].
  cbn [fst snd] in Hs |- *.
  destruct Hs as (Hsaving & Hform & Herrors & Hsent & Hl & Hr & Hrest).
  destruct (guard_after_frame c c1) as (_ & Gc & Gs & Gk & Gu & Ge & _).
  rewrite Gs. split.
  { by destruct reply. }
  split.
  { by destruct reply. }
  split; [exact Hsent|].
  assert (Hdeps : Pages.deps c = (true, true, false)).
  { unfold Pages.deps. unfold Pages.renders in Hrend.
    apply andb_true_iff in Hrend as [-> ->]. by rewrite Hload. }
  destruct reply as [u|status err|msg].
  - destruct Hrest as (Hed & Hu & Her & Hck & Hco).
    rewrite Gc, Gk, Gu, Ge.
    split; [exact Hed|]. split; [reflexivity|]. split; [exact Hu|].
    split; [exact Her|]. split; [exact Hck|]. split; [exact Hco|].
    assert (Hd1 : Pages.deps c1
                  = (true, bool_decide (role u = js "admin"), false)).
    { unfold Pages.deps, AuthContext.isAuthenticated, AuthContext.isAdmin.
      rewrite Hu, Hl, Hload. by rewrite role_is_admin_user. }
    unfold Pages.guard_after. rewrite Hd1, Hdeps.
    destruct (bool_decide (role u = js "admin")) eqn:Hrole.
    + rewrite decide_True by done. cbn [snd]. by rewrite Hr, app_nil_r.
    + rewrite decide_False by done. rewrite guard_spec. cbn [snd].
      unfold Pages.renders, AuthContext.isAuthenticated, AuthContext.isAdmin.
      rewrite Hu, Hl, Hload, role_is_admin_user, Hrole, truthy_user.
      cbn. by rewrite Hr.
  - destruct Hrest as (Hed & Hu & Her & Hck & Hco).
    rewrite Gc, Gk, Gu, Ge.
    split; [exact Hed|]. split; [exact Hform|]. split; [exact Hu|].
    split; [exact Her|]. split; [exact Hck|]. split; [exact Hco|].
    unfold Pages.guard_after.
    rewrite decide_True; [by cbn [snd]|].
    unfold Pages.deps, AuthContext.isAuthenticated, AuthContext.isAdmin.
    by rewrite Hu, Hl.
  - destruct Hrest as (Hed & Hu & Her & Hck & Hco).
    rewrite Gc, Gk, Gu, Ge.
    split; [exact Hed|]. split; [exact Hform|]. split; [exact Hu|].
    split; [exact Her|]. split; [exact Hck|]. split; [exact Hco|].
    unfold Pages.guard_after.
    rewrite decide_True; [by cbn [snd]|].
    unfold Pages.deps, AuthContext.isAuthenticated, AuthContext.isAdmin.
    by rewrite Hu, Hl.
Qed.

Lemma save_accepted_form_witness :
  let u := sample_user "admin" in
  let u' := sample_user "customer" in
  let p := ProfilePage.sync (Some u) ProfilePage.initial in
  let c := with_isLoading false (with_user (user_to_json u) (session_of u)) in
  let p' := fst (ProfilePage.save_click (Fulfilled u') p c) in
  let c' := snd (ProfilePage.save_click (Fulfilled u') p c) in
  ProfilePage.isSaving p' = false
  /\ ProfilePage.errors p' = []
  /\ sent c'
     = sent c ++ [ {| method := "PUT"; url := "/users/profile";
                      body := Some (ProfilePage.form_to_json
                                      (ProfilePage.formData p));
                      authorization :=
                        (fun t => js "Bearer " ++ t)
                          <$> AuthService.getToken c |} ]
  /\ ProfilePage.isEditing p' = false
  /\ ProfilePage.formData p' = ProfilePage.form_of_user u'
  /\ user c' = user_to_json u'
  /\ error c' = None
  /\ cookies c'
     = <[AuthService.USER_KEY := stringify (user_to_json u')]> (cookies c)
  /\ console c' = console c
  /\ routes c' = routes c ++ ["/auth/login"].
Proof.
  apply (save_accepted_form (Fulfilled (sample_user "customer"))
           (ProfilePage.sync (Some (sample_user "admin")) ProfilePage.initial)
           (with_isLoading false
              (with_user (user_to_json (sample_user "admin"))
                 (session_of (sample_user "admin"))))).
  - reflexivity.
  - reflexivity.
  - intros H. apply blank_iff in H. vm_compute in H. discriminate.
  - intros H. apply blank_iff in H. vm_compute in H. discriminate.
  - apply test_EMAIL. reflexivity.
  - right. apply test_PHONE. reflexivity.
Defined.

Lemma handleInputChange_flags i v p :
  ProfilePage.isEditing (ProfilePage.handleInputChange i v p)
  = ProfilePage.isEditing p
  /\ ProfilePage.isSaving (ProfilePage.handleInputChange i v p)
     = ProfilePage.isSaving p.
Proof.
  unfold ProfilePage.handleInputChange. cbv zeta.
  by destruct (truthy _), (JsString.startsWith _ _).
Qed.

Lemma typed_isSaving edits p :
  ProfilePage.isSaving (typed edits p) = ProfilePage.isSaving p.
Proof.
  revert p. induction edits as [|[i v] edits IH]; intros p; [done|].
  simpl. rewrite IH. apply handleInputChange_flags.
Qed.

(** X23. Cancel throws away what was typed: after any series of change
    events, with a user in the context, the form is again the one filled
    from that user, no error is shown and the page is out of the editing
    mode; the saving flag is not touched.  With no user in the context the
    form keeps what was typed. *)
Theorem handleCancel_discards_edits u edits p :
  ProfilePage.handleCancel (Some u) (typed edits p)
  = {| ProfilePage.isEditing := false;
       ProfilePage.formData := ProfilePage.form_of_user u;
       ProfilePage.errors := [];
       ProfilePage.isSaving := ProfilePage.isSaving p |}
  /\ ProfilePage.formData (ProfilePage.handleCancel None (typed edits p))
     = ProfilePage.formData (typed edits p)
  /\ ProfilePage.handleCancel (Some u) (typed edits p)
     = ProfilePage.handleCancel (Some u) p.
Proof.
  assert (H : forall q,
            ProfilePage.handleCancel (Some u) q
            = {| ProfilePage.isEditing := false;
                 ProfilePage.formData := ProfilePage.form_of_user u;
                 ProfilePage.errors := [];
                 ProfilePage.isSaving := ProfilePage.isSaving q |})
    by reflexivity.
  split; [|split].
  - rewrite H. by rewrite typed_isSaving.
  - reflexivity.
  - rewrite !H. by rewrite typed_isSaving.
Qed.

(** ** What the operations leave alone *)

Lemma foreign_setToken k t c :
  foreign k ->
  cookies (Cookies.put AuthService.TOKEN_KEY t c) !! k = cookies c !! k.
Proof. intros (H & _). simpl. by rewrite lookup_insert_ne. Qed.

Lemma foreign_setRefreshToken k t c :
  foreign k ->
  cookies (Cookies.put AuthService.REFRESH_TOKEN_KEY t c) !! k
  = cookies c !! k.
Proof. intros (_ & _ & H). simpl. by rewrite lookup_insert_ne. Qed.

Lemma foreign_refused k d c :
  foreign k -> cookies (refused d c) !! k = cookies c !! k.
Proof.
  intros H. unfold refused.
  destruct (Cookies.isWellFormed (data_token d)); [|done].
  by apply foreign_setToken.
Qed.

Lemma foreign_setUser k u c :
  foreign k -> cookies (AuthService.setUser u c) !! k = cookies c !! k.
Proof. intros (_ & H & _). simpl. by rewrite lookup_insert_ne. Qed.

Lemma foreign_clearAuth k c :
  foreign k -> cookies (AuthService.clearAuth c) !! k = cookies c !! k.
Proof.
  intros (H1 & H2 & H3). unfold AuthService.clearAuth. simpl.
  by rewrite !lookup_delete_ne.
Qed.

Lemma foreign_settle {T} k (reply : Reply T) c :
  foreign k -> cookies (settle reply c) !! k = cookies c !! k.
Proof.
  intros (H1 & H2 & _). destruct reply as [p|status err|msg]; simpl; try done.
  case_decide; [|done]. simpl. by rewrite !lookup_delete_ne.
Qed.

Lemma foreign_store k d c :
  foreign k ->
  cookies (AuthService.setUser (data_user d)
             (Cookies.put AuthService.REFRESH_TOKEN_KEY (data_refreshToken d)
                (Cookies.put AuthService.TOKEN_KEY (data_token d) c))) !! k
  = cookies c !! k.
Proof.
  intros H. by rewrite foreign_setUser, foreign_setRefreshToken,
    foreign_setToken.
Qed.

Lemma foreign_service_login k credentials reply c :
  foreign k ->
  cookies (snd (AuthService.login credentials reply c)) !! k = cookies c !! k.
Proof.
  intros H. destruct (service_login_spec credentials reply c) as [r ->].
  destruct reply as [response|status err|msg];
    [|cbn [snd]; by rewrite foreign_settle..].
  destruct (storable (data response)); cbn [snd].
  - by rewrite foreign_store.
  - by rewrite foreign_refused.
Qed.

Lemma foreign_service_register k userData reply c :
  foreign k ->
  cookies (snd (AuthService.register userData reply c)) !! k = cookies c !! k.
Proof.
  intros H. destruct (service_register_spec userData reply c) as [r ->].
  destruct reply as [response|status err|msg];
    [|cbn [snd]; by rewrite foreign_settle..].
  destruct (storable (data response)); cbn [snd].
  - by rewrite foreign_store.
  - by rewrite foreign_refused.
Qed.

Lemma foreign_service_logout k reply c :
  foreign k ->
  cookies (snd (AuthService.logout reply c)) !! k = cookies c !! k.
Proof.
  intros H. destruct (service_logout_cookies reply c) as [_ ->].
  by apply foreign_clearAuth.
Qed.

Lemma foreign_service_refreshToken k reply c :
  foreign k ->
  cookies (snd (AuthService.refreshToken reply c)) !! k = cookies c !! k.
Proof.
  intros H. destruct (service_refreshToken_spec reply c) as [r ->].
  destruct (AuthService.getRefreshToken c), reply as [token|status err|msg];
    try destruct (Cookies.isWellFormed token); cbn [snd];
    rewrite ?foreign_clearAuth, ?foreign_settle, ?foreign_setToken by done;
    done.
Qed.

Lemma foreign_service_profile k userData reply c :
  foreign k ->
  cookies (snd (AuthService.getCurrentUser reply c)) !! k = cookies c !! k
  /\ cookies (snd (AuthService.updateProfile userData reply c)) !! k
     = cookies c !! k.
Proof.
  intros H.
  destruct (service_getCurrentUser_spec reply c) as [r1 ->].
  destruct (service_updateProfile_spec userData reply c) as [r2 ->].
  destruct reply; cbn [snd];
    rewrite ?foreign_setUser, ?foreign_settle by done; done.
Qed.

Lemma foreign_service_password k mail token password reply c :
  foreign k ->
  cookies (snd (AuthService.forgotPassword mail reply c)) !! k = cookies c !! k
  /\ cookies (snd (AuthService.resetPassword token password reply c)) !! k
     = cookies c !! k.
Proof.
  intros H.
  destruct (service_forgotPassword_spec mail reply c) as [r1 ->].
  destruct (service_resetPassword_spec token password reply c) as [r2 ->].
  destruct reply; cbn [snd]; rewrite ?foreign_settle by done; done.
Qed.

Lemma context_login_denied_cookies mail password response logout_reply c :
  storable (data response) = true ->
  role (data_user (data response)) <> js "admin" ->
  cookies (snd (AuthContext.login mail password (Fulfilled response)
                  logout_reply c))
  = cookies (AuthService.clearAuth c).
Proof.
  intros Hst Hrole.
  destruct (service_login_spec
              {| LoginRequest.email := mail; LoginRequest.password := password |}
              (Fulfilled response)
              (with_error None (with_isLoading true c))) as [r Hr].
  rewrite Hst in Hr.
  set (c0 := AuthService.setUser (data_user (data response))
               (Cookies.put AuthService.REFRESH_TOKEN_KEY
                  (data_refreshToken (data response))
                  (Cookies.put AuthService.TOKEN_KEY
                     (data_token (data response))
                     (with_sent r
                        (with_error None (with_isLoading true c)))))).
  destruct (service_logout_spec logout_reply c0) as (c1 & Hc1 & _).
  destruct (service_logout_cookies logout_reply c0) as [_ Hck].
  rewrite Hc1 in Hck. cbn [snd] in Hck.
  assert (Heq : AuthContext.login mail password (Fulfilled response)
                  logout_reply c
                = (Throw (JsError ACCESS_DENIED),
                   with_isLoading false
                     (with_error (Some ACCESS_DENIED)
                        (AuthService.clearAuth c1)))).
  { unfold AuthContext.login, try_finally, try_catch.
    unfold AuthContext.setIsLoading at 1, AuthContext.setError at 1.
    unfold bind at 1, modify at 1. unfold bind at 1, modify at 1.
    unfold bind at 1. rewrite Hr. rewrite decide_True by done.
    unfold bind at 1. unfold bind at 1. fold c0. rewrite Hc1. reflexivity. }
  rewrite Heq. cbn [snd].
  change (cookies (with_isLoading false
                     (with_error (Some ACCESS_DENIED)
                        (AuthService.clearAuth c1))))
    with (cookies (AuthService.clearAuth c1)).
  rewrite Hck. unfold c0, AuthService.clearAuth. simpl.
  apply map_eq. intros k.
  rewrite !lookup_delete. repeat case_decide; try done.
  by rewrite !lookup_insert_ne.
Qed.

Lemma foreign_context_login k mail password reply logout_reply c :
  foreign k ->
  cookies (snd (AuthContext.login mail password reply logout_reply c)) !! k
  = cookies c !! k.
Proof.
  intros H. destruct reply as [response|status err|msg].
  - destruct (storable (data response)) eqn:Hst.
    + destruct (decide (role (data_user (data response)) = js "admin"))
        as [Hrole|Hrole].
      * destruct (context_login_admin mail password response logout_reply c
                    Hst Hrole) as [r ->].
        cbn [snd].
        etransitivity;
          [|apply (foreign_store k (data response)
                     (with_sent r (with_error None (with_isLoading true c)))
                     H)].
        reflexivity.
      * rewrite context_login_denied_cookies by done.
        by apply foreign_clearAuth.
    + destruct (context_login_refused mail password response logout_reply c
                  Hst) as [r ->].
      cbn [snd].
      etransitivity;
        [|apply (foreign_refused k (data response)
                   (with_sent r (with_error None (with_isLoading true c))) H)].
      reflexivity.
  - destruct (context_login_rejected mail password (Failed status err)
                logout_reply c eq_refl) as [r ->].
    cbn [snd].
    etransitivity;
      [|apply (foreign_settle k (Failed status err : Reply AuthResponse)
                 (with_sent r (with_error None (with_isLoading true c))) H)].
    reflexivity.
  - by destruct (context_login_rejected mail password (NoResponse msg)
                   logout_reply c eq_refl) as [r ->].
Qed.

Lemma foreign_context_register k userData reply c :
  foreign k ->
  cookies (snd (AuthContext.register userData reply c)) !! k = cookies c !! k.
Proof.
  intros H. destruct reply as [response|status err|msg].
  - destruct (storable (data response)) eqn:Hst.
    + destruct (context_register_fulfilled userData response c Hst) as [r ->].
      cbn [snd].
      etransitivity;
        [|apply (foreign_store k (data response)
                   (with_sent r (with_error None (with_isLoading true c))) H)].
      reflexivity.
    + destruct (context_register_refused userData response c Hst) as [r ->].
      cbn [snd].
      etransitivity;
        [|apply (foreign_refused k (data response)
                   (with_sent r (with_error None (with_isLoading true c))) H)].
      reflexivity.
  - destruct (context_register_rejected userData (Failed status err) c eq_refl)
      as [r ->].
    cbn [snd].
    etransitivity;
      [|apply (foreign_settle k (Failed status err : Reply AuthResponse)
                 (with_sent r (with_error None (with_isLoading true c))) H)].
    reflexivity.
  - by destruct (context_register_rejected userData (NoResponse msg) c eq_refl)
      as [r ->].
Qed.

Lemma context_logout_cookies reply c :
  AuthContext.logout reply c
  = (Return tt, snd (AuthContext.logout reply c))
  /\ cookies (snd (AuthContext.logout reply c))
     = cookies (AuthService.clearAuth c).
Proof.
  destruct (service_logout_spec reply (with_isLoading true c))
    as (c1 & Hc1 & _).
  destruct (service_logout_cookies reply (with_isLoading true c)) as [_ Hck].
  rewrite Hc1 in Hck. cbn [snd] in Hck.
  assert (Heq : AuthContext.logout reply c
                = (Return tt,
                   with_isLoading false
                     (with_route "/auth/login"
                        (with_user JNull (AuthService.clearAuth c1))))).
  { unfold AuthContext.logout, try_finally, try_catch.
    unfold AuthContext.setIsLoading at 1. unfold bind at 1, modify at 1.
    unfold bind at 1. rewrite Hc1. reflexivity. }
  rewrite Heq. cbn [snd]. split; [done|]. exact Hck.
Qed.

Lemma foreign_context_logout k reply c :
  foreign k ->
  cookies (snd (AuthContext.logout reply c)) !! k = cookies c !! k
  /\ cookies (snd (DashboardPage.handleLogout reply c)) !! k = cookies c !! k.
Proof.
  intros H. destruct (context_logout_cookies reply c) as [Heq Hck].
  unfold DashboardPage.handleLogout, try_catch. rewrite Heq. cbn [snd].
  rewrite Hck. split; by apply foreign_clearAuth.
Qed.

Lemma foreign_context_updateProfile k userData reply c :
  foreign k ->
  cookies (snd (AuthContext.updateProfile userData reply c)) !! k
  = cookies c !! k.
Proof.
  intros H. destruct (context_updateProfile_spec userData reply c) as [r ->].
  destruct reply as [u|status err|msg]; cbn [snd].
  - etransitivity;
      [|apply (foreign_setUser k u (with_sent r (with_error None c)) H)].
    reflexivity.
  - etransitivity;
      [|apply (foreign_settle k (Failed status err : Reply AdminUser)
                 (with_sent r (with_error None c)) H)].
    reflexivity.
  - reflexivity.
Qed.

Lemma foreign_context_initAuth k reply c :
  foreign k ->
  cookies (snd (AuthContext.initAuth reply c)) !! k = cookies c !! k.
Proof.
  intros H. destruct (AuthService.isAuthenticated c) eqn:Hauth.
  - destruct (context_initAuth_authenticated reply c Hauth) as [r Hr].
    cbv zeta in Hr. rewrite Hr. cbn [snd].
    destruct reply as [u|status err|msg].
    + etransitivity;
        [|apply (foreign_setUser k u
                   (with_sent r (with_user (AuthService.getUser c)
                                   (with_isLoading true c))) H)].
      reflexivity.
    + etransitivity;
        [|etransitivity;
          [apply (foreign_clearAuth k
                    (settle (Failed status err : Reply AdminUser)
                       (with_sent r (with_user (AuthService.getUser c)
                                       (with_isLoading true c)))) H)
          |apply (foreign_settle k (Failed status err : Reply AdminUser)
                    (with_sent r (with_user (AuthService.getUser c)
                                    (with_isLoading true c))) H)]].
      reflexivity.
    + etransitivity;
        [|apply (foreign_clearAuth k
                   (with_sent r (with_user (AuthService.getUser c)
                                   (with_isLoading true c))) H)].
      reflexivity.
  - assert (Heq : AuthContext.initAuth reply c
                  = (Return tt, with_isLoading false c)).
    { unfold AuthContext.initAuth, try_finally.
      unfold try_catch at 1, AuthContext.setIsLoading at 1.
      unfold bind at 1, modify at 1. unfold bind at 1, gets at 1.
      change (AuthService.isAuthenticated (with_isLoading true c))
        with (AuthService.isAuthenticated c).
      rewrite Hauth. reflexivity. }
    by rewrite Heq.
Qed.

Lemma foreign_handleSave k reply p c :
  foreign k ->
  cookies (snd (ProfilePage.handleSave reply p c)) !! k = cookies c !! k.
Proof.
  intros H. unfold ProfilePage.handleSave.
  destruct (ProfilePage.validateForm p) as [valid p1].
  destruct valid; cbn [negb]; [|done].
  pose proof (foreign_context_updateProfile k
                (ProfilePage.form_to_json
                   (ProfilePage.formData (ProfilePage.with_isSaving true p1)))
                reply c H) as Hu.
  destruct (AuthContext.updateProfile _ reply c) as [[?|?] c']; exact Hu.
Qed.

(** X24. No operation of the session manager, of the provider or of the
    pages ever writes or removes a cookie other than the three of the
    session, whatever the backend answers. *)
Theorem foreign_cookies_untouched k c
    (auth_reply : Reply AuthResponse) (ack_reply : Reply Ack)
    (token_reply : Reply (list N)) (user_reply : Reply AdminUser)
    (logout_reply : Reply unit)
    credentials registration mail token password userData p :
  foreign k ->
  let same (c' : Client) := cookies c' !! k = cookies c !! k in
  same (snd (AuthService.login credentials auth_reply c))
  /\ same (snd (AuthService.register registration auth_reply c))
  /\ same (snd (AuthService.logout logout_reply c))
  /\ same (snd (AuthService.forgotPassword mail ack_reply c))
  /\ same (snd (AuthService.resetPassword token password ack_reply c))
  /\ same (snd (AuthService.refreshToken token_reply c))
  /\ same (snd (AuthService.getCurrentUser user_reply c))
  /\ same (snd (AuthService.updateProfile userData user_reply c))
  /\ same (snd (AuthContext.initAuth user_reply c))
  /\ same (snd (AuthContext.login mail password auth_reply logout_reply c))
  /\ same (snd (AuthContext.register registration auth_reply c))
  /\ same (snd (AuthContext.logout logout_reply c))
  /\ same (snd (AuthContext.updateProfile userData user_reply c))
  /\ same (snd (DashboardPage.handleLogout logout_reply c))
  /\ same (snd (ProfilePage.handleSave user_reply p c)).
Proof.
  intros H same. subst same. cbv beta.
  split; [by apply foreign_service_login|].
  split; [by apply foreign_service_register|].
  split; [by apply foreign_service_logout|].
  split; [by apply foreign_service_password|].
  split; [by apply (foreign_service_password k mail)|].
  split; [by apply foreign_service_refreshToken|].
  split; [by apply (foreign_service_profile k userData)|].
  split; [by apply foreign_service_profile|].
  split; [by apply foreign_context_initAuth|].
  split; [by apply foreign_context_login|].
  split; [by apply foreign_context_register|].
  split; [by apply foreign_context_logout|].
  split; [by apply foreign_context_updateProfile|].
  split; [by apply foreign_context_logout|].
  by apply foreign_handleSave.
Qed.

Lemma foreign_cookies_untouched_witness :
  cookies (snd (AuthContext.logout (NoResponse (js "Network Error"))
                  (with_cookies (insert "theme" (js "dark"))
                     (session_of (sample_user "admin")))))
    !! "theme"
  = Some (js "dark").
Proof.
  pose proof (foreign_cookies_untouched "theme"
                (with_cookies (insert "theme" (js "dark"))
                   (session_of (sample_user "admin")))
                (NoResponse []) (NoResponse []) (NoResponse []) (NoResponse [])
                (NoResponse (js "Network Error"))
                {| LoginRequest.email := []; LoginRequest.password := [] |}
                {| RegisterRequest.email := []; RegisterRequest.password := [];
                   RegisterRequest.firstName := [];
                   RegisterRequest.lastName := [];
                   RegisterRequest.phone := None |}
                [] [] [] JNull ProfilePage.initial) as H.
  cbv zeta in H.
  destruct H as (_ & _ & _ & _ & _ & _ & _ & _ & _ & _ & _ & H & _).
  - unfold foreign. repeat split; discriminate.
  - rewrite H. reflexivity.
Defined.

Lemma service_logout_sent reply c :
  sent (snd (AuthService.logout reply c))
  = sent c ++ [ {| method := "POST"; url := "/auth/logout"; body := None;
                   authorization :=
                     (fun t => js "Bearer " ++ t) <$> AuthService.getToken c |} ].
Proof.
  rewrite <- (send_sent "POST" "/auth/logout" None reply c).
  unfold AuthService.logout, Api.post.
  destruct (send_spec "POST" "/auth/logout" None reply c) as [r Hr].
  unfold try_finally, try_catch. rewrite Hr.
  by destruct reply as [[]|status err|msg].
Qed.

(** X25. logout() tells the backend before it forgets the session: one
    POST /auth/logout goes out, without a body, carrying the bearer token
    that was stored when logout() was called; when it is over no token is
    stored, whatever the backend answered. The provider's logout sends the
    same request. *)
Theorem logout_request_carries_token reply c :
  let request :=
    {| method := "POST"; url := "/auth/logout"; body := None;
       authorization :=
         (fun t => js "Bearer " ++ t) <$> AuthService.getToken c |} in
  sent (snd (AuthService.logout reply c)) = sent c ++ [request]
  /\ AuthService.getToken (snd (AuthService.logout reply c)) = None
  /\ sent (snd (AuthContext.logout reply c)) = sent c ++ [request]
  /\ AuthService.getToken (snd (AuthContext.logout reply c)) = None.
Proof.
  cbv zeta.
  pose proof (service_logout_sent reply c) as Hs.
  pose proof (service_logout_sent reply (with_isLoading true c)) as Hs'.
  destruct (service_logout_cookies reply c) as [_ Hck].
  destruct (context_logout_cookies reply c) as [_ Hck'].
  destruct (service_logout_spec reply (with_isLoading true c))
    as (c1 & Hc1 & _).
  assert (Heq : AuthContext.logout reply c
                = (Return tt,
                   with_isLoading false
                     (with_route "/auth/login"
                        (with_user JNull (AuthService.clearAuth c1))))).
  { unfold AuthContext.logout, try_finally, try_catch.
    unfold AuthContext.setIsLoading at 1. unfold bind at 1, modify at 1.
    unfold bind at 1. rewrite Hc1. reflexivity. }
  rewrite Hc1 in Hs'. cbn [snd] in Hs'.
  split; [exact Hs|].
  split.
  { unfold AuthService.getToken. rewrite Hck.
    by rewrite clearAuth_token. }
  split.
  { rewrite Heq. exact Hs'. }
  unfold AuthService.getToken. rewrite Hck'. by rewrite clearAuth_token.
Qed.

(** X26. The provider's login returns normally exactly when the backend
    accepted the credentials, js-cookie could store both tokens of the
    response (neither holds a lone surrogate), and the role of the returned
    user is admin; in every other case it throws and does not navigate. *)
Theorem login_returns_only_for_admin mail password login_reply logout_reply c :
  (fst (AuthContext.login mail password login_reply logout_reply c) = Return tt
   <-> exists response,
         login_reply = Fulfilled response
         /\ storable (data response) = true
         /\ role (data_user (data response)) = js "admin")
  /\ (fst (AuthContext.login mail password login_reply logout_reply c)
      <> Return tt ->
      exists e,
        fst (AuthContext.login mail password login_reply logout_reply c)
        = Throw e
        /\ routes (snd (AuthContext.login mail password login_reply
                          logout_reply c))
           = routes c).
Proof.
  destruct login_reply as [response|status err|msg].
  - destruct (storable (data response)) eqn:Hst.
    + destruct (context_login_fulfilled mail password response logout_reply c
                  Hst) as (c1 & Heq & Hroutes & _).
      rewrite Heq.
      destruct (decide (role (data_user (data response)) <> js "admin"))
        as [Hne|He]; cbn [fst snd].
      * split.
        -- split; [discriminate|].
           intros (response' & [= <-] & _ & Hrole). done.
        -- intros _. eexists. split; [reflexivity|]. exact Hroutes.
      * split; [|done].
        split; [|done]. intros _. exists response. split; [done|].
        split; [done|].
        by destruct (decide (role (data_user (data response)) = js "admin")).
    + destruct (context_login_refused mail password response logout_reply c
                  Hst) as [r ->].
      cbn [fst snd]. split.
      * split; [discriminate|].
        intros (response' & [= <-] & Hst' & _). congruence.
      * intros _. eexists. split; [reflexivity|].
        unfold refused. by destruct (Cookies.isWellFormed _).
  - destruct (context_login_rejected mail password (Failed status err)
                logout_reply c eq_refl) as [r ->].
    cbn [fst snd]. split.
    + split; [discriminate|]. by intros (response' & [=] & _).
    + intros _. eexists. split; [reflexivity|].
      cbn [settle]. by destruct (decide (status = 401%N)).
  - destruct (context_login_rejected mail password (NoResponse msg)
                logout_reply c eq_refl) as [r ->].
    cbn [fst snd]. split.
    + split; [discriminate|]. by intros (response' & [=] & _).
    + intros _. eexists. split; [reflexivity|]. reflexivity.
Qed.

(** ** Tokens that js-cookie refuses *)

Lemma refused_cookies d c :
  cookies (refused d c)
  = if Cookies.isWellFormed (data_token d)
    then <[AuthService.TOKEN_KEY := data_token d]> (cookies c)
    else cookies c.
Proof. unfold refused. by destruct (Cookies.isWellFormed (data_token d)). Qed.

Lemma refused_context d c :
  user (refused d c) = user c /\ routes (refused d c) = routes c
  /\ sent (refused d c) = sent c /\ error (refused d c) = error c.
Proof. unfold refused. by destruct (Cookies.isWellFormed (data_token d)). Qed.

(** X27. When the backend accepts a login or a registration and one of the
    two tokens of the response holds a lone surrogate, js-cookie refuses
    it: login and register of the session manager throw Login failed and
    Registration failed, the user is not stored, and of the tokens the
    access token alone is stored, when it is the refresh token that is
    refused.  The provider's login and register throw the same message and
    record it, adopt nobody and do not navigate; login does not come to its
    check of the role, so that nothing but the one request is sent. *)
Theorem unstorable_token_fails
    credentials registration mail password response logout_reply c :
  storable (data response) = false ->
  let kept :=
    if Cookies.isWellFormed (data_token (data response))
    then <[AuthService.TOKEN_KEY := data_token (data response)]> (cookies c)
    else cookies c in
  (let result := AuthService.login credentials (Fulfilled response) c in
   fst result = Throw (JsError (js "Login failed"))
   /\ cookies (snd result) = kept)
  /\ (let result := AuthService.register registration (Fulfilled response) c in
      fst result = Throw (JsError (js "Registration failed"))
      /\ cookies (snd result) = kept)
  /\ (let result :=
        AuthContext.login mail password (Fulfilled response) logout_reply c in
      fst result = Throw (JsError (js "Login failed"))
      /\ error (snd result) = Some (js "Login failed")
      /\ user (snd result) = user c
      /\ routes (snd result) = routes c
      /\ isLoading (snd result) = false
      /\ cookies (snd result) = kept
      /\ length (sent (snd result)) = S (length (sent c)))
  /\ (let result := AuthContext.register registration (Fulfilled response) c in
      fst result = Throw (JsError (js "Registration failed"))
      /\ error (snd result) = Some (js "Registration failed")
      /\ user (snd result) = user c
      /\ routes (snd result) = routes c
      /\ isLoading (snd result) = false
      /\ cookies (snd result) = kept).
Proof.
  intros Hst kept. subst kept. cbv zeta.
  destruct (service_login_spec credentials (Fulfilled response) c) as [r1 ->].
  destruct (service_register_spec registration (Fulfilled response) c)
    as [r2 ->].
  destruct (context_login_refused mail password response logout_reply c Hst)
    as [r3 ->].
  destruct (context_register_refused registration response c Hst) as [r4 ->].
  rewrite Hst. cbn [fst snd].
  cbn [error user routes isLoading cookies sent with_isLoading with_error].
  rewrite !refused_cookies.
  destruct (refused_context (data response)
              (with_sent r3 (with_error None (with_isLoading true c))))
    as (-> & -> & -> & _).
  destruct (refused_context (data response)
              (with_sent r4 (with_error None (with_isLoading true c))))
    as (-> & -> & _).
  cbn [cookies user routes sent with_sent with_error with_isLoading].
  rewrite length_app. cbn [length]. rewrite Nat.add_1_r.
  repeat split.
Qed.

Lemma unstorable_token_fails_witness :
  let c := session_of (sample_user "admin") in
  let result :=
    AuthContext.login (js "eve@example.com") (js "pw")
      (Fulfilled (unstorable_response "customer")) (Fulfilled tt) c in
  fst result = Throw (JsError (js "Login failed"))
  /\ error (snd result) = Some (js "Login failed")
  /\ user (snd result) = user c
  /\ routes (snd result) = routes c
  /\ isLoading (snd result) = false
  /\ cookies (snd result) = cookies c
  /\ length (sent (snd result)) = S (length (sent c)).
Proof.
  destruct (unstorable_token_fails
              {| LoginRequest.email := js "eve@example.com";
                 LoginRequest.password := js "pw" |}
              {| RegisterRequest.email := js "eve@example.com";
                 RegisterRequest.password := js "pw";
                 RegisterRequest.firstName := js "Eve";
                 RegisterRequest.lastName := js "Doe";
                 RegisterRequest.phone := None |}
              (js "eve@example.com") (js "pw")
              (unstorable_response "customer") (Fulfilled tt)
              (session_of (sample_user "admin")) eq_refl)
    as (_ & _ & H & _).
  exact H.
Defined.

(** X28. setUser is never refused by js-cookie: JSON.stringify writes a
    lone surrogate of a field as an escape, so that the text of a user
    whose strings are sequences of 16-bit units is well formed, and
    Cookies.set stores it under the key of the user without throwing. *)
Theorem setUser_never_refused u c :
  wf_user u ->
  Cookies.isWellFormed (stringify (user_to_json u)) = true
  /\ Cookies.set AuthService.USER_KEY (stringify (user_to_json u)) c
     = (Return tt, AuthService.setUser u c).
Proof.
  intros Hu. pose proof (stringify_user_wf u Hu) as Hw.
  split; [exact Hw|]. unfold Cookies.set. by rewrite Hw.
Qed.

Lemma setUser_never_refused_witness :
  let u := sample_user "admin" in
  Cookies.isWellFormed (stringify (user_to_json u)) = true
  /\ Cookies.set AuthService.USER_KEY (stringify (user_to_json u))
       fresh_client
     = (Return tt, AuthService.setUser u fresh_client).
Proof.
  apply (setUser_never_refused (sample_user "admin") fresh_client).
  unfold wf_user, wf_address, wf_opt. simpl. repeat split; apply wf_js.
Defined.

(** ** The model on concrete runs *)

(** An admin logs in on a fresh tab: the three cookies are written, both
    queries answer true and the router goes to the dashboard once. *)
Example login_admin_run :
  let result :=
    AuthContext.login (js "ada@example.com") (js "pw")
      (Fulfilled (sample_response "admin")) (Fulfilled tt) fresh_client in
  fst result = Return tt
  /\ AuthService.getToken (snd result) = Some (js "tok")
  /\ AuthService.getRefreshToken (snd result) = Some (js "ref")
  /\ AuthService.getUser (snd result) = user_to_json (sample_user "admin")
  /\ AuthService.isAuthenticated (snd result) = true
  /\ AuthService.isAdmin (snd result) = true
  /\ AuthContext.isAuthenticated (snd result) = true
  /\ AuthContext.isAdmin (snd result) = true
  /\ routes (snd result) = ["/dashboard"]
  /\ isLoading (snd result) = false
  /\ error (snd result) = None.
Proof. vm_compute. repeat split. Qed.

(** Wrong credentials: the message of the backend comes out as it is and
    nothing is stored. *)
Example login_invalid_credentials_run :
  let result :=
    AuthContext.login (js "a@b.com") (js "x")
      (Failed 400 (Some (js "Invalid credentials"))) (Fulfilled tt)
      fresh_client in
  fst result = Throw (JsError (js "Invalid credentials"))
  /\ cookies (snd result) = ∅
  /\ user (snd result) = JNull
  /\ error (snd result) = Some (js "Invalid credentials")
  /\ isLoading (snd result) = false.
Proof. vm_compute. repeat split. Qed.

(** A request made with a session carries the bearer header; one made
    without a token carries none. *)
Example bearer_header_run :
  map authorization
    (sent (snd (AuthService.getCurrentUser (NoResponse (js "Network Error"))
                  (session_of (sample_user "admin")))))
  = [Some (js "Bearer tok")]
  /\ map authorization
       (sent (snd (AuthService.forgotPassword (js "ada@example.com")
                     (NoResponse (js "Network Error")) fresh_client)))
     = [None].
Proof. vm_compute. repeat split. Qed.

(** The body of a registration always carries the admin role. *)
Example register_forces_admin_run :
  map body
    (sent (snd (AuthService.register
                  {| RegisterRequest.email := js "ada@example.com";
                     RegisterRequest.password := js "pw";
                     RegisterRequest.firstName := js "Ada";
                     RegisterRequest.lastName := js "Lovelace";
                     RegisterRequest.phone := None |}
                  (NoResponse (js "Network Error")) fresh_client)))
  = [Some (JObj [(js "email", JStr (js "ada@example.com"));
                 (js "password", JStr (js "pw"));
                 (js "firstName", JStr (js "Ada"));
                 (js "lastName", JStr (js "Lovelace"));
                 (js "role", JStr (js "admin"))])].
Proof. vm_compute. repeat split. Qed.

(** Texts that JSON.parse rejects, and texts it accepts. *)
Example parse_run :
  parse (js "{oops") = None
  /\ parse (js "01") = None
  /\ parse (js "[1,]") = None
  /\ parse (js "tru") = None
  /\ parse (js "") = None
  /\ parse (js " [ true , null , -1.5e3 ] ")
     = Some (JArr [JBool true; JNull; JNum (js "-1.5e3")])
  /\ parse (js "{}") = Some (JObj [])
  /\ map truthy [JNum (js "0"); JNum (js "-0.0"); JNum (js "1e-400");
                 JNum (js "5e-324"); JStr []; JObj []]
     = [false; false; false; true; false; true].
Proof. vm_compute. repeat split. Qed.

Example regex_run :
  map (Regex.test ProfilePage.EMAIL)
    [js "a@b.c"; js "a@b"; js " x@y.z "; js "a @b.c"; js "@b.c"; js "a@.c";
     js "a@b."; js "hello a@@..x bye"; []]
  = [true; false; true; false; false; false; false; true; false]
  /\ map (Regex.test_whole ProfilePage.PHONE)
       [js "+1-555-0000"; js "(555) 123"; js "+"; []; js "12a"; js "1+2";
        js "++1"; js "- -"]
     = [true; true; false; false; false; false; false; true]
  /\ map JsString.trim [js "  a b  "; js "   "; []] = [js "a b"; []; []]
  /\ JsString.split 46 (js "address.street") = [js "address"; js "street"]
  /\ JsString.split 46 (js "a..b") = [js "a"; []; js "b"]
  /\ JsString.split 46 [] = [[]].
Proof. vm_compute. repeat split. Qed.

Example isWellFormed_run :
  map Cookies.isWellFormed
    [js "tok"; []; [0xD83D; 0xDE00]%N; [0xD800]%N; [0xDC00]%N;
     [0xDE00; 0xD83D]%N; [97; 0xD83D]%N; [0xD83D; 0xD83D; 0xDE00]%N]
  = [true; true; true; false; false; false; false; false]
  /\ fst (AuthService.setToken [0xD800%N] fresh_client)
     = Throw (URIError (js "URI malformed"))
  /\ parse (34%N :: js "\ud800" ++ [34%N]) = Some (JStr [0xD800%N])
  /\ stringify (JStr [0xD800%N]) = 34%N :: js "\ud800" ++ [34%N].
Proof. vm_compute. repeat split. Qed.
